(** * make_manifest.py: the pack manifest generator, embedded and verified

    The script lists a directory, keeps the regular files whose name ends
    with a suffix, records size, modification time and SHA-256 digest of each
    one, and writes the mapping as JSON.  The definitions below follow
    [src/make_manifest.py] function by function; the parts of the Python
    library the script calls ([str], [os.path], [hashlib], [datetime],
    [json]) are modelled next to it from their documented behaviour. *)

From Stdlib Require Import ZArith NArith QArith Qround Lia Lqa Bool.
From Stdlib Require Import Strings.String Strings.Ascii Init.Byte.
From Stdlib Require Import DecimalString.
From stdpp Require Import base list sorting strings gmap.

Local Open Scope stdpp_scope.

(** ** Exceptions and the result monad *)

Inductive exn :=
  | OSError (path : string)       (* FileNotFoundError, PermissionError, EIO ... *)
  | ValueError (msg : string)     (* datetime: year out of range *)
  | OutOfFuel.                    (* artefact of the bounded loop, never raised *)

Inductive result (A : Type) :=
  | Ok (a : A)
  | Raise (e : exn).
Arguments Ok {A} a.
Arguments Raise {A} e.

(** [x ← m; k] runs [m] and passes its value on; an exception propagates. *)
#[global] Instance result_ret : MRet result := fun _ a => Ok a.
#[global] Instance result_bind : MBind result := fun _ _ k m =>
  match m with
  | Ok a => k a
  | Raise e => Raise e
  end.

Definition is_ok {A} (m : result A) : bool :=
  match m with Ok _ => true | Raise _ => false end.

(** ** Python [str] methods used by the script

    A [str] is modelled as a [string]; each character stands for the code
    point of the same number, so the model covers names made of code points
    below 256. *)

Module PyStr.

Definition startswith (s p : string) : bool := String.prefix p s.

(** [s.endswith(suffix)]: the last [len(suffix)] characters are compared. *)
Definition endswith (s suffix : string) : bool :=
  let n := String.length s in
  let m := String.length suffix in
  (m <=? n)%nat && String.eqb (String.substring (n - m) m s) suffix.

(** [s.replace(old, new)]: every non-overlapping occurrence, left to
    right.  [skip] counts the characters of a matched occurrence that are
    still to be dropped. *)
Fixpoint replace_go (old new : string) (skip : nat) (s : string) : string :=
  match s with
  | EmptyString =>
      match skip, old with
      | O, EmptyString => new
      | _, _ => EmptyString
      end
  | String c s' =>
      match skip with
      | S k => replace_go old new k s'
      | O =>
          if String.prefix old s then
            match old with
            | EmptyString => new +:+ String c (replace_go old new 0 s')
            | String _ o' => new +:+ replace_go old new (String.length o') s'
            end
          else String c (replace_go old new 0 s')
      end
  end.

Definition replace (s old new : string) : string := replace_go old new 0 s.

(** [str(n)] for a non-negative integer. *)
Definition of_N (n : N) : string := NilEmpty.string_of_uint (N.to_uint n).

(** ["%0<w>d" % n] for a non-negative integer. *)
Fixpoint zeros (k : nat) : string :=
  match k with O => EmptyString | S k' => String "0" (zeros k') end.

Definition zfill (w : nat) (s : string) : string :=
  zeros (w - String.length s) +:+ s.

Definition fmt_d (w : nat) (n : N) : string := zfill w (of_N n).

End PyStr.

(** ** [os.path.join] on POSIX, for two components *)

Definition path_join (a b : string) : string :=
  if PyStr.startswith b "/" then b
  else if String.eqb a EmptyString || PyStr.endswith a "/" then a +:+ b
  else a +:+ "/" +:+ b.


(** ** SHA-256 (FIPS 180-4), the digest behind [hashlib.sha256]

    Words are 32-bit, held in [N] with the wrap-around written out. *)

Module SHA256.
Local Open Scope N_scope.

Definition mask32 : N := 0xFFFFFFFF.
Definition add32 (x y : N) : N := (x + y) mod 0x100000000.
Definition rotr (n x : N) : N :=
  N.lor (N.shiftr x n) (N.land (N.shiftl x (32 - n)) mask32).
Definition shr (n x : N) : N := N.shiftr x n.
Definition not32 (x : N) : N := N.lxor x mask32.

Definition Ch (x y z : N) : N := N.lxor (N.land x y) (N.land (not32 x) z).
Definition Maj (x y z : N) : N :=
  N.lxor (N.lxor (N.land x y) (N.land x z)) (N.land y z).
Definition bsig0 (x : N) : N := N.lxor (N.lxor (rotr 2 x) (rotr 13 x)) (rotr 22 x).
Definition bsig1 (x : N) : N := N.lxor (N.lxor (rotr 6 x) (rotr 11 x)) (rotr 25 x).
Definition ssig0 (x : N) : N := N.lxor (N.lxor (rotr 7 x) (rotr 18 x)) (shr 3 x).
Definition ssig1 (x : N) : N := N.lxor (N.lxor (rotr 17 x) (rotr 19 x)) (shr 10 x).

(** The constants are fractional bits of roots of the first primes. *)
Definition is_prime (n : N) : bool :=
  (2 <=? n) && List.forallb (fun d => negb (n mod d =? 0))
                 (List.map N.of_nat (List.seq 2 (N.to_nat n - 2))).

Definition primes64 : list N :=
  Eval vm_compute in List.filter is_prime (List.map N.of_nat (List.seq 2 310)).

(** Integer cube root, one bit at a time from bit [bits - 1] down. *)
Fixpoint icbrt_go (bits : nat) (n r : N) : N :=
  match bits with
  | O => r
  | S b =>
      let r' := r + N.shiftl 1 (N.of_nat b) in
      if r' * r' * r' <=? n then icbrt_go b n r' else icbrt_go b n r
  end.

Definition icbrt (n : N) : N := icbrt_go 40 n 0.

(** [K]: the first 32 fractional bits of the cube roots of the first 64
    primes. *)
Definition K : list N :=
  Eval vm_compute in
    List.map (fun p => icbrt (p * 2 ^ 96) mod 0x100000000) primes64.

(** The eight chaining words. *)
Record regs := Regs { ra : N; rb : N; rc : N; rd : N; re : N; rf : N; rg : N; rh : N }.

(** [H0]: the first 32 fractional bits of the square roots of the first 8
    primes. *)
Definition H0 : regs :=
  Eval vm_compute in
    let h i := N.sqrt (List.nth i primes64 0 * 2 ^ 64) mod 0x100000000 in
    Regs (h 0%nat) (h 1%nat) (h 2%nat) (h 3%nat) (h 4%nat) (h 5%nat) (h 6%nat) (h 7%nat).

(** Padding: a 1 bit, zero bits up to 56 mod 64 bytes, the bit length on
    eight bytes, most significant first. *)
Definition be_bytes (k : nat) (x : N) : list N :=
  List.map (fun i => (N.shiftr x (8 * N.of_nat i)) mod 256) (List.rev (List.seq 0 k)).

Definition pad (msg : list N) : list N :=
  let len := N.of_nat (List.length msg) in
  let k := N.to_nat ((119 - len mod 64) mod 64) in
  msg ++ 0x80 :: List.repeat 0 k ++ be_bytes 8 (8 * len).

Fixpoint be_words (bs : list N) : list N :=
  match bs with
  | b0 :: b1 :: b2 :: b3 :: rest =>
      (b0 * 0x1000000 + b1 * 0x10000 + b2 * 0x100 + b3) :: be_words rest
  | _ => []
  end.

(** Message schedule: [sched k W] extends the words by [k] more. *)
Fixpoint sched (k : nat) (W : list N) : list N :=
  match k with
  | O => W
  | S k' =>
      let t := List.length W in
      let w j := List.nth (t - j) W 0 in
      sched k' (W ++ [add32 (add32 (add32 (ssig1 (w 2%nat)) (w 7%nat)) (ssig0 (w 15%nat))) (w 16%nat)])
  end.

Definition round (s : regs) (kw : N * N) : regs :=
  let '(k, w) := kw in
  let t1 := add32 (add32 (add32 (add32 (rh s) (bsig1 (re s))) (Ch (re s) (rf s) (rg s))) k) w in
  let t2 := add32 (bsig0 (ra s)) (Maj (ra s) (rb s) (rc s)) in
  Regs (add32 t1 t2) (ra s) (rb s) (rc s) (add32 (rd s) t1) (re s) (rf s) (rg s).

Definition compress (h : regs) (block : list N) : regs :=
  let W := sched 48 (be_words block) in
  let s := List.fold_left round (List.combine K W) h in
  Regs (add32 (ra h) (ra s)) (add32 (rb h) (rb s)) (add32 (rc h) (rc s))
       (add32 (rd h) (rd s)) (add32 (re h) (re s)) (add32 (rf h) (rf s))
       (add32 (rg h) (rg s)) (add32 (rh h) (rh s)).

(** The padded message is consumed 64 bytes at a time; [n] bounds the
    number of blocks. *)
Fixpoint blocks (n : nat) (h : regs) (bs : list N) : regs :=
  match n, bs with
  | S n', _ :: _ => blocks n' (compress h (List.firstn 64 bs)) (List.skipn 64 bs)
  | _, _ => h
  end.

Definition digest_regs (msg : list byte) : regs :=
  let p := pad (List.map Byte.to_N msg) in
  blocks (List.length p) H0 p.

(** Lowercase hexadecimal. *)
Definition hexdigit (d : N) : ascii :=
  match d with
  | 0 => "0" | 1 => "1" | 2 => "2" | 3 => "3" | 4 => "4" | 5 => "5" | 6 => "6"
  | 7 => "7" | 8 => "8" | 9 => "9" | 10 => "a" | 11 => "b" | 12 => "c"
  | 13 => "d" | 14 => "e" | _ => "f"
  end%char.

Definition hex8 (x : N) (tail : string) : string :=
  String (hexdigit (N.shiftr x 28 mod 16)) (String (hexdigit (N.shiftr x 24 mod 16))
  (String (hexdigit (N.shiftr x 20 mod 16)) (String (hexdigit (N.shiftr x 16 mod 16))
  (String (hexdigit (N.shiftr x 12 mod 16)) (String (hexdigit (N.shiftr x 8 mod 16))
  (String (hexdigit (N.shiftr x 4 mod 16)) (String (hexdigit (x mod 16)) tail))))))).

Definition hex_of_regs (s : regs) : string :=
  hex8 (ra s) (hex8 (rb s) (hex8 (rc s) (hex8 (rd s)
    (hex8 (re s) (hex8 (rf s) (hex8 (rg s) (hex8 (rh s) EmptyString))))))).

Definition hexdigest (msg : list byte) : string := hex_of_regs (digest_regs msg).

End SHA256.

(** ** [datetime]: UTC broken-down time of a POSIX timestamp

    A [float] timestamp is modelled by the rational number it denotes; the
    arithmetic that [fromtimestamp] does on it is exact here. *)

Module PyTime.
Local Open Scope Z_scope.

Record datetime := DateTime {
  year : Z; month : Z; day : Z;
  hour : Z; minute : Z; second : Z;
  microsecond : Z
}.

(** [math.modf]: integral part towards zero. *)
Definition trunc (x : Q) : Z :=
  if Qle_bool 0 x then Qfloor x else Qceiling x.

(** [round], the built-in: to the nearest integer, ties to even. *)
Definition round_half_even (x : Q) : Z :=
  let f := Qfloor x in
  match Qcompare (x - inject_Z f) (1 # 2) with
  | Lt => f
  | Gt => f + 1
  | Eq => if Z.even f then f else f + 1
  end.

Definition DAYS_IN_MONTH (m : Z) : Z :=
  match m with
  | 1 => 31 | 2 => 28 | 3 => 31 | 4 => 30 | 5 => 31 | 6 => 30
  | 7 => 31 | 8 => 31 | 9 => 30 | 10 => 31 | 11 => 30 | 12 => 31
  | _ => -1
  end.

Definition DAYS_BEFORE_MONTH (m : Z) : Z :=
  match m with
  | 1 => 0 | 2 => 31 | 3 => 59 | 4 => 90 | 5 => 120 | 6 => 151
  | 7 => 181 | 8 => 212 | 9 => 243 | 10 => 273 | 11 => 304 | 12 => 334
  | _ => -1
  end.

Definition b2z (b : bool) : Z := if b then 1 else 0.

(** [_ord2ymd]: proleptic Gregorian ordinal (day 1 is 0001-01-01) to
    year, month, day. *)
Definition ord2ymd (ordinal : Z) : Z * Z * Z :=
  let n := ordinal - 1 in
  let n400 := n / 146097 in
  let n := n mod 146097 in
  let n100 := n / 36524 in
  let n := n mod 36524 in
  let n4 := n / 1461 in
  let n := n mod 1461 in
  let n1 := n / 365 in
  let n := n mod 365 in
  let year := n400 * 400 + 1 + n100 * 100 + n4 * 4 + n1 in
  if (n1 =? 4) || (n100 =? 4) then (year - 1, 12, 31)
  else
    let leapyear := (n1 =? 3) && (negb (n4 =? 24) || (n100 =? 3)) in
    let month := Z.shiftr (n + 50) 5 in
    let preceding := DAYS_BEFORE_MONTH month + b2z ((2 <? month) && leapyear) in
    if n <? preceding then
      let month := month - 1 in
      let preceding := preceding - (DAYS_IN_MONTH month + b2z ((month =? 2) && leapyear)) in
      (year, month, n - preceding + 1)
    else (year, month, n - preceding + 1).

(** [time.gmtime] followed by the [datetime] constructor, which accepts
    years 1 to 9999 only. *)
Definition of_epoch_seconds (t us : Z) : result datetime :=
  let days := t / 86400 in
  let rem := t mod 86400 in
  let '(y, m, d) := ord2ymd (days + 719163) in
  if (1 <=? y) && (y <=? 9999) then
    Ok (DateTime y m d (rem / 3600) (rem mod 3600 / 60) (Z.min (rem mod 60) 59) us)
  else Raise (ValueError "year is out of range").

(** [datetime.fromtimestamp(ts, tz=timezone.utc)]: the fraction is
    rounded to microseconds, carrying into the seconds when it reaches one
    million. *)
Definition fromtimestamp_utc (ts : Q) : result datetime :=
  let t := trunc ts in
  let frac := (ts - inject_Z t)%Q in
  let us := round_half_even (frac * inject_Z 1000000)%Q in
  if 1000000 <=? us then of_epoch_seconds (t + 1) (us - 1000000)
  else if us <? 0 then of_epoch_seconds (t - 1) (us + 1000000)
  else of_epoch_seconds t us.

(** [dt.replace(microsecond=us)] *)
Definition replace_microsecond (us : Z) (dt : datetime) : datetime :=
  DateTime (year dt) (month dt) (day dt) (hour dt) (minute dt) (second dt) us.

(** [dt.isoformat()] of an aware datetime in UTC. *)
Definition isoformat (dt : datetime) : string :=
  PyStr.fmt_d 4 (Z.to_N (year dt)) +:+ "-" +:+ PyStr.fmt_d 2 (Z.to_N (month dt)) +:+ "-"
  +:+ PyStr.fmt_d 2 (Z.to_N (day dt)) +:+ "T" +:+ PyStr.fmt_d 2 (Z.to_N (hour dt)) +:+ ":"
  +:+ PyStr.fmt_d 2 (Z.to_N (minute dt)) +:+ ":" +:+ PyStr.fmt_d 2 (Z.to_N (second dt))
  +:+ (if microsecond dt =? 0 then EmptyString else "." +:+ PyStr.fmt_d 6 (Z.to_N (microsecond dt)))
  +:+ "+00:00".

End PyTime.

(** ** The script: [iso8601_utc] *)

Definition iso8601_utc (ts : Q) : result string :=
  dt ← PyTime.fromtimestamp_utc ts;
  Ok (PyStr.replace (PyTime.isoformat (PyTime.replace_microsecond 0 dt)) "+00:00" "Z").

(** ** Python values that reach [json.dump], and [dict] with its insertion order *)

#[warnings="-register-all"]
Inductive json :=
  | JStr (s : string)
  | JInt (n : Z)
  | JObj (items : list (string * json)).

(** [d[k] = v]: an existing key keeps its position, a new one goes last. *)
Fixpoint dict_set {V} (d : list (string * V)) (k : string) (v : V) : list (string * V) :=
  match d with
  | [] => [(k, v)]
  | (k', v') :: d' =>
      if String.eqb k' k then (k, v) :: d' else (k', v') :: dict_set d' k v
  end.

Fixpoint dict_get {V} (d : list (string * V)) (k : string) : option V :=
  match d with
  | [] => None
  | (k', v') :: d' => if String.eqb k' k then Some v' else dict_get d' k
  end.

Definition dict_keys {V} (d : list (string * V)) : list string := List.map fst d.

(** [sorted(names)]: code-point order; the result of sorting by a total
    order is unique, so the algorithm used does not show. *)
Definition sorted (names : list string) : list string := merge_sort String.le names.

Module PyJson.

(** The quotation mark, ascii code 34. *)
Definition dquote : string := String "034" EmptyString.

Definition hex2 (c : ascii) : string :=
  let n := N_of_ascii c in
  String (SHA256.hexdigit (n / 16)) (String (SHA256.hexdigit (n mod 16)) EmptyString).

(** One character of [py_encode_basestring_ascii]. *)
Definition escape_char (c : ascii) : string :=
  let n := N_of_ascii c in
  if (n =? 34)%N then String "\" dquote
  else if (n =? 92)%N then "\\"
  else if (n =? 10)%N then "\n"
  else if (n =? 13)%N then "\r"
  else if (n =? 9)%N then "\t"
  else if (n =? 8)%N then "\b"
  else if (n =? 12)%N then "\f"
  else if ((32 <=? n) && (n <=? 126))%N then String c EmptyString
  else "\u00" +:+ hex2 c.

Fixpoint escape (s : string) : string :=
  match s with
  | EmptyString => EmptyString
  | String c s' => escape_char c +:+ escape s'
  end.

Definition encode_basestring_ascii (s : string) : string :=
  dquote +:+ escape s +:+ dquote.

Definition encode_int (n : Z) : string :=
  if (n <? 0)%Z then "-" +:+ PyStr.of_N (Z.to_N (- n)) else PyStr.of_N (Z.to_N n).

Fixpoint spaces (k : nat) : string :=
  match k with O => EmptyString | S k' => String " " (spaces k') end.

(** The line feed of ascii code 10. *)
Definition LF : string := String (ascii_of_N 10) EmptyString.

Definition key_le (a b : string * string) : Prop := String.le a.1 b.1.
#[global] Instance key_le_dec : RelDecision key_le.
Proof. intros a b. unfold key_le. apply _. Defined.

Section encoder.
(** [indent] is [None] or the number of spaces per level. *)
Variable indent : option nat.
Variable sort_keys : bool.

Definition item_separator : string :=
  match indent with None => ", " | Some _ => "," end.
Definition key_separator : string := ": ".

Definition newline_indent (level : nat) : string :=
  match indent with
  | None => EmptyString
  | Some k => LF +:+ spaces (k * level)
  end.

(** Items already encoded, joined by the separator. *)
Fixpoint join_items (level : nat) (first : bool) (l : list (string * string)) : string :=
  match l with
  | [] => EmptyString
  | (k, v) :: l' =>
      (if first then EmptyString else item_separator +:+ newline_indent level)
      +:+ encode_basestring_ascii k +:+ key_separator +:+ v +:+ join_items level false l'
  end.

(** [_iterencode]: the values of a dict are encoded one level deeper;
    with [sort_keys] the items are emitted in key order. *)
Fixpoint iterencode (level : nat) (o : json) : string :=
  match o with
  | JStr s => encode_basestring_ascii s
  | JInt n => encode_int n
  | JObj [] => "{}"
  | JObj items =>
      let encoded := List.map (fun kv => (kv.1, iterencode (S level) kv.2)) items in
      let ordered := if sort_keys then merge_sort key_le encoded else encoded in
      "{" +:+ newline_indent (S level) +:+ join_items (S level) true ordered
      +:+ newline_indent level +:+ "}"
  end.

End encoder.

(** [json.dumps(o, indent=indent, sort_keys=sort_keys)] *)
Definition dumps (indent : option nat) (sort_keys : bool) (o : json) : string :=
  iterencode indent sort_keys 0 o.

End PyJson.

(** ** The file system the script reads

    A snapshot of the paths the process can see, as [os.stat] resolves them.
    What can go wrong with a regular file after the script has decided to
    read it is recorded with the file. *)

Inductive fault :=
  | NoFault
  | Removed              (* gone after the [isfile] test: [os.stat] raises *)
  | Denied               (* [open] raises PermissionError *)
  | ReadErrorAt (off : N). (* [read] raises once byte [off] would be delivered *)

Inductive node :=
  | Reg (mtime : Q) (content : list byte) (flt : fault)
  | Dir (names : list string)     (* what [os.listdir] returns, in its order *)
  | Special.                      (* device, socket, fifo *)

Record world := World {
  abspath : string → string;      (* [os.path.abspath] in the process's cwd *)
  fs : gmap string node
}.

Record stat_result := StatResult { st_size : N; st_mtime : Q }.

Definition isdir (w : world) (path : string) : bool :=
  match fs w !! path with Some (Dir _) => true | _ => false end.

Definition isfile (w : world) (path : string) : bool :=
  match fs w !! path with Some (Reg _ _ _) => true | _ => false end.

Definition listdir (w : world) (path : string) : result (list string) :=
  match fs w !! path with
  | Some (Dir names) => Ok names
  | _ => Raise (OSError path)
  end.

(** [os.stat] as the script uses it, on a path that passed [isfile]. *)
Definition os_stat (w : world) (path : string) : result stat_result :=
  match fs w !! path with
  | Some (Reg mtime content flt) =>
      match flt with
      | Removed => Raise (OSError path)
      | _ => Ok (StatResult (N.of_nat (List.length content)) mtime)
      end
  | _ => Raise (OSError path)
  end.

(** A file opened for reading: the bytes not yet delivered, and how many of
    them come before a read error, if any. *)
Record handle := Handle { h_path : string; h_rest : list byte; h_bad : option N }.

Definition open_rb (w : world) (path : string) : result handle :=
  match fs w !! path with
  | Some (Reg _ content flt) =>
      match flt with
      | NoFault => Ok (Handle path content None)
      | ReadErrorAt off => Ok (Handle path content (Some off))
      | Removed | Denied => Raise (OSError path)
      end
  | _ => Raise (OSError path)
  end.

Fixpoint take_N {A} (n : N) (l : list A) : list A :=
  match l with
  | [] => []
  | x :: l' => if (n =? 0)%N then [] else x :: take_N (N.pred n) l'
  end.

Fixpoint drop_N {A} (n : N) (l : list A) : list A :=
  match l with
  | [] => []
  | x :: l' => if (n =? 0)%N then l else drop_N (N.pred n) l'
  end.

(** [f.read(n)]: up to [n] bytes; the empty result marks the end of file. *)
Definition f_read (n : N) (f : handle) : result (list byte * handle) :=
  let chunk := take_N n (h_rest f) in
  let got := N.of_nat (List.length chunk) in
  match h_bad f with
  | Some k =>
      if (k <? got)%N then Raise (OSError (h_path f))
      else Ok (chunk, Handle (h_path f) (drop_N n (h_rest f)) (Some (k - got)%N))
  | None => Ok (chunk, Handle (h_path f) (drop_N n (h_rest f)) None)
  end.

(** [open(path, "w")]: refused on a directory; the parent directory is
    taken to exist and to be writable. *)
Definition open_w (w : world) (path : string) : result unit :=
  match fs w !! path with
  | Some (Dir _) => Raise (OSError path)
  | _ => Ok tt
  end.

(** ** [hashlib.sha256]: the object holds what it was fed *)

Record sha256_obj := Sha256Obj { fed : list byte }.

Definition sha256_new : sha256_obj := Sha256Obj [].
Definition sha256_update (h : sha256_obj) (chunk : list byte) : sha256_obj :=
  Sha256Obj (fed h ++ chunk).
Definition sha256_hexdigest (h : sha256_obj) : string := SHA256.hexdigest (fed h).

(** ** The script: [sha256_file] *)

Definition CHUNK : N := 1024 * 1024.

(** [for chunk in iter(lambda: f.read(1024 * 1024), b""): h.update(chunk)] *)
Fixpoint read_loop (fuel : nat) (h : sha256_obj) (f : handle) : result sha256_obj :=
  match fuel with
  | O => Raise OutOfFuel
  | S fuel' =>
      r ← f_read CHUNK f;
      match r.1 with
      | [] => Ok h
      | _ :: _ => read_loop fuel' (sha256_update h r.1) r.2
      end
  end.

Definition sha256_file (w : world) (path : string) : result string :=
  f ← open_rb w path;
  h ← read_loop (S (List.length (h_rest f))) sha256_new f;
  Ok (sha256_hexdigest h).

(** ** The script: [main] *)

Record Args := MkArgs {
  arg_dir : string;
  arg_out : option string;
  arg_pattern : string;
  arg_pretty : bool
}.

Inductive status :=
  | Exit (code : Z)
  | Uncaught (e : exn).   (* traceback on stderr, non-zero exit status *)

(** What a run leaves behind: exit status, the two streams, and the files
    written. *)
Record run := Run {
  r_status : status;
  r_stdout : list string;
  r_stderr : list string;
  r_written : list (string * string)
}.

(** [a or b] on an optional string: [None] and the empty string are falsy. *)
Definition py_or (a : option string) (b : string) : string :=
  match a with
  | Some s => if String.eqb s EmptyString then b else s
  | None => b
  end.

Definition entry (digest : string) (size : N) (mtime : string) : json :=
  JObj [("version", JStr digest); ("size", JInt (Z.of_N size));
        ("mtime", JStr mtime); ("sha256", JStr digest)].

(** The body of [for name in sorted(os.listdir(base_dir))], with the
    manifest passed along. *)
Fixpoint scan (w : world) (base_dir pattern : string) (names : list string)
    (manifest : list (string * json)) : result (list (string * json)) :=
  match names with
  | [] => Ok manifest
  | name :: rest =>
      if negb (PyStr.endswith name pattern) then scan w base_dir pattern rest manifest
      else
        let full_path := path_join base_dir name in
        if negb (isfile w full_path) then scan w base_dir pattern rest manifest
        else
          st ← os_stat w full_path;
          let size := st_size st in
          mtime ← iso8601_utc (st_mtime st);
          digest ← sha256_file w full_path;
          scan w base_dir pattern rest (dict_set manifest name (entry digest size mtime))
  end.

Definition build_manifest (w : world) (base_dir pattern : string)
    : result (list (string * json)) :=
  names ← listdir w base_dir;
  scan w base_dir pattern (sorted names) [].

Definition out_path_of (args : Args) (base_dir : string) : string :=
  py_or (arg_out args) (path_join base_dir "packs_manifest.json").

(** [json.dump(manifest, f, **json_kwargs); f.write("\n")] *)
Definition serialize (pretty : bool) (manifest : list (string * json)) : string :=
  (if pretty then PyJson.dumps (Some 2%nat) true (JObj manifest)
   else PyJson.dumps None false (JObj manifest)) +:+ PyJson.LF.

Definition main (args : Args) (w : world) : run :=
  let base_dir := abspath w (arg_dir args) in
  if negb (isdir w base_dir) then
    Run (Exit 1) [] ["[ERR] Not a directory: " +:+ base_dir] []
  else
    let out_path := out_path_of args base_dir in
    match build_manifest w base_dir (arg_pattern args) with
    | Raise e => Run (Uncaught e) [] [] []
    | Ok manifest =>
        match open_w w out_path with
        | Raise e => Run (Uncaught e) [] [] []
        | Ok _ =>
            Run (Exit 0)
              ["[OK] Wrote " +:+ out_path +:+ " with "
               +:+ PyStr.of_N (N.of_nat (List.length manifest)) +:+ " entries."]
              []
              [(out_path, serialize (arg_pretty args) manifest)]
        end
    end.

(** ** A sample directory *)

Definition bytes_of (s : string) : list byte := String.list_byte_of_string s.

Definition sample_fs : gmap string node :=
  <["/srv/packs" := Dir ["notapck"; "b.txt"; "sub.pck"; "foo.PCK"; "a.pck"]]>
  (<["/srv/packs/a.pck" := Reg (1762763592 # 1) (bytes_of "test") NoFault]>
  (<["/srv/packs/b.txt" := Reg (1762763593 # 1) (bytes_of "ignored") NoFault]>
  (<["/srv/packs/sub.pck" := Dir []]>
  (<["/srv/packs/foo.PCK" := Reg (1762763594 # 1) (bytes_of "upper") NoFault]>
  (<["/srv/packs/notapck" := Reg (8388607 # 4194304) [] NoFault]>
  (<["/srv/readme" := Reg 0 (bytes_of "x") NoFault]> ∅)))))).

Definition sample_world : world := World (fun p => p) sample_fs.

Definition sample_args (pretty : bool) : Args :=
  MkArgs "/srv/packs" None ".pck" pretty.

(** Expected JSON texts are written with ['] standing for the quotation mark. *)
Definition sq (s : string) : string := PyStr.replace s "'" PyJson.dquote.

(** ** The loop body, one name at a time *)

(** The two tests that a name has to pass. *)
Definition candidate (w : world) (base_dir pattern name : string) : bool :=
  PyStr.endswith name pattern && isfile w (path_join base_dir name).

(** Lines 50 to 63 for one candidate. *)
Definition entry_of (w : world) (base_dir name : string) : result json :=
  st ← os_stat w (path_join base_dir name);
  mtime ← iso8601_utc (st_mtime st);
  digest ← sha256_file w (path_join base_dir name);
  Ok (entry digest (st_size st) mtime).

(** [e[k]] on a value that is a dict. *)
Definition field (e : json) (k : string) : option json :=
  match e with
  | JObj items => dict_get items k
  | _ => None
  end.

(** ** Character classes of the output formats *)

Fixpoint forall_chars (p : ascii → bool) (s : string) : bool :=
  match s with
  | EmptyString => true
  | String c s' => p c && forall_chars p s'
  end.

Definition is_digit (c : ascii) : bool :=
  let n := N_of_ascii c in ((48 <=? n) && (n <=? 57))%N.

Definition is_lower_hex (c : ascii) : bool :=
  let n := N_of_ascii c in
  (((48 <=? n) && (n <=? 57)) || ((97 <=? n) && (n <=? 102)))%N.

(** A candidate is read without error exactly when it is still there, may
    be opened, has no read error before its end, and its modification time
    falls in the years 1 to 9999. *)
Definition readable (n : node) : bool :=
  match n with
  | Reg mtime content NoFault => is_ok (iso8601_utc mtime)
  | Reg mtime content (ReadErrorAt off) =>
      is_ok (iso8601_utc mtime) && (N.of_nat (List.length content) <=? off)%N
  | _ => false
  end.


(** The manifest, if it is built. *)
Definition build_manifest_opt (w : world) (base_dir pattern : string)
    : option (list (string * json)) :=
  match build_manifest w base_dir pattern with
  | Ok m => Some m
  | Raise _ => None
  end.

(** The manifests of the sample directory for the suffixes [.pck] and [pck]. *)
Definition sample_manifest : list (string * json) :=
  [("a.pck", entry "9f86d081884c7d659a2feaa0c55ad015a3bf4f1b2b0b822cd15d6c15b0f00a08"
               4 "2025-11-10T08:33:12Z")].

Definition sample_manifest_pck : list (string * json) :=
  [("a.pck", entry "9f86d081884c7d659a2feaa0c55ad015a3bf4f1b2b0b822cd15d6c15b0f00a08"
               4 "2025-11-10T08:33:12Z");
   ("notapck", entry "e3b0c44298fc1c149afbf4c8996fb92427ae41e4649b934ca495991b7852b855"
               0 "1970-01-01T00:00:02Z")].

(** ** The timestamp format and the second it shows *)

(** [YYYY-MM-DDTHH:MM:SSZ] *)
Definition iso_pattern (s : string) : bool :=
  match list_ascii_of_string s with
  | [y1; y2; y3; y4; d1; m1; m2; d2; a1; a2; t; h1; h2; c1; n1; n2; c2; s1; s2; z] =>
      is_digit y1 && is_digit y2 && is_digit y3 && is_digit y4
      && Ascii.eqb d1 "-" && is_digit m1 && is_digit m2
      && Ascii.eqb d2 "-" && is_digit a1 && is_digit a2
      && Ascii.eqb t "T" && is_digit h1 && is_digit h2
      && Ascii.eqb c1 ":" && is_digit n1 && is_digit n2
      && Ascii.eqb c2 ":" && is_digit s1 && is_digit s2
      && Ascii.eqb z "Z"
  | _ => false
  end.

(** The claim that the string shows the modification time cut down to whole
    seconds: it is the string of the timestamp [floor ts]. *)
Definition shows_truncated_second (ts : Q) : Prop :=
  iso8601_utc ts = iso8601_utc (inject_Z (Qfloor ts)).

(** The second that [iso8601_utc] shows: [floor ts], or the next one when
    the fraction is so close to one that it rounds to a million
    microseconds. *)
Definition shown_second (ts : Q) : Z :=
  let f := Qfloor ts in
  if Qle_bool (9999995 # 10000000) (ts - inject_Z f) then (f + 1)%Z else f.

Definition two_digits (s : string) : bool :=
  match s with
  | String a (String b EmptyString) => is_digit a && is_digit b
  | _ => false
  end.

Definition four_digits (s : string) : bool :=
  match s with
  | String a (String b (String c (String d EmptyString))) =>
      is_digit a && is_digit b && is_digit c && is_digit d
  | _ => false
  end.

(** A directory in which one pack cannot be opened, one has a bad sector
    and one was removed during the scan. *)
Definition faulty_fs (flt : fault) : gmap string node :=
  <["/srv/packs" := Dir ["z.pck"; "a.pck"]]>
  (<["/srv/packs/a.pck" := Reg (1762763592 # 1) (bytes_of "test") NoFault]>
  (<["/srv/packs/z.pck" := Reg (1762763593 # 1) (bytes_of "broken") flt]>
  (<["/srv/packs/packs_manifest.json" := Reg 0 (bytes_of "{}") NoFault]> ∅))).

Definition faulty_world (flt : fault) : world := World (fun p => p) (faulty_fs flt).

(** ** Two runs over the same directory *)

(** The directory is the same in both worlds: the same names, listed in
    any order, and the same node under each name. *)
Definition same_directory (w1 w2 : world) (base_dir : string) : Prop :=
  ∃ names1 names2,
    listdir w1 base_dir = Ok names1 ∧ listdir w2 base_dir = Ok names2
    ∧ names1 ≡ₚ names2
    ∧ ∀ k, k ∈ names1 → fs w1 !! path_join base_dir k = fs w2 !! path_join base_dir k.

(** The names that end with the suffix. *)
Definition matching (pattern : string) (names : list string) : list string :=
  filter (fun n => PyStr.endswith n pattern = true) names.

(** The packs are the same in both worlds: the same names with the suffix,
    in any order, and the same node under each; other names may come and
    go. *)
Definition same_packs (w1 w2 : world) (base_dir pattern : string) : Prop :=
  ∃ names1 names2,
    listdir w1 base_dir = Ok names1 ∧ listdir w2 base_dir = Ok names2
    ∧ matching pattern names1 ≡ₚ matching pattern names2
    ∧ ∀ k, k ∈ matching pattern names1 →
           fs w1 !! path_join base_dir k = fs w2 !! path_join base_dir k.

(** The sample directory as a second run with [--out /srv/manifest.json]
    may find it: listed in another order, the manifest of the first run
    outside it. *)
Definition sample_fs_again : gmap string node :=
  <["/srv/packs" := Dir ["a.pck"; "foo.PCK"; "notapck"; "sub.pck"; "b.txt"]]>
  (<["/srv/manifest.json" := Reg (1762770000 # 1) [] NoFault]> sample_fs).

(** The sample directory after a run without [--out]: the manifest is one
    more name in it. *)
Definition sample_fs_after : gmap string node :=
  <["/srv/packs" := Dir ["packs_manifest.json"; "notapck"; "b.txt"; "sub.pck";
                         "foo.PCK"; "a.pck"]]>
  (<["/srv/packs/packs_manifest.json" := Reg (1762770000 # 1) [] NoFault]> sample_fs).

Definition sample_world_after : world := World (fun p => p) sample_fs_after.

Definition sample_world_again : world := World (fun p => p) sample_fs_again.

(** ** The output file, written out

    The layouts of the manifest file as the format description gives them,
    to compare with what the encoder produces. *)

Record row := Row {
  row_name : string;
  row_digest : string;
  row_size : N;
  row_mtime : string
}.

Definition manifest_of_rows (rows : list row) : list (string * json) :=
  List.map (fun r => (row_name r, entry (row_digest r) (row_size r) (row_mtime r))) rows.

Definition quoted (s : string) : string := PyJson.encode_basestring_ascii s.

Fixpoint prefix_each (sep : string) (l : list string) : string :=
  match l with
  | [] => EmptyString
  | x :: l' => sep +:+ x +:+ prefix_each sep l'
  end.

Definition join_with (sep : string) (l : list string) : string :=
  match l with
  | [] => EmptyString
  | x :: l' => x +:+ prefix_each sep l'
  end.

(** With [--pretty]: one field per line, two spaces per level, keys in
    ascending order at both levels. *)
Definition pretty_entry (r : row) : string :=
  "  " +:+ quoted (row_name r) +:+ ": {" +:+ PyJson.LF
  +:+ "    " +:+ quoted "mtime" +:+ ": " +:+ quoted (row_mtime r) +:+ "," +:+ PyJson.LF
  +:+ "    " +:+ quoted "sha256" +:+ ": " +:+ quoted (row_digest r) +:+ "," +:+ PyJson.LF
  +:+ "    " +:+ quoted "size" +:+ ": " +:+ PyStr.of_N (row_size r) +:+ "," +:+ PyJson.LF
  +:+ "    " +:+ quoted "version" +:+ ": " +:+ quoted (row_digest r) +:+ PyJson.LF
  +:+ "  }".

Definition pretty_layout (rows : list row) : string :=
  match rows with
  | [] => "{}"
  | _ => "{" +:+ PyJson.LF +:+ join_with ("," +:+ PyJson.LF) (List.map pretty_entry rows)
         +:+ PyJson.LF +:+ "}"
  end.

(** Without [--pretty]: one line, [", "] between items and [": "] after
    keys, fields in the order the script gives them. *)
Definition default_entry (r : row) : string :=
  quoted (row_name r) +:+ ": {"
  +:+ quoted "version" +:+ ": " +:+ quoted (row_digest r) +:+ ", "
  +:+ quoted "size" +:+ ": " +:+ PyStr.of_N (row_size r) +:+ ", "
  +:+ quoted "mtime" +:+ ": " +:+ quoted (row_mtime r) +:+ ", "
  +:+ quoted "sha256" +:+ ": " +:+ quoted (row_digest r) +:+ "}".

Definition default_layout (rows : list row) : string :=
  match rows with
  | [] => "{}"
  | _ => "{" +:+ join_with ", " (List.map default_entry rows) +:+ "}"
  end.

(** The same mapping with no insignificant white space at all. *)
Definition compact_entry (r : row) : string :=
  quoted (row_name r) +:+ ":{"
  +:+ quoted "version" +:+ ":" +:+ quoted (row_digest r) +:+ ","
  +:+ quoted "size" +:+ ":" +:+ PyStr.of_N (row_size r) +:+ ","
  +:+ quoted "mtime" +:+ ":" +:+ quoted (row_mtime r) +:+ ","
  +:+ quoted "sha256" +:+ ":" +:+ quoted (row_digest r) +:+ "}".

Definition compact_layout (rows : list row) : string :=
  match rows with
  | [] => "{}"
  | _ => "{" +:+ join_with "," (List.map compact_entry rows) +:+ "}"
  end.

(** ** JSON texts of a value

    The texts that denote a value under the JSON grammar: white space is
    free around the six structural characters; strings and numbers are
    spelled as the encoder spells them. *)

Definition is_ws (c : ascii) : bool :=
  let n := N_of_ascii c in ((n =? 32) || (n =? 9) || (n =? 10) || (n =? 13))%N.

Definition ws (s : string) : Prop := forall_chars is_ws s = true.

#[warnings="-register-all"]
Inductive json_text : json → string → Prop :=
  | jt_str (s w1 w2 : string) :
      ws w1 → ws w2 → json_text (JStr s) (w1 +:+ quoted s +:+ w2)
  | jt_int (n : Z) (w1 w2 : string) :
      ws w1 → ws w2 → json_text (JInt n) (w1 +:+ PyJson.encode_int n +:+ w2)
  | jt_empty (w1 w2 w3 : string) :
      ws w1 → ws w2 → ws w3 → json_text (JObj []) (w1 +:+ "{" +:+ w2 +:+ "}" +:+ w3)
  | jt_obj (k : string) (v : json) (items : list (string * json))
        (w1 w2 body : string) :
      ws w1 → ws w2 → members_text k v items body →
      json_text (JObj ((k, v) :: items)) (w1 +:+ "{" +:+ body +:+ "}" +:+ w2)
with members_text : string → json → list (string * json) → string → Prop :=
  | mt_last (k : string) (v : json) (w1 w2 vt : string) :
      ws w1 → ws w2 → json_text v vt →
      members_text k v [] (w1 +:+ quoted k +:+ w2 +:+ ":" +:+ vt)
  | mt_more (k : string) (v : json) (k' : string) (v' : json)
        (items : list (string * json)) (w1 w2 vt rest : string) :
      ws w1 → ws w2 → json_text v vt → members_text k' v' items rest →
      members_text k v ((k', v') :: items)
        (w1 +:+ quoted k +:+ w2 +:+ ":" +:+ vt +:+ "," +:+ rest).

(** The claim that a text is the most compact one of a value. *)
Definition most_compact (v : json) (text : string) : Prop :=
  json_text v text ∧ ∀ text', json_text v text' → (String.length text ≤ String.length text')%nat.

Definition sample_rows : list row :=
  [Row "a.pck" "9f86d081884c7d659a2feaa0c55ad015a3bf4f1b2b0b822cd15d6c15b0f00a08"
       4 "2025-11-10T08:33:12Z"].

(** The value of one entry without white space. *)
Definition compact_value (r : row) : string :=
  "{" +:+ (quoted "version" +:+ ":" +:+ quoted (row_digest r) +:+ ","
    +:+ quoted "size" +:+ ":" +:+ PyJson.encode_int (Z.of_N (row_size r)) +:+ ","
    +:+ quoted "mtime" +:+ ":" +:+ quoted (row_mtime r) +:+ ","
    +:+ quoted "sha256" +:+ ":" +:+ quoted (row_digest r)) +:+ "}".

(** ** More about the run *)

(** The candidates among the listed names, as a list. *)
Definition packs (w : world) (base_dir pattern : string) (names : list string)
    : list string :=
  filter (fun n => candidate w base_dir pattern n = true) names.

(** The world in which the node under [path] is replaced. *)
Definition with_node (w : world) (path : string) (n : node) : world :=
  World (abspath w) (<[path := n]> (fs w)).

(** A directory without any pack. *)
Definition empty_world : world :=
  World (fun p => p)
    (<["/srv/empty" := Dir ["notes.txt"; "old.pck"]]>
    (<["/srv/empty/notes.txt" := Reg 0 (bytes_of "n") NoFault]>
    (<["/srv/empty/old.pck" := Dir []]> ∅))).

(** Characters of the written text. *)
Definition is_printable (c : ascii) : bool :=
  let n := N_of_ascii c in ((32 <=? n) && (n <=? 126))%N.

Definition is_printable_or_lf (c : ascii) : bool :=
  is_printable c || (N_of_ascii c =? 10)%N.

(** The modification time falls in the years 1 to 9999. *)
Definition year_in_range (ts : Q) : bool :=
  ((-62135596800 <=? shown_second ts) && (shown_second ts <=? 253402300799))%Z.

(** The file can be opened and read to its end. *)
Definition reads_to_end (content : list byte) (flt : fault) : bool :=
  match flt with
  | NoFault => true
  | ReadErrorAt off => (N.of_nat (List.length content) <=? off)%N
  | Removed | Denied => false
  end.

(** A pack whose modification time is out of range and which cannot be
    opened either. *)
Definition odd_world : world :=
  World (fun p => p)
    (<["/srv/odd" := Dir ["late.pck"]]>
    (<["/srv/odd/late.pck" := Reg (inject_Z 253402300800) (bytes_of "x") Denied]> ∅)).

Definition is_removed (flt : fault) : bool :=
  match flt with Removed => true | _ => false end.

(** The value of one entry as the encoder spells it without [--pretty],
    and with it (fields in key order, [tail] after the closing brace). *)
Definition default_value (r : row) : string :=
  " " +:+ "{"
  +:+ (EmptyString +:+ quoted "version" +:+ EmptyString +:+ ":"
       +:+ (" " +:+ quoted (row_digest r) +:+ EmptyString) +:+ ","
       +:+ (" " +:+ quoted "size" +:+ EmptyString +:+ ":"
            +:+ (" " +:+ PyJson.encode_int (Z.of_N (row_size r)) +:+ EmptyString) +:+ ","
            +:+ (" " +:+ quoted "mtime" +:+ EmptyString +:+ ":"
                 +:+ (" " +:+ quoted (row_mtime r) +:+ EmptyString) +:+ ","
                 +:+ (" " +:+ quoted "sha256" +:+ EmptyString +:+ ":"
                      +:+ (" " +:+ quoted (row_digest r) +:+ EmptyString)))))
  +:+ "}" +:+ EmptyString.

Definition sorted_entry (digest : string) (size : N) (mtime : string) : json :=
  JObj [("mtime", JStr mtime); ("sha256", JStr digest);
        ("size", JInt (Z.of_N size)); ("version", JStr digest)].

Definition pretty_value (tail : string) (r : row) : string :=
  " " +:+ "{"
  +:+ ((PyJson.LF +:+ PyJson.spaces 4) +:+ quoted "mtime" +:+ EmptyString +:+ ":"
       +:+ (" " +:+ quoted (row_mtime r) +:+ EmptyString) +:+ ","
       +:+ ((PyJson.LF +:+ PyJson.spaces 4) +:+ quoted "sha256" +:+ EmptyString +:+ ":"
            +:+ (" " +:+ quoted (row_digest r) +:+ EmptyString) +:+ ","
            +:+ ((PyJson.LF +:+ PyJson.spaces 4) +:+ quoted "size" +:+ EmptyString +:+ ":"
                 +:+ (" " +:+ PyJson.encode_int (Z.of_N (row_size r)) +:+ EmptyString) +:+ ","
                 +:+ ((PyJson.LF +:+ PyJson.spaces 4) +:+ quoted "version"
                      +:+ EmptyString +:+ ":"
                      +:+ (" " +:+ quoted (row_digest r)
                           +:+ (PyJson.LF +:+ PyJson.spaces 2))))))
  +:+ "}" +:+ tail.

(** The manifest with the fields of every entry in key order: the same
    mapping. *)
Definition sorted_manifest_of_rows (rows : list row) : list (string * json) :=
  List.map (fun r => (row_name r, sorted_entry (row_digest r) (row_size r) (row_mtime r)))
    rows.

(** ** Reading the timestamp back

    The inverse of the calendar computation, as [datetime] has it
    ([_ymd2ord]), and a reader of the twenty characters. *)

Module PyDate.
Local Open Scope Z_scope.

Definition is_leap (year : Z) : bool :=
  (year mod 4 =? 0) && (negb (year mod 100 =? 0) || (year mod 400 =? 0)).

Definition days_before_year (year : Z) : Z :=
  let y := year - 1 in
  y * 365 + y / 4 - y / 100 + y / 400.

Definition days_before_month (year month : Z) : Z :=
  PyTime.DAYS_BEFORE_MONTH month + PyTime.b2z ((2 <? month) && is_leap year).

Definition ymd2ord (year month day : Z) : Z :=
  days_before_year year + days_before_month year month + day.

End PyDate.

(** The number that a string of decimal digits spells. *)
Fixpoint number_of_go (acc : N) (s : string) : N :=
  match s with
  | EmptyString => acc
  | String c s' => number_of_go (10 * acc + (N_of_ascii c - 48))%N s'
  end.

Definition number_of (s : string) : Z := Z.of_N (number_of_go 0 s).

(** Seconds from the epoch of a string [YYYY-MM-DDTHH:MM:SSZ]. *)
Definition parse_iso8601 (s : string) : Z :=
  let year := number_of (String.substring 0 4 s) in
  let month := number_of (String.substring 5 2 s) in
  let day := number_of (String.substring 8 2 s) in
  let hour := number_of (String.substring 11 2 s) in
  let minute := number_of (String.substring 14 2 s) in
  let second := number_of (String.substring 17 2 s) in
  ((PyDate.ymd2ord year month day - 719163) * 86400
   + hour * 3600 + minute * 60 + second)%Z.

(** * Properties *)

(** ** Library models on concrete inputs *)

Example endswith_ex1 : PyStr.endswith "enemies.pck" ".pck" = true.
Proof. reflexivity. Qed.

Example replace_ex1 : PyStr.replace "12:00+00:00" "+00:00" "Z" = "12:00Z".
Proof. reflexivity. Qed.

Example replace_ex2 : PyStr.replace "abc" EmptyString "-" = "-a-b-c-".
Proof. reflexivity. Qed.

Example replace_ex3 : PyStr.replace "aaa" "aa" "b" = "ba".
Proof. reflexivity. Qed.

Example fmt_ex1 : PyStr.fmt_d 4 33 = "0033" ∧ PyStr.fmt_d 2 123 = "123".
Proof. split; reflexivity. Qed.

Example join_ex1 :
  path_join "/srv/packs" "a.pck" = "/srv/packs/a.pck" ∧
  path_join "/" "a.pck" = "/a.pck" ∧
  path_join "/srv" "/abs" = "/abs".
Proof. repeat split; reflexivity. Qed.

Example sha256_constants :
  List.length SHA256.primes64 = 64%nat
  ∧ List.nth 0 SHA256.K 0%N = 0x428a2f98%N
  ∧ List.nth 63 SHA256.K 0%N = 0xc67178f2%N
  ∧ SHA256.ra SHA256.H0 = 0x6a09e667%N
  ∧ SHA256.rh SHA256.H0 = 0x5be0cd19%N.
Proof. vm_compute. done. Qed.

Example sha256_empty :
  SHA256.hexdigest [] = "e3b0c44298fc1c149afbf4c8996fb92427ae41e4649b934ca495991b7852b855".
Proof. vm_compute. reflexivity. Qed.

Example sha256_test :
  SHA256.hexdigest (String.list_byte_of_string "test")
  = "9f86d081884c7d659a2feaa0c55ad015a3bf4f1b2b0b822cd15d6c15b0f00a08".
Proof. vm_compute. reflexivity. Qed.

Example sha256_two_blocks :
  SHA256.hexdigest (String.list_byte_of_string
    "abcdbcdecdefdefgefghfghighijhijkijkljklmklmnlmnomnopnopq")
  = "248d6a61d20638b8e5c026930c3e6039a33ce45964ff2167f6ecedd419db06c1".
Proof. vm_compute. reflexivity. Qed.

Example iso8601_ex_epoch : iso8601_utc 0 = Ok "1970-01-01T00:00:00Z".
Proof. vm_compute. reflexivity. Qed.

Example iso8601_ex_docstring : iso8601_utc (1762763592 # 1) = Ok "2025-11-10T08:33:12Z".
Proof. vm_compute. reflexivity. Qed.

Example iso8601_ex_fraction : iso8601_utc (17627635925 # 10) = Ok "2025-11-10T08:33:12Z".
Proof. vm_compute. reflexivity. Qed.

Example iso8601_ex_leap : iso8601_utc (1709251199 # 1) = Ok "2024-02-29T23:59:59Z".
Proof. vm_compute. reflexivity. Qed.

Example iso8601_ex_before_epoch : iso8601_utc (-(3 # 2)) = Ok "1969-12-31T23:59:58Z".
Proof. vm_compute. reflexivity. Qed.

Example iso8601_ex_range : iso8601_utc (253402300800 # 1) = Raise (ValueError "year is out of range").
Proof. vm_compute. reflexivity. Qed.

Example dumps_ex_default :
  PyJson.dumps None false
    (JObj [("b", JObj [("y", JInt 1); ("x", JStr "q\~")]); ("a", JObj [])])
  = sq "{'b': {'y': 1, 'x': 'q\\~'}, 'a': {}}".
Proof. vm_compute. reflexivity. Qed.

(** ** The sample directory *)

Example main_sample_compact :
  main (sample_args false) sample_world
  = Run (Exit 0)
      ["[OK] Wrote /srv/packs/packs_manifest.json with 1 entries."] []
      [("/srv/packs/packs_manifest.json",
        sq "{'a.pck': {'version': '9f86d081884c7d659a2feaa0c55ad015a3bf4f1b2b0b822cd15d6c15b0f00a08', 'size': 4, 'mtime': '2025-11-10T08:33:12Z', 'sha256': '9f86d081884c7d659a2feaa0c55ad015a3bf4f1b2b0b822cd15d6c15b0f00a08'}}
")].
Proof. vm_compute. reflexivity. Qed.

Example main_sample_pretty :
  main (sample_args true) sample_world
  = Run (Exit 0)
      ["[OK] Wrote /srv/packs/packs_manifest.json with 1 entries."] []
      [("/srv/packs/packs_manifest.json",
        sq "{
  'a.pck': {
    'mtime': '2025-11-10T08:33:12Z',
    'sha256': '9f86d081884c7d659a2feaa0c55ad015a3bf4f1b2b0b822cd15d6c15b0f00a08',
    'size': 4,
    'version': '9f86d081884c7d659a2feaa0c55ad015a3bf4f1b2b0b822cd15d6c15b0f00a08'
  }
}
")].
Proof. vm_compute. reflexivity. Qed.

Example main_sample_pck_suffix :
  r_written (main (MkArgs "/srv/packs" (Some "/tmp/m.json") "pck" false) sample_world)
  = [("/tmp/m.json",
      sq "{'a.pck': {'version': '9f86d081884c7d659a2feaa0c55ad015a3bf4f1b2b0b822cd15d6c15b0f00a08', 'size': 4, 'mtime': '2025-11-10T08:33:12Z', 'sha256': '9f86d081884c7d659a2feaa0c55ad015a3bf4f1b2b0b822cd15d6c15b0f00a08'}, 'notapck': {'version': 'e3b0c44298fc1c149afbf4c8996fb92427ae41e4649b934ca495991b7852b855', 'size': 0, 'mtime': '1970-01-01T00:00:02Z', 'sha256': 'e3b0c44298fc1c149afbf4c8996fb92427ae41e4649b934ca495991b7852b855'}}
")].
Proof. vm_compute. reflexivity. Qed.

(** ** Strings *)

Lemma str_app_cons (c : ascii) (s t : string) : String c s +:+ t = String c (s +:+ t).
Proof. reflexivity. Qed.

Lemma str_app_nil_l (t : string) : EmptyString +:+ t = t.
Proof. reflexivity. Qed.

Lemma str_app_nil_r (s : string) : s +:+ EmptyString = s.
Proof. induction s as [|c s IH]; [done|]. by rewrite str_app_cons, IH. Qed.

Lemma str_app_assoc (s t u : string) : (s +:+ t) +:+ u = s +:+ (t +:+ u).
Proof. induction s as [|c s IH]; [done|]. by rewrite !str_app_cons, IH. Qed.

Lemma str_length_app (s t : string) :
  String.length (s +:+ t) = (String.length s + String.length t)%nat.
Proof. induction s as [|c s IH]; [done|]. rewrite str_app_cons. simpl. by rewrite IH. Qed.

Lemma substring_all (s : string) : String.substring 0 (String.length s) s = s.
Proof. induction s as [|c s IH]; [done|]. simpl. by rewrite IH. Qed.

Lemma substring_skip (pre s : string) (m : nat) :
  String.substring (String.length pre) m (pre +:+ s) = String.substring 0 m s.
Proof. induction pre as [|c pre IH]; [done|]. rewrite str_app_cons. simpl. apply IH. Qed.

(** Cutting a string at position [n] loses nothing. *)
Lemma substring_split (s : string) (n : nat) :
  (n ≤ String.length s)%nat →
  s = String.substring 0 n s +:+ String.substring n (String.length s - n) s.
Proof.
  revert n. induction s as [|c s IH]; intros n Hn.
  - destruct n; [done|]. simpl in Hn. lia.
  - destruct n as [|n].
    + simpl String.substring at 1. rewrite str_app_nil_l.
      replace (String.length (String c s) - 0)%nat with (String.length (String c s)) by lia.
      by rewrite substring_all.
    + simpl in Hn. simpl. rewrite str_app_cons. f_equal. apply IH. lia.
Qed.

(** [endswith] holds exactly when the name is some prefix followed by the
    suffix, character for character. *)
Lemma endswith_iff (name p : string) :
  PyStr.endswith name p = true ↔ ∃ pre, name = pre +:+ p.
Proof.
  unfold PyStr.endswith. split.
  - intros [Hle Heq]%andb_true_iff.
    apply Nat.leb_le in Hle. apply String.eqb_eq in Heq.
    exists (String.substring 0 (String.length name - String.length p) name).
    pose proof (substring_split name (String.length name - String.length p)) as Hs.
    replace (String.length name - (String.length name - String.length p))%nat
      with (String.length p) in Hs by lia.
    rewrite Heq in Hs. apply Hs. lia.
  - intros [pre ->]. rewrite str_length_app. apply andb_true_iff. split.
    + apply Nat.leb_le. lia.
    + replace (String.length pre + String.length p - String.length p)%nat
        with (String.length pre) by lia.
      rewrite substring_skip, substring_all. apply String.eqb_refl.
Qed.

Example endswith_notapck : PyStr.endswith "notapck" "pck" = true.
Proof. reflexivity. Qed.

Example endswith_foo_pck : PyStr.endswith "foo.pck" "pck" = true.
Proof. reflexivity. Qed.

Example endswith_case_sensitive : PyStr.endswith "foo.PCK" ".pck" = false.
Proof. reflexivity. Qed.

Example endswith_longer_suffix : PyStr.endswith "ck" ".pck" = false.
Proof. reflexivity. Qed.

(** ** Dicts *)

Section dict.
Context {V : Type}.
Implicit Types (d : list (string * V)) (k : string) (v : V).

Lemma dict_get_set d k k' v :
  dict_get (dict_set d k v) k' = if decide (k = k') then Some v else dict_get d k'.
Proof.
  induction d as [|[k0 v0] d IH]; simpl.
  - destruct (String.eqb_spec k k'); case_decide; congruence.
  - destruct (String.eqb_spec k0 k) as [->|Hne]; simpl.
    + destruct (String.eqb_spec k k'); case_decide; congruence.
    + destruct (String.eqb_spec k0 k') as [->|Hne'].
      * case_decide; congruence.
      * apply IH.
Qed.

Lemma dict_keys_set d k v k' :
  k' ∈ dict_keys (dict_set d k v) ↔ k' = k ∨ k' ∈ dict_keys d.
Proof.
  unfold dict_keys. induction d as [|[k0 v0] d IH]; simpl.
  - rewrite elem_of_cons, elem_of_nil. tauto.
  - destruct (String.eqb_spec k0 k) as [->|Hne]; simpl.
    + rewrite !elem_of_cons. tauto.
    + rewrite !elem_of_cons, IH. tauto.
Qed.

Lemma dict_get_Some_key d k v : dict_get d k = Some v → k ∈ dict_keys d.
Proof.
  unfold dict_keys. induction d as [|[k0 v0] d IH]; simpl; [done|].
  destruct (String.eqb_spec k0 k) as [->|Hne]; intros H.
  - apply elem_of_cons. by left.
  - apply elem_of_cons. right. by apply IH.
Qed.

Lemma dict_key_get d k : k ∈ dict_keys d → ∃ v, dict_get d k = Some v.
Proof.
  unfold dict_keys. induction d as [|[k0 v0] d IH]; simpl.
  - by intros ?%elem_of_nil.
  - intros [->|H]%elem_of_cons.
    + rewrite String.eqb_refl. eauto.
    + destruct (String.eqb_spec k0 k); eauto.
Qed.

(** A new key goes last; an old one keeps the key list as it is. *)
Lemma dict_keys_set_new d k v :
  k ∉ dict_keys d → dict_keys (dict_set d k v) = dict_keys d ++ [k].
Proof.
  unfold dict_keys. induction d as [|[k0 v0] d IH]; simpl; [done|].
  intros Hk. apply not_elem_of_cons in Hk as [Hne Hk].
  destruct (String.eqb_spec k0 k) as [->|_]; [done|]. simpl. by rewrite IH.
Qed.

Lemma dict_keys_set_old d k v :
  k ∈ dict_keys d → dict_keys (dict_set d k v) = dict_keys d.
Proof.
  unfold dict_keys. induction d as [|[k0 v0] d IH]; simpl.
  - by intros ?%elem_of_nil.
  - intros Hk. destruct (String.eqb_spec k0 k) as [->|Hne]; [done|].
    simpl. f_equal. apply IH. apply elem_of_cons in Hk as [->|Hk]; done.
Qed.

End dict.

(** ** The loop *)

Section scan.
Variables (w : world) (base_dir pattern : string).

Lemma scan_cons name rest manifest :
  scan w base_dir pattern (name :: rest) manifest
  = if candidate w base_dir pattern name
    then e ← entry_of w base_dir name;
         scan w base_dir pattern rest (dict_set manifest name e)
    else scan w base_dir pattern rest manifest.
Proof.
  simpl. unfold candidate, entry_of.
  destruct (PyStr.endswith name pattern); simpl; [|done].
  destruct (isfile w (path_join base_dir name)); simpl; [|done].
  destruct (os_stat w (path_join base_dir name)) as [st|]; simpl; [|done].
  destruct (iso8601_utc (st_mtime st)); simpl; [|done].
  destruct (sha256_file w (path_join base_dir name)); done.
Qed.

(** An exception of the loop is the exception of one candidate. *)
Lemma scan_Raise names manifest e :
  scan w base_dir pattern names manifest = Raise e →
  ∃ name, name ∈ names ∧ candidate w base_dir pattern name = true
          ∧ entry_of w base_dir name = Raise e.
Proof.
  revert manifest. induction names as [|n rest IH]; intros manifest; [done|].
  rewrite scan_cons. destruct (candidate w base_dir pattern n) eqn:Hc.
  - destruct (entry_of w base_dir n) as [v|e'] eqn:He; simpl.
    + intros (k & ? & ?)%IH. exists k. by rewrite elem_of_cons; eauto.
    + intros [= <-]. exists n. rewrite elem_of_cons. eauto.
  - intros (k & ? & ?)%IH. exists k. rewrite elem_of_cons. eauto.
Qed.

(** A candidate that cannot be read stops the loop: none is skipped. *)
Lemma scan_fail_fast names manifest name e :
  name ∈ names → candidate w base_dir pattern name = true →
  entry_of w base_dir name = Raise e →
  ∃ e', scan w base_dir pattern names manifest = Raise e'.
Proof.
  revert manifest. induction names as [|n rest IH]; intros manifest Hin Hc He.
  - by apply elem_of_nil in Hin.
  - rewrite scan_cons. apply elem_of_cons in Hin as [<-|Hin].
    + rewrite Hc, He. eauto.
    + destruct (candidate w base_dir pattern n); [|eauto].
      destruct (entry_of w base_dir n); simpl; eauto.
Qed.

Lemma scan_keys names manifest m k :
  scan w base_dir pattern names manifest = Ok m →
  k ∈ dict_keys m ↔
  k ∈ dict_keys manifest ∨ (k ∈ names ∧ candidate w base_dir pattern k = true).
Proof.
  revert manifest. induction names as [|n rest IH]; intros manifest.
  - intros [= ->]. rewrite elem_of_nil. tauto.
  - rewrite scan_cons. destruct (candidate w base_dir pattern n) eqn:Hc.
    + destruct (entry_of w base_dir n) as [v|]; simpl; [|done].
      intros ->%IH. rewrite dict_keys_set, elem_of_cons. intuition (subst; auto).
    + intros ->%IH. rewrite elem_of_cons. intuition (subst; auto; congruence).
Qed.

Lemma scan_get names manifest m k :
  scan w base_dir pattern names manifest = Ok m →
  k ∈ names → candidate w base_dir pattern k = true →
  ∃ v, entry_of w base_dir k = Ok v ∧ dict_get m k = Some v.
Proof.
  assert (Hkeep : ∀ names manifest m v,
    scan w base_dir pattern names manifest = Ok m →
    entry_of w base_dir k = Ok v → dict_get manifest k = Some v →
    dict_get m k = Some v).
  { clear. intros names. induction names as [|n rest IH]; intros manifest m v.
    - by intros [= ->].
    - rewrite scan_cons. destruct (candidate w base_dir pattern n).
      + destruct (entry_of w base_dir n) as [v'|] eqn:He; simpl; [|done].
        intros Hs Hk Hg. eapply IH; [done..|].
        rewrite dict_get_set. case_decide; [|done]. congruence.
      + apply IH. }
  revert manifest. induction names as [|n rest IH]; intros manifest Hs Hin Hc.
  - by apply elem_of_nil in Hin.
  - rewrite scan_cons in Hs. apply elem_of_cons in Hin as [->|Hin].
    + rewrite Hc in Hs. destruct (entry_of w base_dir n) as [v|] eqn:He; [|done].
      simpl in Hs. exists v. split; [done|].
      eapply Hkeep; [done..|]. rewrite dict_get_set. by case_decide.
    + destruct (candidate w base_dir pattern n).
      * destruct (entry_of w base_dir n); simpl in Hs; [|done]. eauto.
      * eauto.
Qed.

End scan.

(** ** Reading a file in chunks *)

Lemma take_drop_N {A} (n : N) (l : list A) : take_N n l ++ drop_N n l = l.
Proof.
  revert n. induction l as [|x l IH]; intros n; [done|].
  simpl. destruct (n =? 0)%N; [done|]. simpl. by rewrite IH.
Qed.

Lemma take_N_nil {A} (n : N) (l : list A) : (0 < n)%N → take_N n l = [] → l = [].
Proof.
  destruct l as [|x l]; [done|]. simpl. intros Hn.
  destruct (N.eqb_spec n 0); [lia|done].
Qed.

Lemma length_take_N {A} (n : N) (l : list A) :
  N.of_nat (List.length (take_N n l)) = N.min n (N.of_nat (List.length l)).
Proof.
  revert n. induction l as [|x l IH]; intros n; simpl List.length.
  - lia.
  - simpl. destruct (N.eqb_spec n 0) as [->|Hn]; simpl List.length; [lia|].
    rewrite !Nat2N.inj_succ, IH. lia.
Qed.

Lemma length_drop_N {A} (n : N) (l : list A) :
  N.of_nat (List.length (drop_N n l)) = (N.of_nat (List.length l) - n)%N.
Proof.
  revert n. induction l as [|x l IH]; intros n; simpl List.length.
  - lia.
  - simpl. destruct (N.eqb_spec n 0) as [->|Hn]; simpl List.length; [lia|].
    rewrite IH, Nat2N.inj_succ. lia.
Qed.

Lemma CHUNK_pos : (0 < CHUNK)%N.
Proof. done. Qed.

(** Without a read error before the end of the file, the loop feeds the
    hash object every remaining byte, in order, whatever the chunking. *)
Lemma read_loop_feeds fuel h path rest bad :
  (List.length rest < fuel)%nat →
  (∀ k, bad = Some k → (N.of_nat (List.length rest) ≤ k)%N) →
  read_loop fuel h (Handle path rest bad) = Ok (Sha256Obj (fed h ++ rest)).
Proof.
  revert h rest bad. induction fuel as [|fuel IH]; intros h rest bad Hfuel Hbad; [lia|].
  pose proof (length_take_N CHUNK rest) as Htake.
  pose proof (length_drop_N CHUNK rest) as Hdrop.
  pose proof (take_drop_N CHUNK rest) as Hsplit.
  pose proof CHUNK_pos as Hpos.
  assert (Hstep : ∀ bad',
    (∀ k, bad' = Some k → (N.of_nat (List.length (drop_N CHUNK rest)) ≤ k)%N) →
    match take_N CHUNK rest with
    | [] => Ok h
    | _ :: _ => read_loop fuel (sha256_update h (take_N CHUNK rest))
                  (Handle path (drop_N CHUNK rest) bad')
    end = Ok (Sha256Obj (fed h ++ rest))).
  { intros bad' Hbad'. destruct (take_N CHUNK rest) as [|b chunk] eqn:Hchunk.
    - apply take_N_nil in Hchunk as ->; [|done]. rewrite app_nil_r. by destruct h.
    - rewrite IH; [|cbn [List.length] in Htake; lia|done].
      unfold sha256_update. simpl fed. by rewrite <- app_assoc, Hsplit. }
  simpl. unfold f_read. simpl. destruct bad as [k|].
  - specialize (Hbad k eq_refl).
    destruct (N.ltb_spec k (N.of_nat (List.length (take_N CHUNK rest)))) as [Hlt|Hge]; [lia|].
    simpl. apply Hstep. intros k' [= <-]. lia.
  - simpl. apply Hstep. done.
Qed.

(** With a read error before the end of the file, the loop raises. *)
Lemma read_loop_raises fuel h path rest k :
  (List.length rest < fuel)%nat →
  (k < N.of_nat (List.length rest))%N →
  read_loop fuel h (Handle path rest (Some k)) = Raise (OSError path).
Proof.
  revert h rest k. induction fuel as [|fuel IH]; intros h rest k Hfuel Hk; [lia|].
  pose proof (length_take_N CHUNK rest) as Htake.
  pose proof (length_drop_N CHUNK rest) as Hdrop.
  pose proof CHUNK_pos as Hpos.
  simpl. unfold f_read. simpl.
  destruct (N.ltb_spec k (N.of_nat (List.length (take_N CHUNK rest)))) as [Hlt|Hge]; [done|].
  simpl. destruct (take_N CHUNK rest) as [|b chunk] eqn:Hchunk.
  - cbn [List.length] in Htake. lia.
  - apply IH; lia.
Qed.

(** What [sha256_file] returns, by the state of the file. *)
Lemma sha256_file_spec w path :
  sha256_file w path =
  match fs w !! path with
  | Some (Reg _ content NoFault) => Ok (SHA256.hexdigest content)
  | Some (Reg _ content (ReadErrorAt off)) =>
      if (off <? N.of_nat (List.length content))%N then Raise (OSError path)
      else Ok (SHA256.hexdigest content)
  | _ => Raise (OSError path)
  end.
Proof.
  unfold sha256_file, open_rb.
  destruct (fs w !! path) as [[mtime content flt| |]|]; try done.
  destruct flt as [| | |off]; try done; cbn -[read_loop].
  - rewrite read_loop_feeds; [done|lia|done].
  - destruct (N.ltb_spec off (N.of_nat (List.length content))) as [Hlt|Hge].
    + rewrite read_loop_raises; [done|lia|done].
    + rewrite read_loop_feeds; [done|lia|]. by intros k [= <-].
Qed.

(** The bounded loop never runs out of fuel. *)
Lemma sha256_file_total w path : sha256_file w path ≠ Raise OutOfFuel.
Proof.
  rewrite sha256_file_spec.
  destruct (fs w !! path) as [[mtime content flt| |]|]; try done.
  destruct flt as [| | |off]; try done.
  by destruct (off <? N.of_nat (List.length content))%N.
Qed.

(** ** The digest is 64 lowercase hexadecimal characters *)

Lemma hexdigit_lower (d : N) : (d < 16)%N → is_lower_hex (SHA256.hexdigit d) = true.
Proof.
  intros Hd. rewrite <- (N2Nat.id d).
  assert (Hn : (N.to_nat d < 16)%nat) by lia.
  revert Hn. generalize (N.to_nat d). intros n Hn.
  do 16 (destruct n as [|n]; [reflexivity|]). lia.
Qed.

Lemma hexdigest_shape (msg : list byte) :
  String.length (SHA256.hexdigest msg) = 64%nat
  ∧ forall_chars is_lower_hex (SHA256.hexdigest msg) = true.
Proof.
  unfold SHA256.hexdigest, SHA256.hex_of_regs, SHA256.hex8.
  generalize (SHA256.digest_regs msg). intros s. split; [reflexivity|].
  cbn [forall_chars].
  repeat (rewrite hexdigit_lower by (apply N.mod_lt; discriminate)).
  reflexivity.
Qed.

(** ** One candidate *)

Lemma entry_of_Ok w base_dir name v :
  entry_of w base_dir name = Ok v →
  ∃ mtime content flt ts,
    fs w !! path_join base_dir name = Some (Reg mtime content flt)
    ∧ iso8601_utc mtime = Ok ts
    ∧ v = entry (SHA256.hexdigest content) (N.of_nat (List.length content)) ts.
Proof.
  unfold entry_of, os_stat. rewrite sha256_file_spec.
  destruct (fs w !! path_join base_dir name) as [[mtime content flt| |]|]; try done.
  intros H. exists mtime, content, flt.
  destruct flt as [| | |off]; try done; cbn in H;
    destruct (iso8601_utc mtime) as [ts|]; try done; cbn in H.
  - injection H as <-. eauto.
  - destruct (off <? N.of_nat (List.length content))%N; [done|].
    injection H as <-. eauto.
Qed.

Lemma entry_of_is_ok w base_dir name :
  is_ok (entry_of w base_dir name)
  = match fs w !! path_join base_dir name with
    | Some n => readable n
    | None => false
    end.
Proof.
  unfold entry_of, os_stat. rewrite sha256_file_spec.
  destruct (fs w !! path_join base_dir name) as [[mtime content flt| |]|]; try done.
  destruct flt as [| | |off]; try done; cbn;
    destruct (iso8601_utc mtime) as [ts|]; try done; cbn.
  rewrite N.leb_antisym.
  by destruct (off <? N.of_nat (List.length content))%N.
Qed.

(** ** The manifest *)

Lemma elem_of_sorted (names : list string) (k : string) : k ∈ sorted names ↔ k ∈ names.
Proof. unfold sorted. by rewrite merge_sort_Permutation. Qed.

Lemma candidate_iff w base_dir pattern k :
  candidate w base_dir pattern k = true
  ↔ PyStr.endswith k pattern = true ∧ isfile w (path_join base_dir k) = true.
Proof. unfold candidate. apply andb_true_iff. Qed.

Lemma dict_set_NoDup {V} (d : list (string * V)) k v :
  NoDup (dict_keys d) → NoDup (dict_keys (dict_set d k v)).
Proof.
  intros Hd. destruct (decide (k ∈ dict_keys d)) as [Hin|Hout].
  - by rewrite dict_keys_set_old.
  - rewrite dict_keys_set_new by done. apply NoDup_app. split_and!; [done| |].
    + intros x Hx ->%list_elem_of_singleton. done.
    + apply NoDup_singleton.
Qed.

Lemma scan_NoDup w base_dir pattern names manifest m :
  scan w base_dir pattern names manifest = Ok m →
  NoDup (dict_keys manifest) → NoDup (dict_keys m).
Proof.
  revert manifest. induction names as [|n rest IH]; intros manifest.
  - by intros [= ->].
  - rewrite scan_cons. destruct (candidate w base_dir pattern n).
    + destruct (entry_of w base_dir n) as [v|]; simpl; [|done].
      intros Hs Hd. eapply IH; [done|]. by apply dict_set_NoDup.
    + apply IH.
Qed.

Lemma build_manifest_NoDup w base_dir pattern m :
  build_manifest w base_dir pattern = Ok m → NoDup (dict_keys m).
Proof.
  unfold build_manifest. destruct (listdir w base_dir) as [names|]; [|done]. cbn.
  intros Hs. eapply scan_NoDup; [done|]. apply NoDup_nil_2.
Qed.

(** The keys of a manifest that was built. *)
Lemma build_manifest_keys w base_dir pattern names m k :
  listdir w base_dir = Ok names →
  build_manifest w base_dir pattern = Ok m →
  k ∈ dict_keys m ↔
  k ∈ names ∧ PyStr.endswith k pattern = true ∧ isfile w (path_join base_dir k) = true.
Proof.
  intros Hls. unfold build_manifest. rewrite Hls. cbn. intros Hs.
  rewrite (scan_keys _ _ _ _ _ _ k Hs), elem_of_sorted, candidate_iff.
  unfold dict_keys at 1. cbn [List.map]. rewrite elem_of_nil.
  split; [intros [[]|?]; done|by right].
Qed.

(** C1. Whatever the directory and the suffix: when the manifest is built,
    its keys are, without repetition, exactly the names listed in the
    directory that end with the suffix and are regular files; and when it is
    not built, the exception comes from reading such a regular file, never
    from an entry that is not one (a subdirectory named [sub.pck], say). *)
Theorem manifest_keys_exact (w : world) (base_dir pattern : string) (names : list string) :
  listdir w base_dir = Ok names →
  match build_manifest w base_dir pattern with
  | Ok m =>
      NoDup (dict_keys m)
      ∧ ∀ k, k ∈ dict_keys m ↔
             k ∈ names ∧ PyStr.endswith k pattern = true
             ∧ isfile w (path_join base_dir k) = true
  | Raise e =>
      ∃ k, k ∈ names ∧ PyStr.endswith k pattern = true
           ∧ isfile w (path_join base_dir k) = true
           ∧ entry_of w base_dir k = Raise e
  end.
Proof.
  intros Hls. destruct (build_manifest w base_dir pattern) as [m|e] eqn:Hb.
  - split; [by eapply build_manifest_NoDup|].
    intros k. by apply build_manifest_keys.
  - unfold build_manifest in Hb. rewrite Hls in Hb. cbn in Hb.
    apply scan_Raise in Hb as (k & Hin & Hc & He).
    exists k. rewrite elem_of_sorted in Hin. apply candidate_iff in Hc as [??]. done.
Qed.

Lemma manifest_keys_exact_witness :
  listdir sample_world "/srv/packs"
    = Ok ["notapck"; "b.txt"; "sub.pck"; "foo.PCK"; "a.pck"]
  ∧ match build_manifest sample_world "/srv/packs" ".pck" with
    | Ok m =>
        NoDup (dict_keys m)
        ∧ ∀ k, k ∈ dict_keys m ↔
               k ∈ ["notapck"; "b.txt"; "sub.pck"; "foo.PCK"; "a.pck"]
               ∧ PyStr.endswith k ".pck" = true
               ∧ isfile sample_world (path_join "/srv/packs" k) = true
    | Raise e =>
        ∃ k, k ∈ ["notapck"; "b.txt"; "sub.pck"; "foo.PCK"; "a.pck"]
             ∧ PyStr.endswith k ".pck" = true
             ∧ isfile sample_world (path_join "/srv/packs" k) = true
             ∧ entry_of sample_world "/srv/packs" k = Raise e
    end.
Proof.
  split; [reflexivity|].
  apply (manifest_keys_exact sample_world "/srv/packs" ".pck"). reflexivity.
Defined.

Example sample_skips_subdirectory :
  PyStr.endswith "sub.pck" ".pck" = true
  ∧ isfile sample_world (path_join "/srv/packs" "sub.pck") = false
  ∧ (dict_keys <$> build_manifest_opt sample_world "/srv/packs" ".pck") = Some ["a.pck"].
Proof. vm_compute. done. Qed.

Example sample_build : build_manifest sample_world "/srv/packs" ".pck" = Ok sample_manifest.
Proof. vm_compute. reflexivity. Qed.

Example sample_build_pck :
  build_manifest sample_world "/srv/packs" "pck" = Ok sample_manifest_pck.
Proof. vm_compute. reflexivity. Qed.

Lemma build_manifest_get w base_dir pattern m name e :
  build_manifest w base_dir pattern = Ok m →
  dict_get m name = Some e →
  candidate w base_dir pattern name = true ∧ entry_of w base_dir name = Ok e.
Proof.
  unfold build_manifest. destruct (listdir w base_dir) as [names|]; [|done]. cbn.
  intros Hs Hg.
  pose proof (dict_get_Some_key _ _ _ Hg) as Hk.
  rewrite (scan_keys _ _ _ _ _ _ name Hs) in Hk.
  destruct Hk as [Hk|[Hin Hc]]; [by apply elem_of_nil in Hk|].
  split; [done|].
  destruct (scan_get _ _ _ _ _ _ name Hs Hin Hc) as (v & Hv & Hg'). congruence.
Qed.

(** C2. For every name in the manifest, the file of that name in the
    directory is a regular file; the entry's [size] is the number of its
    bytes, [version] and [sha256] are the same string, namely the SHA-256
    digest of the whole content in 64 lowercase hexadecimal characters, and
    that is what the chunked read of [sha256_file] returns. *)
Theorem manifest_entry_content (w : world) (base_dir pattern : string)
    (m : list (string * json)) (name : string) (e : json) :
  build_manifest w base_dir pattern = Ok m →
  dict_get m name = Some e →
  ∃ mtime content flt,
    fs w !! path_join base_dir name = Some (Reg mtime content flt)
    ∧ field e "size" = Some (JInt (Z.of_nat (List.length content)))
    ∧ field e "version" = field e "sha256"
    ∧ field e "sha256" = Some (JStr (SHA256.hexdigest content))
    ∧ sha256_file w (path_join base_dir name) = Ok (SHA256.hexdigest content)
    ∧ String.length (SHA256.hexdigest content) = 64%nat
    ∧ forall_chars is_lower_hex (SHA256.hexdigest content) = true.
Proof.
  intros Hb Hg. destruct (build_manifest_get _ _ _ _ _ _ Hb Hg) as [_ He].
  pose proof He as He'.
  apply entry_of_Ok in He as (mtime & content & flt & ts & Hfs & Hts & ->).
  exists mtime, content, flt. split; [done|].
  destruct (hexdigest_shape content) as [Hlen Hhex].
  split_and!; try done.
  - cbn. by rewrite nat_N_Z.
  - unfold entry_of in He'. rewrite sha256_file_spec in He' |- *.
    rewrite Hfs in He' |- *. unfold os_stat in He'. rewrite Hfs in He'.
    destruct flt as [| | |off]; cbn in He' |- *; try done;
      rewrite Hts in He'; cbn in He'; [done|].
    by destruct (off <? N.of_nat (List.length content))%N.
Qed.

Lemma manifest_entry_content_witness :
  build_manifest sample_world "/srv/packs" ".pck" = Ok sample_manifest
  ∧ dict_get sample_manifest "a.pck"
    = Some (entry "9f86d081884c7d659a2feaa0c55ad015a3bf4f1b2b0b822cd15d6c15b0f00a08"
              4 "2025-11-10T08:33:12Z")
  ∧ ∃ mtime content flt,
      fs sample_world !! path_join "/srv/packs" "a.pck" = Some (Reg mtime content flt)
      ∧ field (entry "9f86d081884c7d659a2feaa0c55ad015a3bf4f1b2b0b822cd15d6c15b0f00a08"
                 4 "2025-11-10T08:33:12Z") "size"
        = Some (JInt (Z.of_nat (List.length content)))
      ∧ field (entry "9f86d081884c7d659a2feaa0c55ad015a3bf4f1b2b0b822cd15d6c15b0f00a08"
                 4 "2025-11-10T08:33:12Z") "version"
        = field (entry "9f86d081884c7d659a2feaa0c55ad015a3bf4f1b2b0b822cd15d6c15b0f00a08"
                   4 "2025-11-10T08:33:12Z") "sha256"
      ∧ field (entry "9f86d081884c7d659a2feaa0c55ad015a3bf4f1b2b0b822cd15d6c15b0f00a08"
                 4 "2025-11-10T08:33:12Z") "sha256"
        = Some (JStr (SHA256.hexdigest content))
      ∧ sha256_file sample_world (path_join "/srv/packs" "a.pck")
        = Ok (SHA256.hexdigest content)
      ∧ String.length (SHA256.hexdigest content) = 64%nat
      ∧ forall_chars is_lower_hex (SHA256.hexdigest content) = true.
Proof.
  assert (Hb : build_manifest sample_world "/srv/packs" ".pck" = Ok sample_manifest)
    by (vm_compute; reflexivity).
  assert (Hg : dict_get sample_manifest "a.pck"
    = Some (entry "9f86d081884c7d659a2feaa0c55ad015a3bf4f1b2b0b822cd15d6c15b0f00a08"
              4 "2025-11-10T08:33:12Z")) by reflexivity.
  exact (conj Hb (conj Hg
    (manifest_entry_content sample_world "/srv/packs" ".pck" sample_manifest "a.pck" _ Hb Hg))).
Defined.

(** C4. A listed regular file is in the manifest exactly when its name is
    some string followed by the suffix filter, character for character:
    no glob, no notion of extension, no case folding. *)
Theorem inclusion_by_literal_suffix (w : world) (base_dir pattern : string)
    (names : list string) (m : list (string * json)) (name : string) :
  listdir w base_dir = Ok names →
  build_manifest w base_dir pattern = Ok m →
  name ∈ names →
  isfile w (path_join base_dir name) = true →
  name ∈ dict_keys m ↔ ∃ pre, name = pre +:+ pattern.
Proof.
  intros Hls Hb Hin Hreg.
  rewrite (build_manifest_keys w base_dir pattern names m name Hls Hb), endswith_iff.
  split; [by intros (_ & ? & _)|by intros ?].
Qed.

Lemma inclusion_by_literal_suffix_witness :
  listdir sample_world "/srv/packs"
    = Ok ["notapck"; "b.txt"; "sub.pck"; "foo.PCK"; "a.pck"]
  ∧ build_manifest sample_world "/srv/packs" "pck" = Ok sample_manifest_pck
  ∧ "notapck" ∈ ["notapck"; "b.txt"; "sub.pck"; "foo.PCK"; "a.pck"]
  ∧ isfile sample_world (path_join "/srv/packs" "notapck") = true
  ∧ ("notapck" ∈ dict_keys sample_manifest_pck ↔ ∃ pre, "notapck" = pre +:+ "pck").
Proof.
  assert (Hls : listdir sample_world "/srv/packs"
    = Ok ["notapck"; "b.txt"; "sub.pck"; "foo.PCK"; "a.pck"]) by reflexivity.
  assert (Hb : build_manifest sample_world "/srv/packs" "pck" = Ok sample_manifest_pck)
    by (vm_compute; reflexivity).
  assert (Hin : "notapck" ∈ ["notapck"; "b.txt"; "sub.pck"; "foo.PCK"; "a.pck"])
    by (apply elem_of_cons; by left).
  assert (Hreg : isfile sample_world (path_join "/srv/packs" "notapck") = true)
    by reflexivity.
  exact (conj Hls (conj Hb (conj Hin (conj Hreg
    (inclusion_by_literal_suffix sample_world "/srv/packs" "pck" _ _ "notapck"
       Hls Hb Hin Hreg))))).
Defined.

(** A listed name with the suffix on which [os.stat] fails inside [isfile]
    counts as not a regular file: it is passed over, not reported. *)
Example unreachable_name_skipped :
  main (MkArgs "/srv/ghosts" None ".pck" false)
       (World (fun p => p) (<["/srv/ghosts" := Dir ["ghost.pck"]]> ∅))
  = Run (Exit 0) ["[OK] Wrote /srv/ghosts/packs_manifest.json with 0 entries."] []
      [("/srv/ghosts/packs_manifest.json", "{}" +:+ PyJson.LF)].
Proof. vm_compute. reflexivity. Qed.

Example sample_upper_case_excluded :
  isfile sample_world (path_join "/srv/packs" "foo.PCK") = true
  ∧ dict_get sample_manifest "foo.PCK" = None
  ∧ dict_get sample_manifest_pck "foo.PCK" = None.
Proof. vm_compute. done. Qed.

(** ** Calendar fields stay in range *)

(** Evaluates the month tables and flags once the month is a numeral. *)
Ltac calendar_eval :=
  repeat match goal with
  | |- context [PyTime.DAYS_BEFORE_MONTH ?x] =>
      let v := eval vm_compute in (PyTime.DAYS_BEFORE_MONTH x) in
      change (PyTime.DAYS_BEFORE_MONTH x) with v
  | |- context [PyTime.DAYS_IN_MONTH ?x] =>
      let v := eval vm_compute in (PyTime.DAYS_IN_MONTH x) in
      change (PyTime.DAYS_IN_MONTH x) with v
  | |- context [PyTime.b2z ?x] =>
      let v := eval vm_compute in (PyTime.b2z x) in
      change (PyTime.b2z x) with v
  end.

Lemma ord2ymd_bounds (ordinal : Z) :
  (1 ≤ (PyTime.ord2ymd ordinal).1.2 ≤ 12 ∧ 1 ≤ (PyTime.ord2ymd ordinal).2 ≤ 31)%Z.
Proof.
  unfold PyTime.ord2ymd.
  set (a := ((ordinal - 1) mod 146097)%Z).
  set (b := (a mod 36524)%Z). set (c := (b mod 1461)%Z).
  assert (Hn : (0 ≤ c mod 365 < 365)%Z) by (apply Z.mod_pos_bound; lia).
  destruct ((c / 365 =? 4)%Z || (a / 36524 =? 4)%Z); [simpl; lia|].
  generalize ((c / 365 =? 3)%Z && (negb (b / 1461 =? 24)%Z || (a / 36524 =? 3)%Z)).
  intros leap. revert Hn. generalize (c mod 365)%Z. intros n Hn.
  rewrite Z.shiftr_div_pow2 by lia. change (2 ^ 5)%Z with 32%Z.
  remember ((n + 50) / 32)%Z as mo eqn:Hmo.
  assert (Hdiv : (32 * mo ≤ n + 50 < 32 * mo + 32)%Z).
  { subst mo. pose proof (Z.div_mod (n + 50) 32 ltac:(lia)).
    pose proof (Z.mod_pos_bound (n + 50) 32 ltac:(lia)). lia. }
  clear Hmo.
  assert (Hcases : (mo = 1 ∨ mo = 2 ∨ mo = 3 ∨ mo = 4 ∨ mo = 5 ∨ mo = 6 ∨ mo = 7
                    ∨ mo = 8 ∨ mo = 9 ∨ mo = 10 ∨ mo = 11 ∨ mo = 12)%Z) by lia.
  destruct_or!; subst mo; destruct leap; calendar_eval;
    match goal with |- context [(n <? ?p)%Z] => destruct (Z.ltb_spec n p) end;
    cbn [fst snd]; calendar_eval; lia.
Qed.

Lemma of_epoch_seconds_range (t us : Z) (dt : PyTime.datetime) :
  PyTime.of_epoch_seconds t us = Ok dt →
  (1 ≤ PyTime.year dt ≤ 9999 ∧ 1 ≤ PyTime.month dt ≤ 12 ∧ 1 ≤ PyTime.day dt ≤ 31
   ∧ 0 ≤ PyTime.hour dt ≤ 23 ∧ 0 ≤ PyTime.minute dt ≤ 59
   ∧ 0 ≤ PyTime.second dt ≤ 59 ∧ PyTime.microsecond dt = us)%Z.
Proof.
  unfold PyTime.of_epoch_seconds.
  pose proof (ord2ymd_bounds (t / 86400 + 719163)) as Hymd.
  destruct (PyTime.ord2ymd (t / 86400 + 719163)) as [[y m] d]. cbn in Hymd.
  destruct (Z.leb_spec 1 y); [|done]. destruct (Z.leb_spec y 9999); [|done].
  intros [= <-]. cbn.
  pose proof (Z.mod_pos_bound t 86400 ltac:(lia)) as Hrem.
  revert Hrem. generalize (t mod 86400)%Z. intros r Hr.
  pose proof (Z.mod_pos_bound r 3600 ltac:(lia)).
  pose proof (Z.mod_pos_bound r 60 ltac:(lia)).
  pose proof (Z.div_mod r 3600 ltac:(lia)).
  pose proof (Z.div_mod (r mod 3600) 60 ltac:(lia)).
  pose proof (Z.mod_pos_bound (r mod 3600) 60 ltac:(lia)).
  lia.
Qed.

(** ** Fixed-width decimal fields *)

Lemma forall_below (P : N → bool) (k : nat) :
  List.forallb P (List.map N.of_nat (List.seq 0 k)) = true →
  ∀ n, (n < N.of_nat k)%N → P n = true.
Proof.
  intros H n Hn. rewrite List.forallb_forall in H. apply H.
  apply List.in_map_iff. exists (N.to_nat n). split; [lia|].
  apply List.in_seq. lia.
Qed.

Lemma fmt_two_digits (n : N) : (n < 100)%N → two_digits (PyStr.fmt_d 2 n) = true.
Proof.
  apply (forall_below (fun n => two_digits (PyStr.fmt_d 2 n)) 100).
  vm_compute. reflexivity.
Qed.

Lemma fmt_four_digits (n : N) : (n < 10000)%N → four_digits (PyStr.fmt_d 4 n) = true.
Proof.
  apply (forall_below (fun n => four_digits (PyStr.fmt_d 4 n)) (100 * 100)).
  vm_compute. reflexivity.
Qed.

(** ** Replacing the offset by [Z] *)

Lemma replace_offset_other (c : ascii) (s : string) :
  c ≠ "+"%char →
  PyStr.replace_go "+00:00" "Z" 0 (String c s)
  = String c (PyStr.replace_go "+00:00" "Z" 0 s).
Proof.
  intros Hc. cbn [PyStr.replace_go String.prefix].
  destruct (ascii_dec "+" c) as [<-|_]; done.
Qed.

Lemma digit_not_plus (c : ascii) : is_digit c = true → c ≠ "+"%char.
Proof. by intros H ->. Qed.

Lemma iso_assembled (Y M D h m s : string) :
  four_digits Y = true → two_digits M = true → two_digits D = true →
  two_digits h = true → two_digits m = true → two_digits s = true →
  iso_pattern
    (PyStr.replace
       (Y +:+ "-" +:+ M +:+ "-" +:+ D +:+ "T" +:+ h +:+ ":" +:+ m +:+ ":" +:+ s
        +:+ EmptyString +:+ "+00:00") "+00:00" "Z") = true.
Proof.
  destruct Y as [|y1 [|y2 [|y3 [|y4 [|]]]]]; try done.
  destruct M as [|m1 [|m2 [|]]]; try done.
  destruct D as [|d1 [|d2 [|]]]; try done.
  destruct h as [|h1 [|h2 [|]]]; try done.
  destruct m as [|n1 [|n2 [|]]]; try done.
  destruct s as [|s1 [|s2 [|]]]; try done.
  cbn [four_digits two_digits].
  intros; repeat match goal with H : _ && _ = true |- _ => apply andb_true_iff in H as [??] end.
  unfold PyStr.replace.
  repeat (rewrite str_app_cons || rewrite str_app_nil_l).
  repeat (rewrite replace_offset_other by (done || by apply digit_not_plus)).
  cbn [PyStr.replace_go String.prefix String.length]. cbn.
  unfold iso_pattern. cbn [list_ascii_of_string].
  repeat match goal with H : is_digit _ = true |- _ => rewrite H; clear H end.
  reflexivity.
Qed.

(** ** The format of the timestamp *)

Lemma fromtimestamp_utc_cases (ts : Q) :
  ∃ t us, PyTime.fromtimestamp_utc ts = PyTime.of_epoch_seconds t us.
Proof.
  unfold PyTime.fromtimestamp_utc.
  repeat match goal with |- context [if ?b then _ else _] => destruct b end; eauto.
Qed.

Lemma iso8601_utc_pattern (ts : Q) (s : string) :
  iso8601_utc ts = Ok s → iso_pattern s = true.
Proof.
  unfold iso8601_utc. destruct (fromtimestamp_utc_cases ts) as (t & us & ->).
  destruct (PyTime.of_epoch_seconds t us) as [dt|] eqn:Hdt; [|done].
  apply of_epoch_seconds_range in Hdt as (Hy & Hm & Hd & Hh & Hmi & Hs & _).
  cbn. intros [= <-]. unfold PyTime.isoformat, PyTime.replace_microsecond. cbn.
  apply iso_assembled; (apply fmt_four_digits || apply fmt_two_digits); lia.
Qed.

(** ** Which second is shown *)

Section shown_second.
Local Open Scope Q_scope.

Lemma Qfloor_bounds (x : Q) : inject_Z (Qfloor x) <= x /\ x < inject_Z (Qfloor x) + 1.
Proof.
  split; [apply Qfloor_le|].
  pose proof (Qlt_floor x) as H. rewrite inject_Z_plus in H. exact H.
Qed.

Lemma Z_le_of_Q (a b : Z) : inject_Z a < inject_Z b + 1 -> (a <= b)%Z.
Proof.
  intros H. change 1 with (inject_Z 1) in H. rewrite <- inject_Z_plus in H.
  rewrite <- Zlt_Qlt in H. lia.
Qed.

Lemma Z_le_to_Q (a b : Z) : (a <= b)%Z -> inject_Z a <= inject_Z b.
Proof. intros H. rewrite <- Zle_Qle. exact H. Qed.

Lemma round_half_even_ge (n : Z) (y : Q) :
  Z.even n = true ->
  (n <= PyTime.round_half_even y)%Z <-> inject_Z n - (1 # 2) <= y.
Proof.
  intros Hn. unfold PyTime.round_half_even.
  destruct (Qfloor_bounds y) as [Hlo Hhi].
  set (f := Qfloor y) in *.
  destruct (Qcompare_spec (y - inject_Z f) (1 # 2)) as [He|Hl|Hg].
  - assert (Hy : y == inject_Z f + (1 # 2)) by lra.
    destruct (Z.even f) eqn:Hf.
    + split; intros H.
      * apply Z_le_to_Q in H. lra.
      * assert (n <= f + 1)%Z as Hle.
        { apply Z_le_of_Q. rewrite inject_Z_plus. change (inject_Z 1) with 1. lra. }
        destruct (Z.eq_dec n (f + 1)%Z) as [->|]; [|lia].
        rewrite Z.even_add, Hf in Hn. discriminate.
    + split; intros H.
      * apply Z_le_to_Q in H. rewrite inject_Z_plus in H. change (inject_Z 1) with 1 in H. lra.
      * apply Z_le_of_Q. rewrite inject_Z_plus. change (inject_Z 1) with 1. lra.
  - split; intros H.
    + apply Z_le_to_Q in H. lra.
    + apply Z_le_of_Q. lra.
  - split; intros H.
    + apply Z_le_to_Q in H. rewrite inject_Z_plus in H. change (inject_Z 1) with 1 in H. lra.
    + apply Z_le_of_Q. rewrite inject_Z_plus. change (inject_Z 1) with 1. lra.
Qed.

Lemma Qle_bool_spec (a b : Q) : reflect (a <= b) (Qle_bool a b).
Proof.
  destruct (Qle_bool a b) eqn:E; constructor.
  - by apply Qle_bool_iff.
  - intros H. apply Qle_bool_iff in H. congruence.
Qed.

Lemma Qceiling_bounds (x : Q) : x <= inject_Z (Qceiling x) /\ inject_Z (Qceiling x) < x + 1.
Proof.
  split; [apply Qle_ceiling|].
  pose proof (Qceiling_lt x) as H.
  replace (Qceiling x - 1)%Z with (Qceiling x + -1)%Z in H by lia.
  rewrite inject_Z_plus in H. change (inject_Z (-1)) with (-1) in H. lra.
Qed.

Lemma fromtimestamp_utc_second (ts : Q) :
  ∃ us, PyTime.fromtimestamp_utc ts = PyTime.of_epoch_seconds (shown_second ts) us.
Proof.
  unfold PyTime.fromtimestamp_utc, PyTime.trunc, shown_second.
  destruct (Qfloor_bounds ts) as [Hlo Hhi]. set (F := Qfloor ts) in *.
  assert (Heven : Z.even 1000000 = true) by reflexivity.
  assert (Heven0 : Z.even 0 = true) by reflexivity.
  change (inject_Z 1000000) with 1000000.
  destruct (Qle_bool_spec 0 ts) as [Hpos|Hneg].
  - set (us := PyTime.round_half_even ((ts - inject_Z F) * 1000000)).
    pose proof (round_half_even_ge 1000000 ((ts - inject_Z F) * 1000000) Heven) as H1.
    pose proof (round_half_even_ge 0 ((ts - inject_Z F) * 1000000) Heven0) as H0.
    fold us in H1, H0. change (inject_Z 1000000) with 1000000 in H1.
    change (inject_Z 0) with 0 in H0.
    destruct (Z.leb_spec 1000000 us) as [Hge|Hlt].
    + apply H1 in Hge. destruct (Qle_bool_spec (9999995 # 10000000) (ts - inject_Z F)); [eauto|].
      exfalso. lra.
    + destruct (Qle_bool_spec (9999995 # 10000000) (ts - inject_Z F)) as [Hc|_].
      * exfalso. assert (1000000 <= us)%Z; [|lia]. apply H1. lra.
      * destruct (Z.ltb_spec us 0) as [Hn|_]; [|eauto].
        exfalso. assert (0 <= us)%Z; [|lia]. apply H0. lra.
  - apply Qnot_le_lt in Hneg.
    destruct (Qceiling_bounds ts) as [Hclo Hchi]. set (C := Qceiling ts) in *.
    set (us := PyTime.round_half_even ((ts - inject_Z C) * 1000000)).
    pose proof (round_half_even_ge 1000000 ((ts - inject_Z C) * 1000000) Heven) as H1.
    pose proof (round_half_even_ge 0 ((ts - inject_Z C) * 1000000) Heven0) as H0.
    fold us in H1, H0. change (inject_Z 1000000) with 1000000 in H1.
    change (inject_Z 0) with 0 in H0.
    assert (HFC : (F <= C)%Z) by (rewrite Zle_Qle; lra).
    assert (HCF : (C <= F + 1)%Z).
    { apply Z_le_of_Q. rewrite inject_Z_plus. change (inject_Z 1) with 1. lra. }
    destruct (Z.leb_spec 1000000 us) as [Hge|Hlt].
    + exfalso. apply H1 in Hge. lra.
    + destruct (Z.ltb_spec us 0) as [Hn|Hnn].
      * assert (Hfr : ~ (0 - (1 # 2) <= (ts - inject_Z C) * 1000000)).
        { intros H. apply H0 in H. lia. }
        apply Qnot_le_lt in Hfr.
        assert (C = F + 1)%Z as HC.
        { destruct (Z.eq_dec C F) as [HCe|]; [|lia]. exfalso. rewrite HCe in Hfr. lra. }
        assert (inject_Z C == inject_Z F + 1) as HCq.
        { rewrite HC, inject_Z_plus. reflexivity. }
        destruct (Qle_bool_spec (9999995 # 10000000) (ts - inject_Z F)) as [Hc|_].
        -- exfalso. lra.
        -- replace (C - 1)%Z with F by lia. eauto.
      * apply H0 in Hnn.
        destruct (Z.eq_dec C F) as [HCe|HCne].
        -- destruct (Qle_bool_spec (9999995 # 10000000) (ts - inject_Z F)) as [Hc|_].
           ++ exfalso. rewrite HCe in Hclo. lra.
           ++ rewrite HCe. eauto.
        -- assert (C = F + 1)%Z as HC by lia.
           assert (inject_Z C == inject_Z F + 1) as HCq.
           { rewrite HC, inject_Z_plus. reflexivity. }
           destruct (Qle_bool_spec (9999995 # 10000000) (ts - inject_Z F)) as [_|Hc].
           ++ rewrite HC. eauto.
           ++ exfalso. apply Hc. lra.
Qed.

End shown_second.

Lemma shown_second_inject_Z (t : Z) : shown_second (inject_Z t) = t.
Proof.
  unfold shown_second. rewrite Qfloor_Z.
  destruct (Qle_bool_spec (9999995 # 10000000) (inject_Z t - inject_Z t)%Q) as [H|_]; [|done].
  exfalso. lra.
Qed.

(** Once the microseconds are set to zero, only the second matters. *)
Lemma iso_of_epoch_seconds (t us us' : Z) :
  (dt ← PyTime.of_epoch_seconds t us;
   Ok (PyStr.replace (PyTime.isoformat (PyTime.replace_microsecond 0 dt)) "+00:00" "Z"))
  = (dt ← PyTime.of_epoch_seconds t us';
     Ok (PyStr.replace (PyTime.isoformat (PyTime.replace_microsecond 0 dt)) "+00:00" "Z")).
Proof.
  unfold PyTime.of_epoch_seconds.
  destruct (PyTime.ord2ymd (t / 86400 + 719163)) as [[y m] d].
  by destruct ((1 <=? y)%Z && (y <=? 9999)%Z).
Qed.

Lemma iso8601_utc_shown_second (ts : Q) :
  iso8601_utc ts = iso8601_utc (inject_Z (shown_second ts)).
Proof.
  unfold iso8601_utc.
  destruct (fromtimestamp_utc_second ts) as [us ->].
  destruct (fromtimestamp_utc_second (inject_Z (shown_second ts))) as [us' ->].
  rewrite shown_second_inject_Z. apply iso_of_epoch_seconds.
Qed.

(** C3, as stated, fails: a file modified 0.99999976 s after
    2025-11-10T08:33:12Z (a timestamp that is a double) is shown at second
    13, not at its truncated second 12. *)
Lemma truncation_counterexample :
  ¬ shows_truncated_second (7393566389174271 # 4194304).
Proof. unfold shows_truncated_second. vm_compute. discriminate. Qed.

Example truncation_counterexample_values :
  iso8601_utc (7393566389174271 # 4194304) = Ok "2025-11-10T08:33:13Z"
  ∧ Qfloor (7393566389174271 # 4194304) = 1762763592%Z
  ∧ iso8601_utc (inject_Z 1762763592) = Ok "2025-11-10T08:33:12Z".
Proof. vm_compute. done. Qed.

(** C3, amended.  The string has the form [YYYY-MM-DDTHH:MM:SSZ]; it is the
    string of the whole second [shown_second ts], which is the truncated
    second, or the one after it when the fraction is 0.9999995 or more; so
    below that fraction it shows the modification time truncated to the
    second. *)
Theorem iso8601_utc_format (ts : Q) (s : string) :
  iso8601_utc ts = Ok s →
  iso_pattern s = true
  ∧ iso8601_utc (inject_Z (shown_second ts)) = Ok s
  ∧ (ts - 1 < inject_Z (shown_second ts) ∧ inject_Z (shown_second ts) <= ts + (5 # 10000000))%Q
  ∧ ((ts - inject_Z (Qfloor ts) < 9999995 # 10000000)%Q → shows_truncated_second ts).
Proof.
  intros Hs. split_and!.
  - by eapply iso8601_utc_pattern.
  - by rewrite <- iso8601_utc_shown_second.
  - unfold shown_second. destruct (Qfloor_bounds ts) as [Hlo Hhi].
    destruct (Qle_bool_spec (9999995 # 10000000) (ts - inject_Z (Qfloor ts))%Q) as [H|H].
    + rewrite inject_Z_plus. change (inject_Z 1) with 1%Q. lra.
    + lra.
  - unfold shown_second. destruct (Qfloor_bounds ts) as [Hlo Hhi].
    destruct (Qle_bool_spec (9999995 # 10000000) (ts - inject_Z (Qfloor ts))%Q) as [H|H].
    + rewrite inject_Z_plus. change (inject_Z 1) with 1%Q. lra.
    + lra.
  - intros Hfrac. unfold shows_truncated_second.
    rewrite (iso8601_utc_shown_second ts). unfold shown_second.
    destruct (Qle_bool_spec (9999995 # 10000000) (ts - inject_Z (Qfloor ts))%Q) as [H|_];
      [|done].
    exfalso. lra.
Qed.

Lemma iso8601_utc_format_witness :
  iso8601_utc (17627635925 # 10) = Ok "2025-11-10T08:33:12Z"
  ∧ iso_pattern "2025-11-10T08:33:12Z" = true
  ∧ iso8601_utc (inject_Z (shown_second (17627635925 # 10))) = Ok "2025-11-10T08:33:12Z"
  ∧ ((17627635925 # 10) - 1 < inject_Z (shown_second (17627635925 # 10))
     ∧ inject_Z (shown_second (17627635925 # 10)) <= (17627635925 # 10) + (5 # 10000000))%Q
  ∧ (((17627635925 # 10) - inject_Z (Qfloor (17627635925 # 10)) < 9999995 # 10000000)%Q
     → shows_truncated_second (17627635925 # 10)).
Proof.
  assert (H : iso8601_utc (17627635925 # 10) = Ok "2025-11-10T08:33:12Z")
    by (vm_compute; reflexivity).
  exact (conj H (iso8601_utc_format (17627635925 # 10) "2025-11-10T08:33:12Z" H)).
Defined.

(** The [mtime] of an entry is [iso8601_utc] of the file's modification time. *)
Lemma manifest_entry_mtime (w : world) (base_dir pattern : string)
    (m : list (string * json)) (name : string) (e : json) :
  build_manifest w base_dir pattern = Ok m →
  dict_get m name = Some e →
  ∃ mtime content flt ts,
    fs w !! path_join base_dir name = Some (Reg mtime content flt)
    ∧ iso8601_utc mtime = Ok ts ∧ field e "mtime" = Some (JStr ts)
    ∧ iso_pattern ts = true.
Proof.
  intros Hb Hg. destruct (build_manifest_get _ _ _ _ _ _ Hb Hg) as [_ He].
  apply entry_of_Ok in He as (mtime & content & flt & ts & Hfs & Hts & ->).
  exists mtime, content, flt, ts. split_and!; try done.
  by eapply iso8601_utc_pattern.
Qed.

(** ** The run as a whole *)

(** C6. When [--dir] does not resolve to a directory (a regular file, or
    nothing at all), the run prints the error on the error stream, exits
    with status 1 and writes no file. *)
Theorem not_a_directory_exits_1 (args : Args) (w : world) :
  isdir w (abspath w (arg_dir args)) = false →
  main args w
  = Run (Exit 1) [] ["[ERR] Not a directory: " +:+ abspath w (arg_dir args)] [].
Proof. intros H. unfold main. by rewrite H. Qed.

Lemma not_a_directory_exits_1_witness :
  isdir sample_world (abspath sample_world (arg_dir (MkArgs "/srv/readme" None ".pck" false)))
    = false
  ∧ main (MkArgs "/srv/readme" None ".pck" false) sample_world
    = Run (Exit 1) []
        ["[ERR] Not a directory: "
         +:+ abspath sample_world (arg_dir (MkArgs "/srv/readme" None ".pck" false))] [].
Proof.
  split; [reflexivity|].
  apply (not_a_directory_exits_1 (MkArgs "/srv/readme" None ".pck" false) sample_world).
  reflexivity.
Defined.

Example missing_directory_exits_1 :
  main (MkArgs "/srv/nowhere" (Some "/srv/out.json") ".pck" true) sample_world
  = Run (Exit 1) [] ["[ERR] Not a directory: /srv/nowhere"] [].
Proof. reflexivity. Qed.

(** C7. If reading any candidate (a listed regular file with the suffix)
    raises, the run ends with an uncaught exception and has written
    nothing: no manifest without that file, no partial manifest, and
    whatever was at the output path stays as it was. *)
Theorem read_error_aborts_run (args : Args) (w : world) (names : list string)
    (name : string) (e : exn) :
  listdir w (abspath w (arg_dir args)) = Ok names →
  name ∈ names →
  PyStr.endswith name (arg_pattern args) = true →
  isfile w (path_join (abspath w (arg_dir args)) name) = true →
  entry_of w (abspath w (arg_dir args)) name = Raise e →
  ∃ e', main args w = Run (Uncaught e') [] [] [].
Proof.
  intros Hls Hin Hsuf Hreg He. unfold main.
  assert (Hdir : isdir w (abspath w (arg_dir args)) = true).
  { unfold isdir. unfold listdir in Hls.
    by destruct (fs w !! abspath w (arg_dir args)) as [[| |]|]. }
  rewrite Hdir. cbn. unfold build_manifest. rewrite Hls. cbn.
  destruct (scan_fail_fast w (abspath w (arg_dir args)) (arg_pattern args)
              (sorted names) [] name e) as [e' ->]; [| |done|by eauto].
  - by apply elem_of_sorted.
  - by apply candidate_iff.
Qed.

Lemma read_error_aborts_run_witness :
  listdir (faulty_world Denied)
      (abspath (faulty_world Denied) (arg_dir (MkArgs "/srv/packs" None ".pck" true)))
    = Ok ["z.pck"; "a.pck"]
  ∧ "z.pck" ∈ ["z.pck"; "a.pck"]
  ∧ PyStr.endswith "z.pck" (arg_pattern (MkArgs "/srv/packs" None ".pck" true)) = true
  ∧ isfile (faulty_world Denied)
      (path_join (abspath (faulty_world Denied)
                    (arg_dir (MkArgs "/srv/packs" None ".pck" true))) "z.pck") = true
  ∧ entry_of (faulty_world Denied)
      (abspath (faulty_world Denied) (arg_dir (MkArgs "/srv/packs" None ".pck" true)))
      "z.pck" = Raise (OSError "/srv/packs/z.pck")
  ∧ ∃ e', main (MkArgs "/srv/packs" None ".pck" true) (faulty_world Denied)
          = Run (Uncaught e') [] [] [].
Proof.
  assert (Hin : "z.pck" ∈ ["z.pck"; "a.pck"]) by (apply elem_of_cons; by left).
  split_and!; [reflexivity|exact Hin|reflexivity|reflexivity|reflexivity|].
  apply (read_error_aborts_run (MkArgs "/srv/packs" None ".pck" true) (faulty_world Denied)
           ["z.pck"; "a.pck"] "z.pck" (OSError "/srv/packs/z.pck"));
    [reflexivity|exact Hin|reflexivity|reflexivity|reflexivity].
Defined.

Example faulty_runs :
  main (MkArgs "/srv/packs" None ".pck" true) (faulty_world Removed)
    = Run (Uncaught (OSError "/srv/packs/z.pck")) [] [] []
  ∧ main (MkArgs "/srv/packs" None ".pck" true) (faulty_world (ReadErrorAt 3))
    = Run (Uncaught (OSError "/srv/packs/z.pck")) [] [] []
  ∧ r_status (main (MkArgs "/srv/packs" None ".pck" true) (faulty_world (ReadErrorAt 6)))
    = Exit 0
  ∧ r_status (main (MkArgs "/srv/packs" None ".pck" true) (faulty_world NoFault)) = Exit 0.
Proof. vm_compute. done. Qed.

(** C9. An empty [--out] is falsy, so the output path is the default
    [<dir>/packs_manifest.json] under the absolute directory, and the run
    is the run without [--out]. *)
Theorem empty_out_is_default (d pattern : string) (pretty : bool) (w : world) :
  out_path_of (MkArgs d (Some EmptyString) pattern pretty) (abspath w d)
    = path_join (abspath w d) "packs_manifest.json"
  ∧ main (MkArgs d (Some EmptyString) pattern pretty) w
    = main (MkArgs d None pattern pretty) w.
Proof. split; reflexivity. Qed.

Example empty_out_sample :
  r_written (main (MkArgs "/srv/packs" (Some EmptyString) ".pck" false) sample_world)
  = [("/srv/packs/packs_manifest.json", serialize false sample_manifest)].
Proof. vm_compute. reflexivity. Qed.

(** ** Key order *)

Lemma sorted_StronglySorted (names : list string) : StronglySorted String.le (sorted names).
Proof. unfold sorted. apply StronglySorted_merge_sort; apply _. Qed.

Lemma sorted_Permutation (names1 names2 : list string) :
  names1 ≡ₚ names2 → sorted names1 = sorted names2.
Proof.
  intros Hp. apply (StronglySorted_unique String.le); try apply sorted_StronglySorted.
  unfold sorted. by rewrite !merge_sort_Permutation.
Qed.

(** Names come in ascending order, so a new key is never smaller than the
    keys before it. *)
Lemma scan_keys_sorted w base_dir pattern names manifest m :
  StronglySorted String.le names →
  StronglySorted String.le (dict_keys manifest) →
  (∀ k n, k ∈ dict_keys manifest → n ∈ names → String.le k n) →
  scan w base_dir pattern names manifest = Ok m →
  StronglySorted String.le (dict_keys m).
Proof.
  revert manifest. induction names as [|n rest IH]; intros manifest Hnames Hkeys Hle.
  - by intros [= <-].
  - apply StronglySorted_inv in Hnames as [Hrest Hn]. rewrite Forall_forall in Hn.
    rewrite scan_cons. destruct (candidate w base_dir pattern n).
    + destruct (entry_of w base_dir n) as [v|]; simpl; [|done].
      apply IH; [done| |].
      * destruct (decide (n ∈ dict_keys manifest)) as [Hin|Hout].
        -- by rewrite dict_keys_set_old.
        -- rewrite dict_keys_set_new by done. apply StronglySorted_app_2.
           ++ intros k1 k2 Hk1 ->%list_elem_of_singleton. apply Hle; [done|].
              apply elem_of_cons. by left.
           ++ done.
           ++ repeat constructor.
      * intros k n' [->|Hk]%dict_keys_set Hn'.
        -- by apply Hn.
        -- apply Hle; [done|]. apply elem_of_cons. by right.
    + apply IH; [done..|]. intros k n' Hk Hn'. apply Hle; [done|].
      apply elem_of_cons. by right.
Qed.

Lemma build_manifest_sorted w base_dir pattern m :
  build_manifest w base_dir pattern = Ok m → StronglySorted String.le (dict_keys m).
Proof.
  unfold build_manifest. destruct (listdir w base_dir) as [names|]; [|done]. cbn.
  apply scan_keys_sorted.
  - apply sorted_StronglySorted.
  - constructor.
  - by intros k n ?%elem_of_nil.
Qed.



(** ** The manifest depends on the directory only *)

Lemma candidate_ext w1 w2 base_dir pattern k :
  fs w1 !! path_join base_dir k = fs w2 !! path_join base_dir k →
  candidate w1 base_dir pattern k = candidate w2 base_dir pattern k.
Proof. intros H. unfold candidate, isfile. by rewrite H. Qed.

Lemma entry_of_ext w1 w2 base_dir k :
  fs w1 !! path_join base_dir k = fs w2 !! path_join base_dir k →
  entry_of w1 base_dir k = entry_of w2 base_dir k.
Proof.
  intros H. unfold entry_of, os_stat. rewrite !sha256_file_spec. by rewrite H.
Qed.

Lemma scan_ext w1 w2 base_dir pattern names manifest :
  (∀ k, k ∈ names → fs w1 !! path_join base_dir k = fs w2 !! path_join base_dir k) →
  scan w1 base_dir pattern names manifest = scan w2 base_dir pattern names manifest.
Proof.
  revert manifest. induction names as [|n rest IH]; intros manifest Hfs; [done|].
  rewrite !scan_cons.
  rewrite (candidate_ext w1 w2), (entry_of_ext w1 w2)
    by (apply Hfs, elem_of_cons; by left).
  assert (Hrest : ∀ manifest',
    scan w1 base_dir pattern rest manifest' = scan w2 base_dir pattern rest manifest').
  { intros manifest'. apply IH. intros k Hk. apply Hfs, elem_of_cons. by right. }
  destruct (candidate w2 base_dir pattern n); [|apply Hrest].
  destruct (entry_of w2 base_dir n); [apply Hrest|done].
Qed.

(** Names without the suffix are passed over. *)
Lemma scan_matching w base_dir pattern names manifest :
  scan w base_dir pattern names manifest
  = scan w base_dir pattern (matching pattern names) manifest.
Proof.
  revert manifest. induction names as [|n rest IH]; intros manifest; [done|].
  unfold matching in *. rewrite filter_cons. case_decide as Hn.
  - rewrite !scan_cons. destruct (candidate w base_dir pattern n); [|apply IH].
    destruct (entry_of w base_dir n); [apply IH|done].
  - rewrite scan_cons. unfold candidate.
    destruct (PyStr.endswith n pattern); [done|]. apply IH.
Qed.

Lemma StronglySorted_matching pattern (names : list string) :
  StronglySorted String.le names → StronglySorted String.le (matching pattern names).
Proof.
  unfold matching. induction 1 as [|n rest Hs IH Hn]; [rewrite filter_nil; constructor|].
  rewrite filter_cons. case_decide; [|done]. constructor; [done|].
  rewrite Forall_forall in Hn. rewrite Forall_forall.
  intros k [_ Hk]%list_elem_of_filter. by apply Hn.
Qed.

Lemma matching_sorted pattern (names : list string) :
  matching pattern (sorted names) = sorted (matching pattern names).
Proof.
  apply (StronglySorted_unique String.le).
  - apply StronglySorted_matching, sorted_StronglySorted.
  - apply sorted_StronglySorted.
  - unfold matching, sorted. by rewrite !merge_sort_Permutation.
Qed.

Lemma build_manifest_same_packs w1 w2 base_dir pattern :
  same_packs w1 w2 base_dir pattern →
  build_manifest w1 base_dir pattern = build_manifest w2 base_dir pattern.
Proof.
  intros (names1 & names2 & H1 & H2 & Hp & Hfs). unfold build_manifest.
  rewrite H1, H2. cbn.
  rewrite (scan_matching w1), (scan_matching w2), !matching_sorted.
  rewrite <- (sorted_Permutation _ _ Hp).
  apply scan_ext. intros k Hk. apply Hfs. by apply elem_of_sorted.
Qed.

Lemma same_directory_packs w1 w2 base_dir pattern :
  same_directory w1 w2 base_dir → same_packs w1 w2 base_dir pattern.
Proof.
  intros (names1 & names2 & H1 & H2 & Hp & Hfs). exists names1, names2.
  split_and!; [done..| |].
  - unfold matching. by rewrite Hp.
  - intros k [_ Hk]%list_elem_of_filter. by apply Hfs.
Qed.

(** Two runs that complete over the same packs write the same bytes to
    the same path. *)
Lemma runs_same_packs (args : Args) (w1 w2 : world) :
  abspath w1 (arg_dir args) = abspath w2 (arg_dir args) →
  same_packs w1 w2 (abspath w1 (arg_dir args)) (arg_pattern args) →
  r_status (main args w1) = Exit 0 →
  r_status (main args w2) = Exit 0 →
  main args w1 = main args w2
  ∧ ∃ m, build_manifest w1 (abspath w1 (arg_dir args)) (arg_pattern args) = Ok m
         ∧ r_written (main args w1)
           = [(out_path_of args (abspath w1 (arg_dir args)), serialize (arg_pretty args) m)].
Proof.
  intros Habs Hsame. unfold main.
  rewrite <- Habs, <- (build_manifest_same_packs w1 w2 _ _ Hsame).
  destruct Hsame as (names1 & names2 & H1 & H2 & _).
  assert (Hd1 : isdir w1 (abspath w1 (arg_dir args)) = true).
  { unfold isdir. unfold listdir in H1.
    by destruct (fs w1 !! abspath w1 (arg_dir args)) as [[| |]|]. }
  assert (Hd2 : isdir w2 (abspath w1 (arg_dir args)) = true).
  { unfold isdir. unfold listdir in H2.
    by destruct (fs w2 !! abspath w1 (arg_dir args)) as [[| |]|]. }
  rewrite Hd1, Hd2. cbn.
  destruct (build_manifest w1 (abspath w1 (arg_dir args)) (arg_pattern args)) as [m|];
    [|done].
  destruct (open_w w1 _) as [[]|]; [|done].
  destruct (open_w w2 _) as [[]|]; [|done].
  intros _ _. split; [done|]. by exists m.
Qed.

(** ** The encoder on a manifest *)

Create Rewrite HintDb str.
#[local] Hint Rewrite str_app_assoc str_app_cons str_app_nil_l str_app_nil_r : str.

Lemma join_items_false indent level (l : list (string * string)) :
  PyJson.join_items indent level false l
  = prefix_each (PyJson.item_separator indent +:+ PyJson.newline_indent indent level)
      (List.map (fun kv => quoted kv.1 +:+ PyJson.key_separator +:+ kv.2) l).
Proof.
  induction l as [|[k v] l IH]; [done|].
  cbn [PyJson.join_items List.map prefix_each fst snd]. rewrite IH.
  unfold quoted. by autorewrite with str.
Qed.

Lemma join_items_true indent level (l : list (string * string)) :
  PyJson.join_items indent level true l
  = join_with (PyJson.item_separator indent +:+ PyJson.newline_indent indent level)
      (List.map (fun kv => quoted kv.1 +:+ PyJson.key_separator +:+ kv.2) l).
Proof.
  destruct l as [|[k v] l]; [done|].
  cbn [PyJson.join_items List.map join_with fst snd]. rewrite join_items_false.
  unfold quoted. by autorewrite with str.
Qed.

Lemma sort_entry_fields (v1 v2 v3 v4 : string) :
  merge_sort PyJson.key_le [("version", v1); ("size", v2); ("mtime", v3); ("sha256", v4)]
  = [("mtime", v3); ("sha256", v4); ("size", v2); ("version", v1)].
Proof. vm_compute. reflexivity. Qed.

Lemma encode_size (n : N) : PyJson.encode_int (Z.of_N n) = PyStr.of_N n.
Proof.
  unfold PyJson.encode_int. destruct (Z.ltb_spec (Z.of_N n) 0); [lia|].
  by rewrite N2Z.id.
Qed.

Lemma iterencode_entry_default level d s t :
  PyJson.iterencode None false level (entry d s t)
  = "{" +:+ quoted "version" +:+ ": " +:+ quoted d +:+ ", "
    +:+ quoted "size" +:+ ": " +:+ PyStr.of_N s +:+ ", "
    +:+ quoted "mtime" +:+ ": " +:+ quoted t +:+ ", "
    +:+ quoted "sha256" +:+ ": " +:+ quoted d +:+ "}".
Proof.
  unfold entry. cbn [PyJson.iterencode List.map fst snd].
  rewrite join_items_true. rewrite encode_size.
  cbn [List.map join_with prefix_each fst snd PyJson.item_separator
       PyJson.newline_indent PyJson.key_separator].
  unfold quoted. by autorewrite with str.
Qed.

Lemma iterencode_entry_pretty d s t :
  PyJson.iterencode (Some 2%nat) true 1 (entry d s t)
  = "{" +:+ PyJson.LF
    +:+ "    " +:+ quoted "mtime" +:+ ": " +:+ quoted t +:+ "," +:+ PyJson.LF
    +:+ "    " +:+ quoted "sha256" +:+ ": " +:+ quoted d +:+ "," +:+ PyJson.LF
    +:+ "    " +:+ quoted "size" +:+ ": " +:+ PyStr.of_N s +:+ "," +:+ PyJson.LF
    +:+ "    " +:+ quoted "version" +:+ ": " +:+ quoted d +:+ PyJson.LF
    +:+ "  }".
Proof.
  unfold entry. cbn [PyJson.iterencode List.map fst snd].
  rewrite sort_entry_fields, join_items_true, encode_size.
  cbn [List.map join_with prefix_each fst snd PyJson.item_separator
       PyJson.newline_indent PyJson.key_separator PyJson.spaces Nat.mul Nat.add].
  unfold quoted, PyJson.LF. by autorewrite with str.
Qed.

Lemma serialize_default (rows : list row) :
  serialize false (manifest_of_rows rows) = default_layout rows +:+ PyJson.LF.
Proof.
  unfold serialize, PyJson.dumps. f_equal.
  assert (Hmap :
    List.map (fun kv : string * string => quoted kv.1 +:+ PyJson.key_separator +:+ kv.2)
      (List.map (fun kv : string * json => (kv.1, PyJson.iterencode None false 1 kv.2))
         (manifest_of_rows rows))
    = List.map default_entry rows).
  { unfold manifest_of_rows. rewrite !List.map_map. apply List.map_ext. intros r.
    cbn [fst snd]. rewrite iterencode_entry_default. unfold default_entry.
    cbn [PyJson.key_separator]. by autorewrite with str. }
  destruct rows as [|r rows]; [reflexivity|].
  change (manifest_of_rows (r :: rows))
    with ((row_name r, entry (row_digest r) (row_size r) (row_mtime r))
          :: manifest_of_rows rows) in *.
  cbn [PyJson.iterencode]. rewrite join_items_true, Hmap.
  unfold default_layout. cbn [PyJson.item_separator PyJson.newline_indent].
  by autorewrite with str.
Qed.

#[local] Instance key_le_trans : Transitive PyJson.key_le.
Proof. intros a b c. unfold PyJson.key_le. apply transitivity. Qed.

#[local] Instance key_le_total : Total PyJson.key_le.
Proof. intros a b. unfold PyJson.key_le. apply total, _. Qed.

Lemma NoDup_fst_eq {V} (l : list (string * V)) (x y : string * V) :
  NoDup (List.map fst l) → x ∈ l → y ∈ l → x.1 = y.1 → x = y.
Proof.
  induction l as [|z l IH]; cbn [List.map]; intros Hnd Hx Hy Hk.
  - by apply elem_of_nil in Hx.
  - apply NoDup_cons in Hnd as [Hz Hnd].
    apply elem_of_cons in Hx as [->|Hx]; apply elem_of_cons in Hy as [->|Hy].
    + done.
    + exfalso. apply Hz. rewrite Hk. apply list_elem_of_In, List.in_map.
      by apply list_elem_of_In.
    + exfalso. apply Hz. rewrite <- Hk. apply list_elem_of_In, List.in_map.
      by apply list_elem_of_In.
    + by apply IH.
Qed.

Lemma key_sorted_lift {V} (l : list (string * V)) :
  StronglySorted String.le (List.map fst l) →
  StronglySorted (fun a b : string * V => String.le a.1 b.1) l.
Proof.
  induction l as [|x l IH]; cbn [List.map]; intros Hs; [constructor|].
  apply StronglySorted_inv in Hs as [Hs Hx]. constructor; [by apply IH|].
  rewrite Forall_forall in Hx. rewrite Forall_forall. intros y Hy. apply Hx.
  apply list_elem_of_In, List.in_map. by apply list_elem_of_In.
Qed.

(** Sorting by key leaves a list alone whose keys already ascend. *)
Lemma merge_sort_key_sorted (l : list (string * string)) :
  StronglySorted String.le (List.map fst l) → NoDup (List.map fst l) →
  merge_sort PyJson.key_le l = l.
Proof.
  intros Hs Hnd. apply (StronglySorted_unique_strong PyJson.key_le).
  - intros x y Hx Hy Hxy Hyx. rewrite merge_sort_Permutation in Hx.
    apply (NoDup_fst_eq l); [done..|].
    unfold PyJson.key_le in *. by apply (anti_symm String.le).
  - apply StronglySorted_merge_sort; apply _.
  - by apply key_sorted_lift.
  - apply merge_sort_Permutation.
Qed.

Lemma prefix_each_indent {A} (sep ind : string) (g : A → string) (l : list A) :
  prefix_each (sep +:+ ind) (List.map g l)
  = prefix_each sep (List.map (fun x => ind +:+ g x) l).
Proof.
  induction l as [|x l IH]; [done|].
  cbn [List.map prefix_each]. rewrite IH. by autorewrite with str.
Qed.

Lemma serialize_pretty (rows : list row) :
  StronglySorted String.le (List.map row_name rows) →
  NoDup (List.map row_name rows) →
  serialize true (manifest_of_rows rows) = pretty_layout rows +:+ PyJson.LF.
Proof.
  intros Hs Hnd. unfold serialize, PyJson.dumps. f_equal.
  set (encoded := List.map
    (fun kv : string * json => (kv.1, PyJson.iterencode (Some 2%nat) true 1 kv.2))
    (manifest_of_rows rows)).
  assert (Hkeys : List.map fst encoded = List.map row_name rows).
  { unfold encoded, manifest_of_rows. rewrite !List.map_map. by apply List.map_ext. }
  assert (Hsort : merge_sort PyJson.key_le encoded = encoded).
  { apply merge_sort_key_sorted; by rewrite Hkeys. }
  assert (Hmap :
    List.map (fun kv : string * string => "  " +:+ quoted kv.1 +:+ PyJson.key_separator +:+ kv.2)
      encoded
    = List.map pretty_entry rows).
  { unfold encoded, manifest_of_rows. rewrite !List.map_map. apply List.map_ext. intros r.
    cbn [fst snd]. rewrite iterencode_entry_pretty. unfold pretty_entry.
    cbn [PyJson.key_separator]. by autorewrite with str. }
  destruct rows as [|r rows]; [reflexivity|].
  change (manifest_of_rows (r :: rows))
    with ((row_name r, entry (row_digest r) (row_size r) (row_mtime r))
          :: manifest_of_rows rows) in *.
  cbn [PyJson.iterencode]. fold encoded. rewrite Hsort, join_items_true.
  unfold pretty_layout. rewrite <- Hmap.
  cbn [PyJson.item_separator PyJson.newline_indent PyJson.spaces Nat.mul Nat.add].
  subst encoded. cbn [List.map join_with].
  rewrite <- (prefix_each_indent ("," +:+ PyJson.LF) "  ").
  unfold PyJson.LF. by autorewrite with str.
Qed.

(** ** Every value of the manifest is an entry *)

Lemma dict_keys_rows (rows : list row) :
  dict_keys (manifest_of_rows rows) = List.map row_name rows.
Proof. unfold dict_keys, manifest_of_rows. rewrite List.map_map. by apply List.map_ext. Qed.

Lemma dict_set_rows (rows : list row) (n d : string) (s : N) (t : string) :
  ∃ rows', dict_set (manifest_of_rows rows) n (entry d s t) = manifest_of_rows rows'.
Proof.
  induction rows as [|r rows [rows' IH]].
  - by exists [Row n d s t].
  - unfold manifest_of_rows in *. cbn [List.map dict_set].
    destruct (String.eqb (row_name r) n).
    + by exists (Row n d s t :: rows).
    + exists (r :: rows'). cbn [List.map]. by rewrite IH.
Qed.

Lemma scan_rows w base_dir pattern names (rows : list row) m :
  scan w base_dir pattern names (manifest_of_rows rows) = Ok m →
  ∃ rows', m = manifest_of_rows rows'.
Proof.
  revert rows. induction names as [|n rest IH]; intros rows.
  - intros [= <-]. by exists rows.
  - rewrite scan_cons. destruct (candidate w base_dir pattern n); [|apply IH].
    destruct (entry_of w base_dir n) as [v|] eqn:He; simpl; [|done].
    apply entry_of_Ok in He as (mtime & content & flt & ts & _ & _ & ->).
    destruct (dict_set_rows rows n (SHA256.hexdigest content)
                (N.of_nat (List.length content)) ts) as [rows' ->].
    apply IH.
Qed.

Lemma build_manifest_rows w base_dir pattern m :
  build_manifest w base_dir pattern = Ok m →
  ∃ rows, m = manifest_of_rows rows
          ∧ StronglySorted String.le (List.map row_name rows)
          ∧ NoDup (List.map row_name rows).
Proof.
  intros Hb. pose proof (build_manifest_sorted _ _ _ _ Hb) as Hs.
  pose proof (build_manifest_NoDup _ _ _ _ Hb) as Hnd.
  unfold build_manifest in Hb. destruct (listdir w base_dir) as [names|]; [|done].
  cbn in Hb. apply (scan_rows _ _ _ _ []) in Hb as [rows ->].
  exists rows. by rewrite <- dict_keys_rows.
Qed.

(** ** The text without white space is a JSON text of the manifest *)

Lemma ws_empty : ws EmptyString.
Proof. done. Qed.

Lemma jt_str0 (s : string) : json_text (JStr s) (quoted s).
Proof.
  replace (quoted s) with (EmptyString +:+ quoted s +:+ EmptyString)
    by (by autorewrite with str).
  apply jt_str; apply ws_empty.
Qed.

Lemma jt_int0 (n : Z) : json_text (JInt n) (PyJson.encode_int n).
Proof.
  replace (PyJson.encode_int n) with (EmptyString +:+ PyJson.encode_int n +:+ EmptyString)
    by (by autorewrite with str).
  apply jt_int; apply ws_empty.
Qed.

Lemma jt_obj0 k v items body :
  members_text k v items body → json_text (JObj ((k, v) :: items)) ("{" +:+ body +:+ "}").
Proof.
  intros H.
  replace ("{" +:+ body +:+ "}") with (EmptyString +:+ "{" +:+ body +:+ "}" +:+ EmptyString)
    by (by autorewrite with str).
  apply jt_obj; [apply ws_empty..|done].
Qed.

Lemma mt_last0 k v vt :
  json_text v vt → members_text k v [] (quoted k +:+ ":" +:+ vt).
Proof.
  intros H.
  replace (quoted k +:+ ":" +:+ vt)
    with (EmptyString +:+ quoted k +:+ EmptyString +:+ ":" +:+ vt)
    by (by autorewrite with str).
  apply mt_last; [apply ws_empty..|done].
Qed.

Lemma mt_more0 k v k' v' items vt rest :
  json_text v vt → members_text k' v' items rest →
  members_text k v ((k', v') :: items) (quoted k +:+ ":" +:+ vt +:+ "," +:+ rest).
Proof.
  intros H Hr.
  replace (quoted k +:+ ":" +:+ vt +:+ "," +:+ rest)
    with (EmptyString +:+ quoted k +:+ EmptyString +:+ ":" +:+ vt +:+ "," +:+ rest)
    by (by autorewrite with str).
  apply mt_more; [apply ws_empty..|done|done].
Qed.

Lemma compact_value_text (r : row) :
  json_text (entry (row_digest r) (row_size r) (row_mtime r)) (compact_value r).
Proof.
  unfold entry, compact_value. apply jt_obj0.
  apply mt_more0; [apply jt_str0|]. apply mt_more0; [apply jt_int0|].
  apply mt_more0; [apply jt_str0|]. apply mt_last0, jt_str0.
Qed.

Lemma compact_entry_value (r : row) :
  compact_entry r = quoted (row_name r) +:+ ":" +:+ compact_value r.
Proof.
  unfold compact_entry, compact_value. rewrite encode_size. by autorewrite with str.
Qed.

Lemma compact_members (r : row) (rows : list row) :
  members_text (row_name r) (entry (row_digest r) (row_size r) (row_mtime r))
    (manifest_of_rows rows)
    (join_with "," (List.map compact_entry (r :: rows))).
Proof.
  revert r. induction rows as [|r' rows IH]; intros r.
  - cbn [List.map join_with prefix_each manifest_of_rows].
    rewrite compact_entry_value. autorewrite with str.
    apply (mt_last0 _ _ (compact_value r)), compact_value_text.
  - specialize (IH r'). cbn [List.map join_with prefix_each manifest_of_rows] in *.
    rewrite (compact_entry_value r).
    replace ((quoted (row_name r) +:+ ":" +:+ compact_value r)
             +:+ "," +:+ compact_entry r' +:+ prefix_each "," (List.map compact_entry rows))
      with (quoted (row_name r) +:+ ":" +:+ compact_value r +:+ ","
            +:+ (compact_entry r' +:+ prefix_each "," (List.map compact_entry rows)))
      by (by autorewrite with str).
    apply mt_more0; [apply compact_value_text|apply IH].
Qed.

Lemma compact_layout_text (rows : list row) :
  json_text (JObj (manifest_of_rows rows)) (compact_layout rows).
Proof.
  destruct rows as [|r rows].
  - apply (jt_empty EmptyString EmptyString EmptyString); apply ws_empty.
  - unfold compact_layout. apply (jt_obj0 _ _ (manifest_of_rows rows)), compact_members.
Qed.

(** ** The default separators cost nine characters per entry, less one *)

Lemma default_entry_length (r : row) :
  String.length (default_entry r) = (String.length (compact_entry r) + 8)%nat.
Proof.
  unfold default_entry, compact_entry. rewrite !str_length_app.
  cbn [String.length]. lia.
Qed.

Lemma default_prefix_length (l : list row) :
  String.length (prefix_each ", " (List.map default_entry l))
  = (String.length (prefix_each "," (List.map compact_entry l)) + 9 * List.length l)%nat.
Proof.
  induction l as [|r l IH]; [done|].
  cbn [List.map prefix_each List.length]. rewrite !str_length_app, IH, default_entry_length.
  cbn [String.length]. lia.
Qed.

Lemma default_layout_length (rows : list row) :
  rows ≠ [] →
  String.length (default_layout rows)
  = (String.length (compact_layout rows) + 9 * List.length rows - 1)%nat.
Proof.
  destruct rows as [|r rows]; [done|]. intros _.
  unfold default_layout, compact_layout. cbn [List.map join_with List.length].
  rewrite !str_length_app, default_prefix_length, default_entry_length.
  cbn [String.length]. lia.
Qed.

Lemma layout_ends (pretty : bool) (rows : list row) :
  ∃ body, (if pretty then pretty_layout rows else default_layout rows) = body +:+ "}".
Proof.
  destruct pretty, rows as [|r rows].
  - by exists "{".
  - eexists. unfold pretty_layout. rewrite <- !str_app_assoc. reflexivity.
  - by exists "{".
  - eexists. unfold default_layout. rewrite <- !str_app_assoc. reflexivity.
Qed.

(** C5, as stated, fails: for the sample manifest the text written without
    [--pretty] is a JSON text of the mapping, but a shorter one exists. *)
Lemma default_not_most_compact :
  ¬ most_compact (JObj sample_manifest) (PyJson.dumps None false (JObj sample_manifest)).
Proof.
  intros [_ Hmin]. specialize (Hmin (compact_layout sample_rows)).
  pose proof (compact_layout_text sample_rows) as Htext.
  change (manifest_of_rows sample_rows) with sample_manifest in Htext.
  apply Hmin in Htext. vm_compute in Htext. lia.
Qed.

(** C5, amended.  The file is the JSON text followed by one line feed, and
    the text ends with the closing brace.  With [--pretty] the text is laid
    out one field per line with two spaces per level and ascending keys at
    both levels.  Without it the text is the one-line layout with [", "]
    between items and [": "] after keys; that is a wider text than the
    one without white space, which is a JSON text of the same mapping: by
    nine characters per entry, less one. *)
Theorem serialized_layouts (w : world) (base_dir pattern : string)
    (m : list (string * json)) :
  build_manifest w base_dir pattern = Ok m →
  ∃ rows,
    m = manifest_of_rows rows
    ∧ StronglySorted String.le (List.map row_name rows)
    ∧ serialize true m = pretty_layout rows +:+ PyJson.LF
    ∧ serialize false m = default_layout rows +:+ PyJson.LF
    ∧ (∀ pretty, ∃ body, serialize pretty m = body +:+ "}" +:+ PyJson.LF)
    ∧ json_text (JObj m) (compact_layout rows)
    ∧ (rows ≠ [] →
       String.length (default_layout rows)
       = (String.length (compact_layout rows) + 9 * List.length rows - 1)%nat).
Proof.
  intros (rows & -> & Hs & Hnd)%build_manifest_rows. exists rows.
  pose proof (serialize_pretty rows Hs Hnd) as Hp.
  pose proof (serialize_default rows) as Hd.
  split_and!; try done.
  - intros pretty. destruct (layout_ends pretty rows) as [body Hb].
    exists body. destruct pretty.
    + by rewrite Hp, Hb, str_app_assoc.
    + by rewrite Hd, Hb, str_app_assoc.
  - apply compact_layout_text.
  - apply default_layout_length.
Qed.

Lemma serialized_layouts_witness :
  build_manifest sample_world "/srv/packs" ".pck" = Ok sample_manifest
  ∧ ∃ rows,
      sample_manifest = manifest_of_rows rows
      ∧ StronglySorted String.le (List.map row_name rows)
      ∧ serialize true sample_manifest = pretty_layout rows +:+ PyJson.LF
      ∧ serialize false sample_manifest = default_layout rows +:+ PyJson.LF
      ∧ (∀ pretty, ∃ body, serialize pretty sample_manifest = body +:+ "}" +:+ PyJson.LF)
      ∧ json_text (JObj sample_manifest) (compact_layout rows)
      ∧ (rows ≠ [] →
         String.length (default_layout rows)
         = (String.length (compact_layout rows) + 9 * List.length rows - 1)%nat).
Proof.
  assert (Hb : build_manifest sample_world "/srv/packs" ".pck" = Ok sample_manifest)
    by (vm_compute; reflexivity).
  exact (conj Hb (serialized_layouts sample_world "/srv/packs" ".pck" sample_manifest Hb)).
Defined.

Example sample_texts :
  String.length (PyJson.dumps None false (JObj sample_manifest)) = 212%nat
  ∧ String.length (compact_layout sample_rows) = 204%nat
  ∧ compact_layout sample_rows
    = sq "{'a.pck':{'version':'9f86d081884c7d659a2feaa0c55ad015a3bf4f1b2b0b822cd15d6c15b0f00a08','size':4,'mtime':'2025-11-10T08:33:12Z','sha256':'9f86d081884c7d659a2feaa0c55ad015a3bf4f1b2b0b822cd15d6c15b0f00a08'}}".
Proof. vm_compute. done. Qed.

(** C8. Two runs with [--pretty] that complete over the same directory,
    listed in whatever order, write the same bytes to the same path. *)
Theorem pretty_runs_identical (d : string) (out : option string) (pattern : string)
    (w1 w2 : world) :
  abspath w1 d = abspath w2 d →
  same_directory w1 w2 (abspath w1 d) →
  r_status (main (MkArgs d out pattern true) w1) = Exit 0 →
  r_status (main (MkArgs d out pattern true) w2) = Exit 0 →
  r_written (main (MkArgs d out pattern true) w1)
    = r_written (main (MkArgs d out pattern true) w2)
  ∧ ∃ m, build_manifest w1 (abspath w1 d) pattern = Ok m
         ∧ r_written (main (MkArgs d out pattern true) w1)
           = [(out_path_of (MkArgs d out pattern true) (abspath w1 d), serialize true m)].
Proof.
  intros Habs Hsame H1 H2.
  destruct (runs_same_packs (MkArgs d out pattern true) w1 w2 Habs
              (same_directory_packs _ _ _ pattern Hsame) H1 H2) as [Heq Hm].
  split; [by rewrite Heq|done].
Qed.

Lemma sample_same_directory : same_directory sample_world sample_world_again "/srv/packs".
Proof.
  exists ["notapck"; "b.txt"; "sub.pck"; "foo.PCK"; "a.pck"],
         ["a.pck"; "foo.PCK"; "notapck"; "sub.pck"; "b.txt"].
  split_and!; [reflexivity|reflexivity| |].
  - apply (bool_decide_unpack _). vm_compute. exact I.
  - intros k Hk. repeat (apply elem_of_cons in Hk as [->|Hk]; [vm_compute; reflexivity|]).
    by apply elem_of_nil in Hk.
Qed.

Lemma pretty_runs_identical_witness :
  abspath sample_world "/srv/packs" = abspath sample_world_again "/srv/packs"
  ∧ same_directory sample_world sample_world_again (abspath sample_world "/srv/packs")
  ∧ r_status (main (MkArgs "/srv/packs" (Some "/srv/manifest.json") ".pck" true) sample_world) = Exit 0
  ∧ r_status (main (MkArgs "/srv/packs" (Some "/srv/manifest.json") ".pck" true) sample_world_again) = Exit 0
  ∧ r_written (main (MkArgs "/srv/packs" (Some "/srv/manifest.json") ".pck" true) sample_world)
    = r_written (main (MkArgs "/srv/packs" (Some "/srv/manifest.json") ".pck" true) sample_world_again)
  ∧ ∃ m, build_manifest sample_world (abspath sample_world "/srv/packs") ".pck" = Ok m
         ∧ r_written (main (MkArgs "/srv/packs" (Some "/srv/manifest.json") ".pck" true) sample_world)
           = [(out_path_of (MkArgs "/srv/packs" (Some "/srv/manifest.json") ".pck" true)
                 (abspath sample_world "/srv/packs"), serialize true m)].
Proof.
  assert (H1 : r_status (main (MkArgs "/srv/packs" (Some "/srv/manifest.json") ".pck" true) sample_world) = Exit 0)
    by (vm_compute; reflexivity).
  assert (H2 : r_status (main (MkArgs "/srv/packs" (Some "/srv/manifest.json") ".pck" true) sample_world_again)
               = Exit 0) by (vm_compute; reflexivity).
  exact (conj eq_refl (conj sample_same_directory (conj H1 (conj H2
    (pretty_runs_identical "/srv/packs" (Some "/srv/manifest.json") ".pck"
       sample_world sample_world_again
       eq_refl sample_same_directory H1 H2))))).
Defined.

(** C10. Without [--pretty] too, the keys of the written text ascend: the
    names are inserted in sorted order and the encoder emits the items in
    insertion order.  So two runs that complete over the same directory
    write the same bytes without [--pretty] as well. *)
Theorem default_keys_sorted_and_stable (d : string) (out : option string)
    (pattern : string) (w1 w2 : world) :
  abspath w1 d = abspath w2 d →
  same_directory w1 w2 (abspath w1 d) →
  r_status (main (MkArgs d out pattern false) w1) = Exit 0 →
  r_status (main (MkArgs d out pattern false) w2) = Exit 0 →
  ∃ rows,
    build_manifest w1 (abspath w1 d) pattern = Ok (manifest_of_rows rows)
    ∧ StronglySorted String.le (List.map row_name rows)
    ∧ NoDup (List.map row_name rows)
    ∧ r_written (main (MkArgs d out pattern false) w1)
      = [(out_path_of (MkArgs d out pattern false) (abspath w1 d),
          default_layout rows +:+ PyJson.LF)]
    ∧ r_written (main (MkArgs d out pattern false) w2)
      = r_written (main (MkArgs d out pattern false) w1).
Proof.
  intros Habs Hsame H1 H2.
  destruct (runs_same_packs (MkArgs d out pattern false) w1 w2 Habs
              (same_directory_packs _ _ _ pattern Hsame) H1 H2) as [Heq (m & Hb & Hw)].
  cbn [arg_dir arg_pattern arg_pretty] in Hb, Hw.
  destruct (build_manifest_rows _ _ _ _ Hb) as (rows & -> & Hs & Hnd).
  exists rows. rewrite serialize_default in Hw. by rewrite <- Heq.
Qed.

Lemma default_keys_sorted_and_stable_witness :
  abspath sample_world "/srv/packs" = abspath sample_world_again "/srv/packs"
  ∧ same_directory sample_world sample_world_again (abspath sample_world "/srv/packs")
  ∧ r_status (main (MkArgs "/srv/packs" (Some "/srv/manifest.json") "pck" false) sample_world) = Exit 0
  ∧ r_status (main (MkArgs "/srv/packs" (Some "/srv/manifest.json") "pck" false) sample_world_again) = Exit 0
  ∧ ∃ rows,
      build_manifest sample_world (abspath sample_world "/srv/packs") "pck"
        = Ok (manifest_of_rows rows)
      ∧ StronglySorted String.le (List.map row_name rows)
      ∧ NoDup (List.map row_name rows)
      ∧ r_written (main (MkArgs "/srv/packs" (Some "/srv/manifest.json") "pck" false) sample_world)
        = [(out_path_of (MkArgs "/srv/packs" (Some "/srv/manifest.json") "pck" false)
              (abspath sample_world "/srv/packs"),
            default_layout rows +:+ PyJson.LF)]
      ∧ r_written (main (MkArgs "/srv/packs" (Some "/srv/manifest.json") "pck" false) sample_world_again)
        = r_written (main (MkArgs "/srv/packs" (Some "/srv/manifest.json") "pck" false) sample_world).
Proof.
  assert (H1 : r_status (main (MkArgs "/srv/packs" (Some "/srv/manifest.json") "pck" false) sample_world) = Exit 0)
    by (vm_compute; reflexivity).
  assert (H2 : r_status (main (MkArgs "/srv/packs" (Some "/srv/manifest.json") "pck" false) sample_world_again)
               = Exit 0) by (vm_compute; reflexivity).
  exact (conj eq_refl (conj sample_same_directory (conj H1 (conj H2
    (default_keys_sorted_and_stable "/srv/packs" (Some "/srv/manifest.json") "pck"
       sample_world sample_world_again
       eq_refl sample_same_directory H1 H2))))).
Defined.

(** After a run without [--out] the manifest is a new name in the directory,
    yet the packs are the same and the next run writes the same bytes. *)
Example sample_second_run_default_out :
  r_written (main (MkArgs "/srv/packs" None ".pck" true) sample_world_after)
    = r_written (main (MkArgs "/srv/packs" None ".pck" true) sample_world)
  ∧ r_written (main (MkArgs "/srv/packs" None ".pck" false) sample_world_after)
    = r_written (main (MkArgs "/srv/packs" None ".pck" false) sample_world).
Proof. vm_compute. done. Qed.

(** With the suffix [.json] the second run reads the manifest of the first:
    the directory is no longer the same, and neither is the output. *)
Example sample_second_run_json_suffix :
  r_written (main (MkArgs "/srv/packs" None ".json" true) sample_world_after)
    ≠ r_written (main (MkArgs "/srv/packs" None ".json" true) sample_world).
Proof. vm_compute. discriminate. Qed.

Example unsorted_listing_sorted_keys :
  dict_keys <$> build_manifest_opt sample_world_again "/srv/packs" "pck"
  = Some ["a.pck"; "notapck"].
Proof. vm_compute. reflexivity. Qed.

(** * More properties of the script *)

(** ** [sha256_file] *)


(** ** The loop *)

Lemma scan_first_error w base_dir pattern names manifest e :
  scan w base_dir pattern names manifest = Raise e →
  ∃ before k after,
    names = before ++ k :: after
    ∧ candidate w base_dir pattern k = true
    ∧ entry_of w base_dir k = Raise e
    ∧ ∀ k', k' ∈ before → candidate w base_dir pattern k' = true →
            is_ok (entry_of w base_dir k') = true.
Proof.
  revert manifest. induction names as [|n rest IH]; intros manifest; [done|].
  rewrite scan_cons. destruct (candidate w base_dir pattern n) eqn:Hc.
  - destruct (entry_of w base_dir n) as [v|e'] eqn:He; simpl.
    + intros (before & k & after & -> & ? & ? & Hok)%IH.
      exists (n :: before), k, after. split_and!; try done.
      intros k' [->|Hk']%elem_of_cons Hc'; [by rewrite He|by apply Hok].
    + intros [= <-]. exists [], n, rest. split_and!; try done.
      by intros k' ?%elem_of_nil.
  - intros (before & k & after & -> & ? & ? & Hok)%IH.
    exists (n :: before), k, after. split_and!; try done.
    intros k' [->|Hk']%elem_of_cons Hc'; [congruence|by apply Hok].
Qed.

(** X2. When the loop raises, the exception is that of the first pack, in
    code-point order of the names, that cannot be read: every listed pack
    that fails has a name at or after it. *)
Theorem first_failing_pack_reported (w : world) (base_dir pattern : string)
    (names : list string) (e : exn) :
  listdir w base_dir = Ok names →
  build_manifest w base_dir pattern = Raise e →
  ∃ k, k ∈ names
       ∧ candidate w base_dir pattern k = true
       ∧ entry_of w base_dir k = Raise e
       ∧ ∀ k', k' ∈ names → candidate w base_dir pattern k' = true →
               is_ok (entry_of w base_dir k') = false → String.le k k'.
Proof.
  intros Hls. unfold build_manifest. rewrite Hls. cbn.
  intros (before & k & after & Hsplit & Hc & He & Hok)%scan_first_error.
  pose proof (sorted_StronglySorted names) as Hs. rewrite Hsplit in Hs.
  exists k. split_and!; try done.
  - apply elem_of_sorted. rewrite Hsplit. set_solver.
  - intros k' Hk' Hc' Hfail. apply elem_of_sorted in Hk'. rewrite Hsplit in Hk'.
    apply elem_of_app in Hk' as [Hk'|Hk'].
    + rewrite (Hok k' Hk' Hc') in Hfail. done.
    + apply StronglySorted_app_1_r, StronglySorted_inv in Hs as [_ Hs].
      apply elem_of_cons in Hk' as [->|Hk']; [done|].
      rewrite Forall_forall in Hs. by apply Hs.
Qed.

Lemma first_failing_pack_reported_witness :
  listdir (faulty_world Denied) "/srv/packs" = Ok ["z.pck"; "a.pck"]
  ∧ build_manifest (faulty_world Denied) "/srv/packs" "pck"
    = Raise (OSError "/srv/packs/z.pck")
  ∧ ∃ k, k ∈ ["z.pck"; "a.pck"]
         ∧ candidate (faulty_world Denied) "/srv/packs" "pck" k = true
         ∧ entry_of (faulty_world Denied) "/srv/packs" k
           = Raise (OSError "/srv/packs/z.pck")
         ∧ ∀ k', k' ∈ ["z.pck"; "a.pck"] →
                 candidate (faulty_world Denied) "/srv/packs" "pck" k' = true →
                 is_ok (entry_of (faulty_world Denied) "/srv/packs" k') = false →
                 String.le k k'.
Proof.
  assert (Hb : build_manifest (faulty_world Denied) "/srv/packs" "pck"
               = Raise (OSError "/srv/packs/z.pck")) by (vm_compute; reflexivity).
  exact (conj eq_refl (conj Hb
    (first_failing_pack_reported (faulty_world Denied) "/srv/packs" "pck"
       ["z.pck"; "a.pck"] (OSError "/srv/packs/z.pck") eq_refl Hb))).
Defined.

(** ** Outcomes of [main] *)


Lemma dict_set_length_new {V} (d : list (string * V)) k v :
  k ∉ dict_keys d → List.length (dict_set d k v) = S (List.length d).
Proof.
  intros Hk. rewrite <- (length_map fst (dict_set d k v)), <- (length_map fst d).
  change (List.map fst (dict_set d k v)) with (dict_keys (dict_set d k v)).
  change (List.map fst d) with (dict_keys d).
  rewrite dict_keys_set_new by done. rewrite length_app. simpl. lia.
Qed.

Lemma scan_length w base_dir pattern names manifest m :
  NoDup names →
  (∀ k, k ∈ names → k ∉ dict_keys manifest) →
  scan w base_dir pattern names manifest = Ok m →
  List.length m
  = (List.length manifest + List.length (packs w base_dir pattern names))%nat.
Proof.
  unfold packs. revert manifest.
  induction names as [|n rest IH]; intros manifest Hnd Hfresh.
  - intros [= <-]. rewrite filter_nil. simpl. lia.
  - apply NoDup_cons in Hnd as [Hn Hnd]. rewrite scan_cons, filter_cons.
    destruct (candidate w base_dir pattern n) eqn:Hc.
    + rewrite decide_True by done.
      destruct (entry_of w base_dir n) as [v|]; simpl; [|done].
      intros Hs. apply IH in Hs; [|done|].
      * rewrite Hs, dict_set_length_new; [lia|]. apply Hfresh, elem_of_cons. by left.
      * intros k Hk [->|Hin]%dict_keys_set; [done|].
        by apply (Hfresh k); [apply elem_of_cons; right|].
    + rewrite decide_False by congruence. apply IH; [done|].
      intros k Hk. apply Hfresh, elem_of_cons. by right.
Qed.

(** X4. The number in the success message is the number of packs: of the
    listed names, each listed once, that end with the suffix and are
    regular files. *)
Theorem success_message_counts_packs (args : Args) (w : world) (names : list string) :
  listdir w (abspath w (arg_dir args)) = Ok names →
  NoDup names →
  r_status (main args w) = Exit 0 →
  r_stdout (main args w)
  = ["[OK] Wrote " +:+ out_path_of args (abspath w (arg_dir args)) +:+ " with "
     +:+ PyStr.of_N (N.of_nat (List.length
           (packs w (abspath w (arg_dir args)) (arg_pattern args) names)))
     +:+ " entries."].
Proof.
  intros Hls Hnd. unfold main.
  destruct (isdir w (abspath w (arg_dir args))); [|done]. cbn.
  destruct (build_manifest w (abspath w (arg_dir args)) (arg_pattern args)) as [m|e] eqn:Hb;
    [|done].
  destruct (open_w w (out_path_of args (abspath w (arg_dir args)))) as [[]|e]; [|done].
  intros _. cbn. unfold build_manifest in Hb. rewrite Hls in Hb. cbn in Hb.
  apply scan_length in Hb.
  - rewrite Hb. cbn [List.length Nat.add]. do 5 f_equal. unfold packs, sorted.
    by rewrite merge_sort_Permutation.
  - unfold sorted. by rewrite merge_sort_Permutation.
  - by intros k _ ?%elem_of_nil.
Qed.

Lemma success_message_counts_packs_witness :
  listdir sample_world (abspath sample_world (arg_dir (MkArgs "/srv/packs" None "pck" true)))
    = Ok ["notapck"; "b.txt"; "sub.pck"; "foo.PCK"; "a.pck"]
  ∧ NoDup ["notapck"; "b.txt"; "sub.pck"; "foo.PCK"; "a.pck"]
  ∧ r_status (main (MkArgs "/srv/packs" None "pck" true) sample_world) = Exit 0
  ∧ r_stdout (main (MkArgs "/srv/packs" None "pck" true) sample_world)
    = ["[OK] Wrote "
       +:+ out_path_of (MkArgs "/srv/packs" None "pck" true)
             (abspath sample_world (arg_dir (MkArgs "/srv/packs" None "pck" true)))
       +:+ " with "
       +:+ PyStr.of_N (N.of_nat (List.length
             (packs sample_world
                (abspath sample_world (arg_dir (MkArgs "/srv/packs" None "pck" true)))
                (arg_pattern (MkArgs "/srv/packs" None "pck" true))
                ["notapck"; "b.txt"; "sub.pck"; "foo.PCK"; "a.pck"])))
       +:+ " entries."].
Proof.
  assert (Hnd : NoDup ["notapck"; "b.txt"; "sub.pck"; "foo.PCK"; "a.pck"])
    by (apply (bool_decide_unpack _); vm_compute; exact I).
  assert (H0 : r_status (main (MkArgs "/srv/packs" None "pck" true) sample_world) = Exit 0)
    by (vm_compute; reflexivity).
  exact (conj eq_refl (conj Hnd (conj H0
    (success_message_counts_packs (MkArgs "/srv/packs" None "pck" true) sample_world
       ["notapck"; "b.txt"; "sub.pck"; "foo.PCK"; "a.pck"] eq_refl Hnd H0)))).
Defined.

Lemma scan_no_packs w base_dir pattern names manifest :
  (∀ k, k ∈ names → candidate w base_dir pattern k = false) →
  scan w base_dir pattern names manifest = Ok manifest.
Proof.
  induction names as [|n rest IH]; intros Hno; [done|].
  rewrite scan_cons, Hno by (apply elem_of_cons; by left).
  apply IH. intros k Hk. apply Hno, elem_of_cons. by right.
Qed.

(** X5. When no listed name is a pack (the directory is empty, or holds
    only other files and subdirectories), the run completes and writes the
    three characters of the empty object and the line feed, with or
    without [--pretty], and reports 0 entries. *)
Theorem no_packs_empty_object (args : Args) (w : world) (names : list string) :
  listdir w (abspath w (arg_dir args)) = Ok names →
  (∀ k, k ∈ names → candidate w (abspath w (arg_dir args)) (arg_pattern args) k = false) →
  open_w w (out_path_of args (abspath w (arg_dir args))) = Ok tt →
  main args w
  = Run (Exit 0)
      ["[OK] Wrote " +:+ out_path_of args (abspath w (arg_dir args))
       +:+ " with 0 entries."] []
      [(out_path_of args (abspath w (arg_dir args)), "{}" +:+ PyJson.LF)].
Proof.
  intros Hls Hno Hw. unfold main.
  assert (Hdir : isdir w (abspath w (arg_dir args)) = true).
  { unfold isdir. unfold listdir in Hls.
    by destruct (fs w !! abspath w (arg_dir args)) as [[| |]|]. }
  rewrite Hdir. cbn. unfold build_manifest. rewrite Hls. cbn.
  rewrite scan_no_packs, Hw.
  - by destruct (arg_pretty args).
  - intros k Hk. apply Hno. by apply elem_of_sorted.
Qed.

Lemma no_packs_empty_object_witness :
  listdir empty_world (abspath empty_world (arg_dir (MkArgs "/srv/empty" None ".pck" true)))
    = Ok ["notes.txt"; "old.pck"]
  ∧ (∀ k, k ∈ ["notes.txt"; "old.pck"] →
       candidate empty_world
         (abspath empty_world (arg_dir (MkArgs "/srv/empty" None ".pck" true)))
         (arg_pattern (MkArgs "/srv/empty" None ".pck" true)) k = false)
  ∧ open_w empty_world
      (out_path_of (MkArgs "/srv/empty" None ".pck" true)
         (abspath empty_world (arg_dir (MkArgs "/srv/empty" None ".pck" true)))) = Ok tt
  ∧ main (MkArgs "/srv/empty" None ".pck" true) empty_world
    = Run (Exit 0)
        ["[OK] Wrote "
         +:+ out_path_of (MkArgs "/srv/empty" None ".pck" true)
               (abspath empty_world (arg_dir (MkArgs "/srv/empty" None ".pck" true)))
         +:+ " with 0 entries."] []
        [(out_path_of (MkArgs "/srv/empty" None ".pck" true)
            (abspath empty_world (arg_dir (MkArgs "/srv/empty" None ".pck" true))),
          "{}" +:+ PyJson.LF)].
Proof.
  assert (Hno : ∀ k, k ∈ ["notes.txt"; "old.pck"] →
    candidate empty_world
      (abspath empty_world (arg_dir (MkArgs "/srv/empty" None ".pck" true)))
      (arg_pattern (MkArgs "/srv/empty" None ".pck" true)) k = false).
  { intros k Hk. repeat (apply elem_of_cons in Hk as [->|Hk]; [vm_compute; reflexivity|]).
    by apply elem_of_nil in Hk. }
  exact (conj eq_refl (conj Hno (conj eq_refl
    (no_packs_empty_object (MkArgs "/srv/empty" None ".pck" true) empty_world
       ["notes.txt"; "old.pck"] eq_refl Hno eq_refl)))).
Defined.

(** X6. Each run rebuilds the manifest from the directory alone.  What a
    regular file already at the output path holds (an older manifest,
    say) has no influence on the run, as long as that file is not itself
    one of the names with the suffix. *)
Theorem previous_manifest_ignored (args : Args) (w : world) (names : list string)
    (mtime mtime' : Q) (content content' : list byte) (flt flt' : fault) :
  listdir w (abspath w (arg_dir args)) = Ok names →
  fs w !! out_path_of args (abspath w (arg_dir args)) = Some (Reg mtime content flt) →
  (∀ k, k ∈ names → PyStr.endswith k (arg_pattern args) = true →
        path_join (abspath w (arg_dir args)) k
        ≠ out_path_of args (abspath w (arg_dir args))) →
  main args (with_node w (out_path_of args (abspath w (arg_dir args)))
               (Reg mtime' content' flt'))
  = main args w.
Proof.
  intros Hls Hout Hne.
  set (base := abspath w (arg_dir args)) in *.
  set (out := out_path_of args base) in *.
  set (w' := with_node w out (Reg mtime' content' flt')).
  assert (Hbase : base ≠ out).
  { intros Heq. unfold listdir in Hls. rewrite Heq, Hout in Hls. done. }
  assert (Hls' : listdir w' base = Ok names).
  { unfold listdir, w', with_node. cbn. rewrite lookup_insert_ne by done. exact Hls. }
  assert (Hb : build_manifest w' base (arg_pattern args)
               = build_manifest w base (arg_pattern args)).
  { apply build_manifest_same_packs. exists names, names. split_and!; try done.
    intros k [Hsuf Hk]%list_elem_of_filter. unfold w', with_node. cbn.
    rewrite lookup_insert_ne; [done|]. intros Heq. by apply (Hne k). }
  unfold main. change (abspath w' (arg_dir args)) with base. fold base. fold out.
  assert (Hd : isdir w' base = isdir w base).
  { unfold isdir, w', with_node. cbn. by rewrite lookup_insert_ne. }
  rewrite Hd, Hb.
  assert (Ho : open_w w' out = open_w w out).
  { unfold open_w, w', with_node. cbn. by rewrite lookup_insert_eq, Hout. }
  by rewrite Ho.
Qed.

Lemma previous_manifest_ignored_witness :
  listdir (faulty_world NoFault)
      (abspath (faulty_world NoFault) (arg_dir (MkArgs "/srv/packs" None ".pck" true)))
    = Ok ["z.pck"; "a.pck"]
  ∧ fs (faulty_world NoFault)
      !! out_path_of (MkArgs "/srv/packs" None ".pck" true)
           (abspath (faulty_world NoFault) (arg_dir (MkArgs "/srv/packs" None ".pck" true)))
    = Some (Reg 0 (bytes_of "{}") NoFault)
  ∧ (∀ k, k ∈ ["z.pck"; "a.pck"] →
       PyStr.endswith k (arg_pattern (MkArgs "/srv/packs" None ".pck" true)) = true →
       path_join (abspath (faulty_world NoFault)
                    (arg_dir (MkArgs "/srv/packs" None ".pck" true))) k
       ≠ out_path_of (MkArgs "/srv/packs" None ".pck" true)
           (abspath (faulty_world NoFault)
              (arg_dir (MkArgs "/srv/packs" None ".pck" true))))
  ∧ main (MkArgs "/srv/packs" None ".pck" true)
      (with_node (faulty_world NoFault)
         (out_path_of (MkArgs "/srv/packs" None ".pck" true)
            (abspath (faulty_world NoFault)
               (arg_dir (MkArgs "/srv/packs" None ".pck" true))))
         (Reg 1 (bytes_of "stale") Denied))
    = main (MkArgs "/srv/packs" None ".pck" true) (faulty_world NoFault).
Proof.
  assert (Hfs : fs (faulty_world NoFault)
      !! out_path_of (MkArgs "/srv/packs" None ".pck" true)
           (abspath (faulty_world NoFault) (arg_dir (MkArgs "/srv/packs" None ".pck" true)))
    = Some (Reg 0 (bytes_of "{}") NoFault)) by (vm_compute; reflexivity).
  assert (Hne : ∀ k, k ∈ ["z.pck"; "a.pck"] →
       PyStr.endswith k (arg_pattern (MkArgs "/srv/packs" None ".pck" true)) = true →
       path_join (abspath (faulty_world NoFault)
                    (arg_dir (MkArgs "/srv/packs" None ".pck" true))) k
       ≠ out_path_of (MkArgs "/srv/packs" None ".pck" true)
           (abspath (faulty_world NoFault)
              (arg_dir (MkArgs "/srv/packs" None ".pck" true)))).
  { intros k Hk _.
    repeat (apply elem_of_cons in Hk as [->|Hk]; [vm_compute; discriminate|]).
    by apply elem_of_nil in Hk. }
  exact (conj eq_refl (conj Hfs (conj Hne
    (previous_manifest_ignored (MkArgs "/srv/packs" None ".pck" true) (faulty_world NoFault)
       ["z.pck"; "a.pck"] 0 1 (bytes_of "{}") (bytes_of "stale") NoFault Denied
       eq_refl Hfs Hne)))).
Defined.

(** ** The entries *)

(** X7. Every value of the manifest is a dict with exactly the four keys
    [version], [size], [mtime], [sha256], in this order: the digest twice,
    the byte count, and [iso8601_utc] of the modification time that
    [os.stat] reported for the file of that name. *)
Theorem manifest_entry_shape (w : world) (base_dir pattern : string)
    (m : list (string * json)) (name : string) (e : json) :
  build_manifest w base_dir pattern = Ok m →
  dict_get m name = Some e →
  ∃ mtime content flt ts,
    fs w !! path_join base_dir name = Some (Reg mtime content flt)
    ∧ iso8601_utc mtime = Ok ts
    ∧ iso_pattern ts = true
    ∧ e = JObj [("version", JStr (SHA256.hexdigest content));
                ("size", JInt (Z.of_nat (List.length content)));
                ("mtime", JStr ts);
                ("sha256", JStr (SHA256.hexdigest content))].
Proof.
  intros Hb Hg. destruct (build_manifest_get _ _ _ _ _ _ Hb Hg) as [_ He].
  apply entry_of_Ok in He as (mtime & content & flt & ts & Hfs & Hts & ->).
  exists mtime, content, flt, ts. split_and!; try done.
  - by eapply iso8601_utc_pattern.
  - unfold entry. by rewrite nat_N_Z.
Qed.

Lemma manifest_entry_shape_witness :
  build_manifest sample_world "/srv/packs" ".pck" = Ok sample_manifest
  ∧ dict_get sample_manifest "a.pck"
    = Some (entry "9f86d081884c7d659a2feaa0c55ad015a3bf4f1b2b0b822cd15d6c15b0f00a08"
              4 "2025-11-10T08:33:12Z")
  ∧ ∃ mtime content flt ts,
      fs sample_world !! path_join "/srv/packs" "a.pck" = Some (Reg mtime content flt)
      ∧ iso8601_utc mtime = Ok ts
      ∧ iso_pattern ts = true
      ∧ entry "9f86d081884c7d659a2feaa0c55ad015a3bf4f1b2b0b822cd15d6c15b0f00a08"
          4 "2025-11-10T08:33:12Z"
        = JObj [("version", JStr (SHA256.hexdigest content));
                ("size", JInt (Z.of_nat (List.length content)));
                ("mtime", JStr ts);
                ("sha256", JStr (SHA256.hexdigest content))].
Proof.
  assert (Hb : build_manifest sample_world "/srv/packs" ".pck" = Ok sample_manifest)
    by (vm_compute; reflexivity).
  exact (conj Hb (conj eq_refl
    (manifest_entry_shape sample_world "/srv/packs" ".pck" sample_manifest "a.pck" _
       Hb eq_refl))).
Defined.

(** ** The written text is ASCII *)

Lemma forall_chars_app (p : ascii → bool) (s t : string) :
  forall_chars p (s +:+ t) = forall_chars p s && forall_chars p t.
Proof.
  induction s as [|c s IH]; [done|].
  rewrite str_app_cons. cbn [forall_chars]. by rewrite IH, andb_assoc.
Qed.

Lemma escape_char_printable (c : ascii) :
  forall_chars is_printable (PyJson.escape_char c) = true.
Proof.
  destruct c as [b0 b1 b2 b3 b4 b5 b6 b7].
  destruct b0, b1, b2, b3, b4, b5, b6, b7; vm_compute; reflexivity.
Qed.

Lemma quoted_printable (s : string) : forall_chars is_printable (quoted s) = true.
Proof.
  unfold quoted, PyJson.encode_basestring_ascii. rewrite !forall_chars_app.
  assert (forall_chars is_printable (PyJson.escape s) = true) as ->; [|done].
  induction s as [|c s IH]; [done|].
  cbn [PyJson.escape]. by rewrite forall_chars_app, escape_char_printable, IH.
Qed.

Lemma of_N_printable (n : N) : forall_chars is_printable (PyStr.of_N n) = true.
Proof.
  unfold PyStr.of_N. generalize (N.to_uint n). intros d.
  induction d; cbn [NilEmpty.string_of_uint forall_chars]; try done; by rewrite IHd.
Qed.

Create Rewrite HintDb ascii_text.
#[local] Hint Rewrite forall_chars_app quoted_printable of_N_printable : ascii_text.

Lemma default_layout_printable (rows : list row) :
  forall_chars is_printable (default_layout rows) = true.
Proof.
  assert (Hentry : ∀ r, forall_chars is_printable (default_entry r) = true).
  { intros r. unfold default_entry. by autorewrite with ascii_text. }
  assert (Hrest : ∀ l,
    forall_chars is_printable (prefix_each ", " (List.map default_entry l)) = true).
  { induction l as [|r l IH]; [done|].
    cbn [List.map prefix_each]. autorewrite with ascii_text. by rewrite Hentry, IH. }
  destruct rows as [|r rows]; [done|].
  unfold default_layout. cbn [List.map join_with]. autorewrite with ascii_text.
  by rewrite Hentry, Hrest.
Qed.

Lemma printable_or_lf (s : string) :
  forall_chars is_printable s = true → forall_chars is_printable_or_lf s = true.
Proof.
  induction s as [|c s IH]; [done|]. cbn [forall_chars].
  intros [Hc Hs]%andb_true_iff. rewrite IH by done.
  unfold is_printable_or_lf. by rewrite Hc.
Qed.

Lemma pretty_layout_ascii (rows : list row) :
  forall_chars is_printable_or_lf (pretty_layout rows) = true.
Proof.
  assert (Hq : ∀ s, forall_chars is_printable_or_lf (quoted s) = true)
    by (intros s; apply printable_or_lf, quoted_printable).
  assert (Hn : ∀ n, forall_chars is_printable_or_lf (PyStr.of_N n) = true)
    by (intros n; apply printable_or_lf, of_N_printable).
  assert (Hentry : ∀ r, forall_chars is_printable_or_lf (pretty_entry r) = true).
  { intros r. unfold pretty_entry. rewrite !forall_chars_app, !Hq, !Hn. done. }
  assert (Hrest : ∀ l,
    forall_chars is_printable_or_lf
      (prefix_each ("," +:+ PyJson.LF) (List.map pretty_entry l)) = true).
  { induction l as [|r l IH]; [done|].
    cbn [List.map prefix_each]. rewrite !forall_chars_app, Hentry, IH. done. }
  destruct rows as [|r rows]; [done|].
  unfold pretty_layout. cbn [List.map join_with].
  rewrite !forall_chars_app, Hentry, Hrest. done.
Qed.



(** ** The years that [iso8601_utc] accepts *)

Lemma ord2ymd_year_range (ordinal : Z) :
  (1 ≤ (PyTime.ord2ymd ordinal).1.1 ≤ 9999 ↔ 1 ≤ ordinal ≤ 3652059)%Z.
Proof.
  unfold PyTime.ord2ymd.
  pose proof (Z.div_mod (ordinal - 1) 146097 ltac:(lia)) as E400.
  pose proof (Z.mod_pos_bound (ordinal - 1) 146097 ltac:(lia)) as B400.
  revert E400 B400.
  generalize ((ordinal - 1) / 146097)%Z ((ordinal - 1) mod 146097)%Z. intros q a E400 B400.
  pose proof (Z.div_mod a 36524 ltac:(lia)) as E100.
  pose proof (Z.mod_pos_bound a 36524 ltac:(lia)) as B100.
  revert E100 B100. generalize (a / 36524)%Z (a mod 36524)%Z. intros n100 b E100 B100.
  pose proof (Z.div_mod b 1461 ltac:(lia)) as E4.
  pose proof (Z.mod_pos_bound b 1461 ltac:(lia)) as B4.
  revert E4 B4. generalize (b / 1461)%Z (b mod 1461)%Z. intros n4 c E4 B4.
  pose proof (Z.div_mod c 365 ltac:(lia)) as E1.
  pose proof (Z.mod_pos_bound c 365 ltac:(lia)) as B1.
  revert E1 B1. generalize (c / 365)%Z (c mod 365)%Z. intros n1 n E1 B1.
  destruct (Z.eqb_spec n1 4) as [H1|H1]; destruct (Z.eqb_spec n100 4) as [H100|H100];
    cbn [orb fst snd]; try lia.
  match goal with |- context [if ?c then _ else _] => destruct c end; cbn [fst snd]; lia.
Qed.

Lemma of_epoch_seconds_outcome (t us : Z) :
  ((-62135596800 ≤ t ≤ 253402300799)%Z →
   ∃ dt, PyTime.of_epoch_seconds t us = Ok dt)
  ∧ (¬ (-62135596800 ≤ t ≤ 253402300799)%Z →
     PyTime.of_epoch_seconds t us = Raise (ValueError "year is out of range")).
Proof.
  unfold PyTime.of_epoch_seconds.
  pose proof (ord2ymd_year_range (t / 86400 + 719163)) as Hy.
  destruct (PyTime.ord2ymd (t / 86400 + 719163)) as [[y m] d]. cbn [fst snd] in Hy.
  pose proof (Z.div_mod t 86400 ltac:(lia)) as Ht.
  pose proof (Z.mod_pos_bound t 86400 ltac:(lia)) as Hr.
  destruct (Z.leb_spec 1 y); destruct (Z.leb_spec y 9999); cbn [andb];
    (split; [intros ?; try (eexists; reflexivity); lia|intros ?; try reflexivity; lia]).
Qed.

(** The outcome of [iso8601_utc], by the second it shows. *)
Lemma iso8601_utc_by_year (ts : Q) :
  match iso8601_utc ts with
  | Ok _ => year_in_range ts = true
  | Raise e => year_in_range ts = false ∧ e = ValueError "year is out of range"
  end.
Proof.
  unfold iso8601_utc, year_in_range. destruct (fromtimestamp_utc_second ts) as [us ->].
  destruct (of_epoch_seconds_outcome (shown_second ts) us) as [Hin Hout].
  destruct (Z.leb_spec (-62135596800) (shown_second ts));
    destruct (Z.leb_spec (shown_second ts) 253402300799); cbn [andb].
  - destruct Hin as [dt ->]; [lia|]. done.
  - rewrite Hout by lia. done.
  - rewrite Hout by lia. done.
  - rewrite Hout by lia. done.
Qed.


Example iso8601_utc_first_and_last :
  iso8601_utc (inject_Z (-62135596800)) = Ok "0001-01-01T00:00:00Z"
  ∧ iso8601_utc (inject_Z 253402300799) = Ok "9999-12-31T23:59:59Z"
  ∧ iso8601_utc (inject_Z 253402300800) = Raise (ValueError "year is out of range")
  ∧ iso8601_utc (inject_Z (-62135596801)) = Raise (ValueError "year is out of range").
Proof. vm_compute. done. Qed.



Example odd_pack_value_error :
  main (MkArgs "/srv/odd" None ".pck" false) odd_world
  = Run (Uncaught (ValueError "year is out of range")) [] [] [].
Proof. vm_compute. reflexivity. Qed.

(** ** Reading the timestamp back *)

Example parse_iso8601_ex :
  parse_iso8601 "2025-11-10T08:33:12Z" = 1762763592%Z
  ∧ parse_iso8601 "1970-01-01T00:00:00Z" = 0%Z
  ∧ parse_iso8601 "1969-12-31T23:59:58Z" = (-2)%Z
  ∧ parse_iso8601 "2024-02-29T23:59:59Z" = 1709251199%Z.
Proof. vm_compute. done. Qed.

Section ymd2ord.
Local Open Scope Z_scope.

Lemma days_before_year_split (q n100 n4 n1 : Z) :
  0 ≤ n100 ≤ 3 → 0 ≤ n4 ≤ 24 → 0 ≤ n1 ≤ 3 →
  PyDate.days_before_year (q * 400 + 1 + n100 * 100 + n4 * 4 + n1)
  = 146097 * q + 36524 * n100 + 1461 * n4 + 365 * n1.
Proof.
  intros H100 H4 H1. unfold PyDate.days_before_year.
  replace (q * 400 + 1 + n100 * 100 + n4 * 4 + n1 - 1)
    with (q * 400 + n100 * 100 + n4 * 4 + n1) by lia.
  assert ((q * 400 + n100 * 100 + n4 * 4 + n1) / 4 = q * 100 + n100 * 25 + n4) as ->.
  { symmetry. apply (Z.div_unique _ _ _ n1); lia. }
  assert ((q * 400 + n100 * 100 + n4 * 4 + n1) / 100 = q * 4 + n100) as ->.
  { symmetry. apply (Z.div_unique _ _ _ (n4 * 4 + n1)); lia. }
  assert ((q * 400 + n100 * 100 + n4 * 4 + n1) / 400 = q) as ->.
  { symmetry. apply (Z.div_unique _ _ _ (n100 * 100 + n4 * 4 + n1)); lia. }
  lia.
Qed.

Lemma is_leap_split (q n100 n4 n1 : Z) :
  0 ≤ n100 ≤ 3 → 0 ≤ n4 ≤ 24 → 0 ≤ n1 ≤ 3 →
  PyDate.is_leap (q * 400 + 1 + n100 * 100 + n4 * 4 + n1)
  = (n1 =? 3) && (negb (n4 =? 24) || (n100 =? 3)).
Proof.
  intros H100 H4 H1. unfold PyDate.is_leap.
  set (y := q * 400 + 1 + n100 * 100 + n4 * 4 + n1).
  assert (y mod 4 = (n1 + 1) mod 4) as ->.
  { unfold y. replace (q * 400 + 1 + n100 * 100 + n4 * 4 + n1)
      with (n1 + 1 + (q * 100 + n100 * 25 + n4) * 4) by lia. apply Z.mod_add. lia. }
  assert (y mod 100 = (n4 * 4 + n1 + 1) mod 100) as ->.
  { unfold y. replace (q * 400 + 1 + n100 * 100 + n4 * 4 + n1)
      with (n4 * 4 + n1 + 1 + (q * 4 + n100) * 100) by lia. apply Z.mod_add. lia. }
  assert (y mod 400 = (n100 * 100 + n4 * 4 + n1 + 1) mod 400) as ->.
  { unfold y. replace (q * 400 + 1 + n100 * 100 + n4 * 4 + n1)
      with (n100 * 100 + n4 * 4 + n1 + 1 + q * 400) by lia. apply Z.mod_add. lia. }
  clear y.
  destruct (Z.eqb_spec n1 3) as [->|Hn1].
  - change ((3 + 1) mod 4) with 0. cbn [Z.eqb andb].
    destruct (Z.eqb_spec n4 24) as [->|Hn4].
    + change ((24 * 4 + 3 + 1) mod 100) with 0. cbn [Z.eqb negb orb].
      destruct (Z.eqb_spec n100 3) as [->|Hn100]; [reflexivity|].
      rewrite (Z.mod_small (n100 * 100 + 24 * 4 + 3 + 1)) by lia.
      destruct (Z.eqb_spec (n100 * 100 + 24 * 4 + 3 + 1) 0); [lia|reflexivity].
    + rewrite (Z.mod_small (n4 * 4 + 3 + 1)) by lia.
      destruct (Z.eqb_spec (n4 * 4 + 3 + 1) 0); [lia|reflexivity].
  - rewrite (Z.mod_small (n1 + 1)) by lia.
    destruct (Z.eqb_spec (n1 + 1) 0); [lia|reflexivity].
Qed.

(** [_ymd2ord] undoes [_ord2ymd]. *)
Lemma ymd2ord_ord2ymd (ordinal : Z) :
  PyDate.ymd2ord (PyTime.ord2ymd ordinal).1.1 (PyTime.ord2ymd ordinal).1.2
    (PyTime.ord2ymd ordinal).2 = ordinal.
Proof.
  unfold PyTime.ord2ymd, PyDate.ymd2ord, PyDate.days_before_month.
  pose proof (Z.div_mod (ordinal - 1) 146097 ltac:(lia)) as E400.
  pose proof (Z.mod_pos_bound (ordinal - 1) 146097 ltac:(lia)) as B400.
  revert E400 B400.
  generalize ((ordinal - 1) / 146097) ((ordinal - 1) mod 146097). intros q a E400 B400.
  pose proof (Z.div_mod a 36524 ltac:(lia)) as E100.
  pose proof (Z.mod_pos_bound a 36524 ltac:(lia)) as B100.
  revert E100 B100. generalize (a / 36524) (a mod 36524). intros n100 b E100 B100.
  pose proof (Z.div_mod b 1461 ltac:(lia)) as E4.
  pose proof (Z.mod_pos_bound b 1461 ltac:(lia)) as B4.
  revert E4 B4. generalize (b / 1461) (b mod 1461). intros n4 c E4 B4.
  pose proof (Z.div_mod c 365 ltac:(lia)) as E1.
  pose proof (Z.mod_pos_bound c 365 ltac:(lia)) as B1.
  revert E1 B1. generalize (c / 365) (c mod 365). intros n1 n E1 B1.
  assert (R100 : 0 ≤ n100 ≤ 4) by lia.
  assert (R4 : 0 ≤ n4 ≤ 24) by lia.
  assert (R1 : 0 ≤ n1 ≤ 4) by lia.
  destruct (Z.eqb_spec n1 4) as [H1|H1].
  { (* the last day of a leap year, every fourth year *)
    cbn [orb fst snd]. subst n1.
    replace (q * 400 + 1 + n100 * 100 + n4 * 4 + 4 - 1)
      with (q * 400 + 1 + n100 * 100 + n4 * 4 + 3) by lia.
    rewrite days_before_year_split, is_leap_split by lia.
    assert (n4 ≠ 24) by lia.
    destruct (Z.eqb_spec n4 24); [done|]. cbn. lia. }
  destruct (Z.eqb_spec n100 4) as [H100|H100].
  { (* the last day of a 400-year cycle *)
    cbn [orb fst snd]. subst n100.
    assert (n4 = 0 ∧ n1 = 0 ∧ n = 0) as (-> & -> & ->) by lia.
    replace (q * 400 + 1 + 4 * 100 + 0 * 4 + 0 - 1)
      with (q * 400 + 1 + 3 * 100 + 24 * 4 + 3) by lia.
    rewrite days_before_year_split, is_leap_split by lia. cbn. lia. }
  cbn [orb fst snd].
  assert (Hd : PyDate.days_before_year (q * 400 + 1 + n100 * 100 + n4 * 4 + n1)
               = ordinal - 1 - n).
  { rewrite days_before_year_split by lia. lia. }
  assert (Hl : PyDate.is_leap (q * 400 + 1 + n100 * 100 + n4 * 4 + n1)
               = (n1 =? 3) && (negb (n4 =? 24) || (n100 =? 3))).
  { apply is_leap_split; lia. }
  revert Hd Hl. generalize ((n1 =? 3) && (negb (n4 =? 24) || (n100 =? 3))).
  generalize (q * 400 + 1 + n100 * 100 + n4 * 4 + n1).
  intros y leap Hd Hl. clear - B1 Hd Hl.
  rewrite Z.shiftr_div_pow2 by lia. change (2 ^ 5) with 32.
  remember ((n + 50) / 32) as mo eqn:Hmo.
  assert (Hdiv : 32 * mo ≤ n + 50 < 32 * mo + 32).
  { subst mo. pose proof (Z.div_mod (n + 50) 32 ltac:(lia)).
    pose proof (Z.mod_pos_bound (n + 50) 32 ltac:(lia)). lia. }
  clear Hmo.
  assert (Hcases : mo = 1 ∨ mo = 2 ∨ mo = 3 ∨ mo = 4 ∨ mo = 5 ∨ mo = 6 ∨ mo = 7
                   ∨ mo = 8 ∨ mo = 9 ∨ mo = 10 ∨ mo = 11 ∨ mo = 12) by lia.
  destruct_or!; subst mo;
    match goal with
    | |- context [(n <? ?p)] => destruct (Z.ltb_spec n p) as [Hlt|Hlt]
    end;
    cbn [fst snd]; rewrite Hd, Hl; revert Hlt; destruct leap; calendar_eval;
    intros Hlt; lia.
Qed.

End ymd2ord.

Lemma number_of_fmt2 (n : N) :
  (n < 100)%N → number_of (PyStr.fmt_d 2 n) = Z.of_N n.
Proof.
  intros Hn. apply Z.eqb_eq. revert n Hn.
  apply (forall_below (fun n => (number_of (PyStr.fmt_d 2 n) =? Z.of_N n)%Z) 100).
  vm_compute. reflexivity.
Qed.

Lemma number_of_fmt4 (n : N) :
  (n < 10000)%N → number_of (PyStr.fmt_d 4 n) = Z.of_N n.
Proof.
  intros Hn. apply Z.eqb_eq. revert n Hn.
  apply (forall_below (fun n => (number_of (PyStr.fmt_d 4 n) =? Z.of_N n)%Z) (100 * 100)).
  vm_compute. reflexivity.
Qed.

(** The string that [iso8601_utc] builds from six fields in range, and the
    six numbers read back from it. *)
Lemma parse_rendered (Y M D h m s : string) :
  four_digits Y = true → two_digits M = true → two_digits D = true →
  two_digits h = true → two_digits m = true → two_digits s = true →
  parse_iso8601
    (PyStr.replace
       (Y +:+ "-" +:+ M +:+ "-" +:+ D +:+ "T" +:+ h +:+ ":" +:+ m +:+ ":" +:+ s
        +:+ EmptyString +:+ "+00:00") "+00:00" "Z")
  = ((PyDate.ymd2ord (number_of Y) (number_of M) (number_of D) - 719163) * 86400
     + number_of h * 3600 + number_of m * 60 + number_of s)%Z.
Proof.
  destruct Y as [|y1 [|y2 [|y3 [|y4 [|]]]]]; try done.
  destruct M as [|m1 [|m2 [|]]]; try done.
  destruct D as [|d1 [|d2 [|]]]; try done.
  destruct h as [|h1 [|h2 [|]]]; try done.
  destruct m as [|n1 [|n2 [|]]]; try done.
  destruct s as [|s1 [|s2 [|]]]; try done.
  cbn [four_digits two_digits].
  intros; repeat match goal with H : _ && _ = true |- _ => apply andb_true_iff in H as [??] end.
  unfold PyStr.replace.
  repeat (rewrite str_app_cons || rewrite str_app_nil_l).
  repeat (rewrite replace_offset_other by (done || by apply digit_not_plus)).
  reflexivity.
Qed.

(** X11. The string can be read back: parsed as year, month, day, hour,
    minute and second of the proleptic Gregorian calendar, it gives the
    second that [iso8601_utc] shows.  So two timestamps get the same string
    only if they show the same second. *)
Theorem iso8601_utc_read_back (ts : Q) (str : string) :
  iso8601_utc ts = Ok str → parse_iso8601 str = shown_second ts.
Proof.
  unfold iso8601_utc. destruct (fromtimestamp_utc_second ts) as [us ->].
  generalize (shown_second ts). intros t.
  destruct (PyTime.of_epoch_seconds t us) as [dt|] eqn:Hdt; [|done].
  pose proof (of_epoch_seconds_range _ _ _ Hdt) as (Hy & Hm & Hd & Hh & Hmi & Hs & _).
  cbn. intros [= <-]. unfold PyTime.isoformat, PyTime.replace_microsecond. cbn.
  rewrite parse_rendered
    by ((apply fmt_four_digits || apply fmt_two_digits); lia).
  rewrite number_of_fmt4, !number_of_fmt2 by lia. rewrite !Z2N.id by lia.
  clear Hy Hm Hd Hh Hmi Hs.
  unfold PyTime.of_epoch_seconds in Hdt.
  pose proof (ymd2ord_ord2ymd (t / 86400 + 719163)) as Hord.
  destruct (PyTime.ord2ymd (t / 86400 + 719163)) as [[y mo] d]. cbn [fst snd] in Hord.
  destruct ((1 <=? y)%Z && (y <=? 9999)%Z); [|done].
  injection Hdt as <-. cbn. rewrite Hord.
  pose proof (Z.div_mod t 86400 ltac:(lia)) as Ht.
  pose proof (Z.mod_pos_bound t 86400 ltac:(lia)) as Hr.
  revert Hord Ht Hr. generalize (t / 86400)%Z (t mod 86400)%Z. intros days r Hord Ht Hr.
  pose proof (Z.div_mod r 3600 ltac:(lia)).
  pose proof (Z.mod_pos_bound r 3600 ltac:(lia)).
  pose proof (Z.div_mod (r mod 3600) 60 ltac:(lia)).
  pose proof (Z.mod_pos_bound (r mod 3600) 60 ltac:(lia)).
  pose proof (Z.mod_pos_bound r 60 ltac:(lia)).
  assert ((r mod 3600) mod 60 = r mod 60)%Z as Hmm.
  { apply Z.mod_mod_divide. exists 60%Z. reflexivity. }
  lia.
Qed.

Lemma iso8601_utc_read_back_witness :
  iso8601_utc (7393566389174271 # 4194304) = Ok "2025-11-10T08:33:13Z"
  ∧ parse_iso8601 "2025-11-10T08:33:13Z" = shown_second (7393566389174271 # 4194304).
Proof.
  assert (H : iso8601_utc (7393566389174271 # 4194304) = Ok "2025-11-10T08:33:13Z")
    by (vm_compute; reflexivity).
  exact (conj H (iso8601_utc_read_back _ _ H)).
Defined.

(** ** The written text is a JSON text of the manifest *)

Lemma ws_space : ws " ".
Proof. done. Qed.

Lemma ws_indent (k : nat) : ws (PyJson.LF +:+ PyJson.spaces k).
Proof.
  unfold ws, PyJson.LF. rewrite str_app_cons, str_app_nil_l. cbn [forall_chars].
  induction k as [|k IH]; [done|]. exact IH.
Qed.

Lemma default_value_text (r : row) :
  json_text (entry (row_digest r) (row_size r) (row_mtime r)) (default_value r).
Proof.
  unfold entry, default_value.
  apply jt_obj; [apply ws_space|apply ws_empty|].
  apply mt_more; [apply ws_empty..| |].
  { apply jt_str; [apply ws_space|apply ws_empty]. }
  apply mt_more; [apply ws_space|apply ws_empty| |].
  { apply jt_int; [apply ws_space|apply ws_empty]. }
  apply mt_more; [apply ws_space|apply ws_empty| |].
  { apply jt_str; [apply ws_space|apply ws_empty]. }
  apply mt_last; [apply ws_space|apply ws_empty|].
  apply jt_str; [apply ws_space|apply ws_empty].
Qed.

Lemma default_entry_value (r : row) :
  default_entry r = quoted (row_name r) +:+ EmptyString +:+ ":" +:+ default_value r.
Proof.
  unfold default_entry, default_value. rewrite encode_size. by autorewrite with str.
Qed.

Lemma default_members (w1 : string) (r : row) (rows : list row) :
  ws w1 →
  members_text (row_name r) (entry (row_digest r) (row_size r) (row_mtime r))
    (manifest_of_rows rows)
    (w1 +:+ join_with ", " (List.map default_entry (r :: rows))).
Proof.
  revert w1 r. induction rows as [|r' rows IH]; intros w1 r Hw.
  - cbn [List.map join_with prefix_each manifest_of_rows].
    rewrite default_entry_value. autorewrite with str.
    replace (w1 +:+ quoted (row_name r) +:+ String ":" (default_value r))
      with (w1 +:+ quoted (row_name r) +:+ EmptyString +:+ ":" +:+ default_value r)
      by (by autorewrite with str).
    apply mt_last; [done|apply ws_empty|apply default_value_text].
  - specialize (IH " " r' ws_space).
    cbn [List.map join_with prefix_each manifest_of_rows] in *.
    rewrite (default_entry_value r).
    replace (w1 +:+ (quoted (row_name r) +:+ EmptyString +:+ ":" +:+ default_value r)
             +:+ ", " +:+ default_entry r'
             +:+ prefix_each ", " (List.map default_entry rows))
      with (w1 +:+ quoted (row_name r) +:+ EmptyString +:+ ":" +:+ default_value r +:+ ","
            +:+ (" " +:+ default_entry r' +:+ prefix_each ", " (List.map default_entry rows)))
      by (by autorewrite with str).
    apply mt_more; [done|apply ws_empty|apply default_value_text|apply IH].
Qed.

Lemma default_layout_text (rows : list row) :
  json_text (JObj (manifest_of_rows rows)) (default_layout rows).
Proof.
  destruct rows as [|r rows].
  - apply (jt_empty EmptyString EmptyString EmptyString); apply ws_empty.
  - unfold default_layout.
    replace ("{" +:+ join_with ", " (List.map default_entry (r :: rows)) +:+ "}")
      with (EmptyString +:+ "{"
            +:+ (EmptyString +:+ join_with ", " (List.map default_entry (r :: rows)))
            +:+ "}" +:+ EmptyString)
      by (by autorewrite with str).
    apply (jt_obj _ _ (manifest_of_rows rows)); [apply ws_empty..|].
    apply default_members, ws_empty.
Qed.

Lemma pretty_value_text (tail : string) (r : row) :
  ws tail →
  json_text (sorted_entry (row_digest r) (row_size r) (row_mtime r)) (pretty_value tail r).
Proof.
  intros Htail. unfold sorted_entry, pretty_value.
  apply jt_obj; [apply ws_space|done|].
  apply mt_more; [apply (ws_indent 4)|apply ws_empty| |].
  { apply jt_str; [apply ws_space|apply ws_empty]. }
  apply mt_more; [apply (ws_indent 4)|apply ws_empty| |].
  { apply jt_str; [apply ws_space|apply ws_empty]. }
  apply mt_more; [apply (ws_indent 4)|apply ws_empty| |].
  { apply jt_int; [apply ws_space|apply ws_empty]. }
  apply mt_last; [apply (ws_indent 4)|apply ws_empty|].
  apply jt_str; [apply ws_space|apply (ws_indent 2)].
Qed.

Lemma pretty_entry_value (tail : string) (r : row) :
  pretty_entry r +:+ tail
  = PyJson.spaces 2 +:+ quoted (row_name r) +:+ EmptyString +:+ ":" +:+ pretty_value tail r.
Proof.
  unfold pretty_entry, pretty_value, PyJson.LF. rewrite encode_size.
  cbn [PyJson.spaces]. by autorewrite with str.
Qed.

Lemma pretty_value_app (tail k : string) (r : row) :
  pretty_value tail r +:+ k = pretty_value (tail +:+ k) r.
Proof. unfold pretty_value. by rewrite !str_app_assoc. Qed.

Lemma pretty_members (r : row) (rows : list row) :
  members_text (row_name r) (sorted_entry (row_digest r) (row_size r) (row_mtime r))
    (sorted_manifest_of_rows rows)
    (PyJson.LF +:+ join_with ("," +:+ PyJson.LF) (List.map pretty_entry (r :: rows))
     +:+ PyJson.LF).
Proof.
  revert r. induction rows as [|r' rows IH]; intros r.
  - cbn [List.map join_with prefix_each sorted_manifest_of_rows].
    rewrite str_app_nil_r, pretty_entry_value.
    replace (PyJson.LF +:+ PyJson.spaces 2 +:+ quoted (row_name r) +:+ EmptyString +:+ ":"
             +:+ pretty_value PyJson.LF r)
      with ((PyJson.LF +:+ PyJson.spaces 2) +:+ quoted (row_name r) +:+ EmptyString +:+ ":"
            +:+ pretty_value PyJson.LF r)
      by (by rewrite str_app_assoc).
    apply mt_last; [apply (ws_indent 2)|apply ws_empty|].
    apply pretty_value_text. done.
  - specialize (IH r').
    cbn [List.map join_with prefix_each sorted_manifest_of_rows] in *.
    replace (PyJson.LF
             +:+ (pretty_entry r +:+ ("," +:+ PyJson.LF) +:+ pretty_entry r'
                  +:+ prefix_each ("," +:+ PyJson.LF) (List.map pretty_entry rows))
             +:+ PyJson.LF)
      with ((PyJson.LF +:+ PyJson.spaces 2) +:+ quoted (row_name r) +:+ EmptyString +:+ ":"
            +:+ pretty_value EmptyString r +:+ ","
            +:+ (PyJson.LF
                 +:+ (pretty_entry r'
                      +:+ prefix_each ("," +:+ PyJson.LF) (List.map pretty_entry rows))
                 +:+ PyJson.LF)).
    2: { rewrite (str_app_assoc PyJson.LF (PyJson.spaces 2)), pretty_value_app.
         rewrite <- pretty_entry_value. by autorewrite with str. }
    apply mt_more; [apply (ws_indent 2)|apply ws_empty| |apply IH].
    apply pretty_value_text, ws_empty.
Qed.

Lemma pretty_layout_text (rows : list row) :
  json_text (JObj (sorted_manifest_of_rows rows)) (pretty_layout rows).
Proof.
  destruct rows as [|r rows].
  - apply (jt_empty EmptyString EmptyString EmptyString); apply ws_empty.
  - unfold pretty_layout.
    replace ("{" +:+ PyJson.LF
             +:+ join_with ("," +:+ PyJson.LF) (List.map pretty_entry (r :: rows))
             +:+ PyJson.LF +:+ "}")
      with (EmptyString +:+ "{"
            +:+ (PyJson.LF
                 +:+ join_with ("," +:+ PyJson.LF) (List.map pretty_entry (r :: rows))
                 +:+ PyJson.LF)
            +:+ "}" +:+ EmptyString)
      by (by autorewrite with str).
    apply (jt_obj _ _ (sorted_manifest_of_rows rows)); [apply ws_empty..|].
    apply pretty_members.
Qed.

(** X12. What is written is a JSON text of the manifest, followed by the
    line feed: without [--pretty] of the manifest as built, with it of the
    same mapping with the four fields of every entry in key order. *)
Theorem written_text_is_json (w : world) (base_dir pattern : string)
    (m : list (string * json)) :
  build_manifest w base_dir pattern = Ok m →
  ∃ rows text_default text_pretty,
    m = manifest_of_rows rows
    ∧ serialize false m = text_default +:+ PyJson.LF
    ∧ json_text (JObj (manifest_of_rows rows)) text_default
    ∧ serialize true m = text_pretty +:+ PyJson.LF
    ∧ json_text (JObj (sorted_manifest_of_rows rows)) text_pretty.
Proof.
  intros (rows & -> & Hs & Hnd)%build_manifest_rows.
  exists rows, (default_layout rows), (pretty_layout rows). split_and!.
  - done.
  - apply serialize_default.
  - apply default_layout_text.
  - by apply serialize_pretty.
  - apply pretty_layout_text.
Qed.

Lemma written_text_is_json_witness :
  build_manifest sample_world "/srv/packs" ".pck" = Ok sample_manifest
  ∧ ∃ rows text_default text_pretty,
      sample_manifest = manifest_of_rows rows
      ∧ serialize false sample_manifest = text_default +:+ PyJson.LF
      ∧ json_text (JObj (manifest_of_rows rows)) text_default
      ∧ serialize true sample_manifest = text_pretty +:+ PyJson.LF
      ∧ json_text (JObj (sorted_manifest_of_rows rows)) text_pretty.
Proof.
  assert (Hb : build_manifest sample_world "/srv/packs" ".pck" = Ok sample_manifest)
    by (vm_compute; reflexivity).
  exact (conj Hb (written_text_is_json sample_world "/srv/packs" ".pck" sample_manifest Hb)).
Defined.

(** ** The empty suffix *)

(** X13. With the empty string as suffix every name matches, so the
    manifest lists every regular file of the directory, whatever its
    name. *)
Theorem empty_suffix_selects_all (w : world) (base_dir : string) (names : list string)
    (m : list (string * json)) (k : string) :
  listdir w base_dir = Ok names →
  build_manifest w base_dir EmptyString = Ok m →
  k ∈ dict_keys m ↔ k ∈ names ∧ isfile w (path_join base_dir k) = true.
Proof.
  intros Hls Hb. rewrite (build_manifest_keys w base_dir EmptyString names m k Hls Hb).
  assert (PyStr.endswith k EmptyString = true) as ->.
  { apply endswith_iff. exists k. by rewrite str_app_nil_r. }
  split; [by intros (? & _ & ?)|by intros [??]].
Qed.

Lemma empty_suffix_selects_all_witness :
  listdir empty_world "/srv/empty" = Ok ["notes.txt"; "old.pck"]
  ∧ build_manifest empty_world "/srv/empty" EmptyString
    = Ok [("notes.txt",
           entry "1b16b1df538ba12dc3f97edbb85caa7050d46c148134290feba80f8236c83db9"
             1 "1970-01-01T00:00:00Z")]
  ∧ ("notes.txt" ∈ dict_keys
       [("notes.txt",
         entry "1b16b1df538ba12dc3f97edbb85caa7050d46c148134290feba80f8236c83db9"
           1 "1970-01-01T00:00:00Z")]
     ↔ "notes.txt" ∈ ["notes.txt"; "old.pck"]
       ∧ isfile empty_world (path_join "/srv/empty" "notes.txt") = true).
Proof.
  assert (Hb : build_manifest empty_world "/srv/empty" EmptyString
    = Ok [("notes.txt",
           entry "1b16b1df538ba12dc3f97edbb85caa7050d46c148134290feba80f8236c83db9"
             1 "1970-01-01T00:00:00Z")]) by (vm_compute; reflexivity).
  exact (conj eq_refl (conj Hb
    (empty_suffix_selects_all empty_world "/srv/empty" ["notes.txt"; "old.pck"] _
       "notes.txt" eq_refl Hb))).
Defined.
